(** * Cat feeder: protocol state machine, dispense sequencer, feed scheduler

    A shallow embedding of [src/src/MarlinController.cpp] and of the parts of
    [src/src/main.cpp] that drive it, with the properties the specification
    states about them.

    Conventions of the embedding.

    - [int], [time_t] and [size_t] values are integers of [Z].  Where the
      source does arithmetic on them the two's-complement result is written
      out ([wrap_int], [wrap_time]); C++ leaves signed overflow undefined, so
      every theorem that depends on such a result states the range in which no
      overflow happens.
    - [double] is an interface ([DoubleOps]): the type, the operations the
      source applies to it and the library functions [std::stod] and
      [std::to_string].  Theorems hold for every implementation of the
      interface; [QDouble] is an exact-rational implementation used to run the
      model on concrete inputs.
    - The serial port is the list of byte strings handed to [write(2)], oldest
      first.  Console output ([std::cout], [std::cerr]) and the OLED display
      are not part of the state.
    - The reader thread and the control loop are interleaved at the grain of
      whole calls: one [handleResponse] per received line, one pass of the
      control loop, one button callback. *)

From Stdlib Require Import ZArith String Ascii List Bool Lia DecimalString.
From Stdlib Require Import QArith Qround.
Import ListNotations.

Local Open Scope string_scope.
Local Open Scope Z_scope.

(** ** Machine integers *)

(** Two's-complement value of [z] in a signed integer of [w] bits. *)
Definition wrap_signed (w : Z) (z : Z) : Z :=
  (z + 2 ^ (w - 1)) mod 2 ^ w - 2 ^ (w - 1).

Definition wrap_int : Z -> Z := wrap_signed 32.
Definition wrap_time : Z -> Z := wrap_signed 64.

Definition INT_MIN : Z := - 2 ^ 31.
Definition INT_MAX : Z := 2 ^ 31 - 1.
Definition TIME_MAX : Z := 2 ^ 63 - 1.

(** ** [std::string] *)

(** [std::string::npos], the largest [size_t]. *)
Definition npos : Z := 2 ^ 64 - 1.

Definition size (s : string) : Z := Z.of_nat (String.length s).

(** [s.find(pat, pos)]: position of the first occurrence of [pat] in [s] at or
    after [pos], [npos] when there is none. *)
Definition find (s pat : string) (pos : Z) : Z :=
  if size s <? pos then npos
  else match String.index (Z.to_nat pos) pat s with
       | Some i => Z.of_nat i
       | None => npos
       end.

(** [s.substr(pos, count)]: [None] stands for the [std::out_of_range] thrown
    when [pos > s.size()]; [count] is cut to the characters that remain. *)
Definition substr (s : string) (pos count : Z) : option string :=
  if size s <? pos then None
  else Some (String.substring (Z.to_nat pos)
                              (Z.to_nat (Z.min count (size s - pos))) s).

(** Subtraction of two [size_t] values. *)
Definition size_sub (a b : Z) : Z := (a - b) mod 2 ^ 64.

(** The line terminator appended by [sendGCode]. *)
Definition LF : string := String (ascii_of_nat 10) EmptyString.

(** [std::to_string(int)]. *)
Definition to_string (z : Z) : string := NilZero.string_of_int (Z.to_int z).

(** ** [double] *)

Class DoubleOps : Type := {
  double : Type;
  (** conversion of an integer value ([int], [time_t] or an integral literal) *)
  d_of_Z : Z -> double;
  dadd : double -> double -> double;
  dsub : double -> double -> double;
  dmul : double -> double -> double;
  (** [a < b] *)
  dltb : double -> double -> bool;
  (** the literal [0.25] *)
  d_quarter : double;
  (** conversion to [time_t] (truncation) *)
  d_to_time : double -> Z;
  (** [std::stod]: [None] when it throws ([std::invalid_argument],
      [std::out_of_range]) *)
  stod : string -> option double;
  (** [std::to_string(double)] *)
  to_string_d : double -> string
}.

(** Integers below 2^53 are exact in binary64, and so are their sums and
    products below that bound: an implementation that is faithful to it
    computes a whole number of hours added to a timestamp exactly. *)
Definition whole_hours_exact (D : DoubleOps) : Prop :=
  forall now h : Z,
    0 <= now < 2 ^ 52 -> 0 <= h < 2 ^ 20 ->
    d_to_time (dadd (d_of_Z now) (dmul (d_of_Z h) (d_of_Z 3600)))
    = now + h * 3600.

(** ** MarlinController.h, MarlinController.cpp *)

Module MarlinController.

Inductive state : Set :=
| disconnected
| idle
| homingZ
| zMoveStarted
| zMoveWaitForComplete1
| zMoveWaitForComplete2
| zMoveCompleted
| homingX
| xHomed
| moveStarted
| moveWaitForComplete
| moveCompleted
| getPosition.

Definition state_eqb (a b : state) : bool :=
  match a, b with
  | disconnected, disconnected | idle, idle | homingZ, homingZ
  | zMoveStarted, zMoveStarted
  | zMoveWaitForComplete1, zMoveWaitForComplete1
  | zMoveWaitForComplete2, zMoveWaitForComplete2
  | zMoveCompleted, zMoveCompleted | homingX, homingX | xHomed, xHomed
  | moveStarted, moveStarted | moveWaitForComplete, moveWaitForComplete
  | moveCompleted, moveCompleted | getPosition, getPosition => true
  | _, _ => false
  end.

Section Controller.
Context {D : DoubleOps}.

(** The data members of the class; [written] is what has gone out through
    [marlinPort]. *)
Record t : Type := mk {
  marlinState : state;
  xPos : double;
  zPos : double;
  burnExtraOK : bool;
  marlinPort : Z;
  written : list string
}.

Definition set_marlinState (s : state) (m : t) : t :=
  mk s (xPos m) (zPos m) (burnExtraOK m) (marlinPort m) (written m).
Definition set_xPos (x : double) (m : t) : t :=
  mk (marlinState m) x (zPos m) (burnExtraOK m) (marlinPort m) (written m).
Definition set_zPos (z : double) (m : t) : t :=
  mk (marlinState m) (xPos m) z (burnExtraOK m) (marlinPort m) (written m).
Definition set_burnExtraOK (b : bool) (m : t) : t :=
  mk (marlinState m) (xPos m) (zPos m) b (marlinPort m) (written m).
Definition set_marlinPort (p : Z) (m : t) : t :=
  mk (marlinState m) (xPos m) (zPos m) (burnExtraOK m) p (written m).
Definition set_written (w : list string) (m : t) : t :=
  mk (marlinState m) (xPos m) (zPos m) (burnExtraOK m) (marlinPort m) w.

Definition isConnected (m : t) : bool := 0 <=? marlinPort m.

Definition sendGCode (gcode : string) (m : t) : t :=
  if negb (isConnected m) then m
  else set_written (written m ++ [gcode ++ LF]) m.

(** The object as the constructor leaves it once the port [fd] is open: the
    member initialisers of the header, then [sendGCode("G90")] and
    [marlinState = idle]. *)
Definition construct (fd : Z) : t :=
  set_marlinState idle
    (sendGCode "G90" (mk disconnected (d_of_Z 0) (d_of_Z 0) false fd [])).

Definition disconnect (m : t) : t :=
  if 0 <=? marlinPort m
  then set_marlinState disconnected (set_marlinPort (-1) m)
  else m.

Definition homeX (m : t) : t :=
  if negb (isConnected m) then m
  else sendGCode "G28 X" (set_marlinState homingX m).

Definition moveXTo (position speed : double) (m : t) : t :=
  if negb (isConnected m) then m
  else set_xPos position
         (sendGCode ("G0 X" ++ to_string_d position ++ " F" ++ to_string_d speed)
                    (set_marlinState moveStarted m)).

Definition homeZ (m : t) : t :=
  if negb (isConnected m) then m
  else sendGCode "G28 Z" (set_marlinState homingZ m).

Definition moveZTo (position : double) (m : t) : t :=
  if negb (isConnected m) then m
  else set_zPos position
         (sendGCode ("G0 Z" ++ to_string_d position ++ " F300")
                    (set_marlinState zMoveStarted m)).

Definition setState (newState : state) (m : t) : t :=
  set_marlinState newState m.

Definition getState (m : t) : state := marlinState m.
Definition getCurrentState (m : t) : state := marlinState m.

(** [std::stod(response.substr(start + 2, response.find(' ', start) - (start + 2)))];
    [None] when [substr] or [stod] throws. *)
Definition stod_field (response : string) (start : Z) : option double :=
  match substr response (start + 2)
               (size_sub (find response " " start) (start + 2)) with
  | None => None
  | Some field => stod field
  end.

(** The two assignments sit in one [try] block: an exception leaves the block
    at the statement that threw, and the handler only logs. *)
Definition extractPosition (response : string) (m : t) : t :=
  let xPosStart := find response "X:" 0 in
  let zPosStart := find response "Z:" 0 in
  if negb (xPosStart =? npos) && negb (zPosStart =? npos) then
    match stod_field response xPosStart with
    | None => m
    | Some x =>
        let m1 := set_xPos x m in
        match stod_field response zPosStart with
        | None => m1
        | Some z => set_zPos z m1
        end
    end
  else m.

Definition handleResponse (response : string) (m : t) : t :=
  if find response "X:" 0 =? 0 then extractPosition response m
  else
    match marlinState m with
    | homingX =>
        if (response =? "ok")%string then set_marlinState xHomed m else m
    | homingZ =>
        if (response =? "ok")%string then set_marlinState idle m else m
    | zMoveStarted =>
        if (response =? "ok")%string
        then set_marlinState zMoveWaitForComplete1 (sendGCode "M400" m)
        else m
    | zMoveWaitForComplete1 =>
        if (response =? "ok")%string then
          if burnExtraOK m
          then set_marlinState zMoveWaitForComplete2 (set_burnExtraOK false m)
          else set_marlinState idle m
        else m
    | zMoveWaitForComplete2 =>
        if (response =? "ok")%string then set_marlinState idle m else m
    | moveStarted =>
        if (response =? "ok")%string
        then set_marlinState moveWaitForComplete (sendGCode "M400" m)
        else m
    | moveWaitForComplete =>
        if (response =? "ok")%string then set_marlinState moveCompleted m else m
    | getPosition =>
        if (response =? "ok")%string then set_marlinState idle m else m
    | disconnected | idle | zMoveCompleted | xHomed | moveCompleted => m
    end.

Definition setFanSpeed (fanNumber speedPercent : Z) (m : t) : t :=
  let speedPercent := if speedPercent <? 0 then 0 else speedPercent in
  let speedPercent := if speedPercent >? 100 then 100 else speedPercent in
  let pwmValue := Z.quot (wrap_int (speedPercent * 255)) 100 in
  let gcode := "M106 P" ++ to_string fanNumber ++ " S" ++ to_string pwmValue in
  sendGCode gcode m.

End Controller.

Arguments t {D}.

End MarlinController.

(** ** main.cpp *)

(** The global [enum state] of main.cpp: the dispense phases and the start-up
    and can-loading states. *)
Inductive state : Set :=
| idle
| phase1_x_homing
| phase2_x_to_start
| phase3_tab_lifting
| phase4_lid_peeling
| phase5_x_rehoming
| phase6_z_lift_to_eject
| phase7_x_eject
| phase8_x_rehoming_final
| phase9_z_next_can
| initial_z_homing
| initial_z_offsetting
| loading_first
| canLoad_step_1
| canLoad_step_2.

Inductive ScheduleMode : Set :=
| INTERVAL_MODE
| DAILY_MODE.

Inductive MenuState : Set :=
| CLOCK_SCREEN
| MAIN_MENU
| COMMANDS_MENU
| SETTINGS_MENU
| ADJUST_Z_MENU
| LOAD_CAN_MENU
| LOAD_CAN_INSERT_MENU
| SCHEDULE_MODE_MENU
| SCHEDULE_TIME_MENU
| RUNNING_OPERATION.

Definition machineStateToString (s : state) : string :=
  match s with
  | idle => "idle"
  | phase1_x_homing => "phase1_x_homing"
  | phase2_x_to_start => "phase2_x_to_start"
  | phase3_tab_lifting => "phase3_tab_lifting"
  | phase4_lid_peeling => "phase4_lid_peeling"
  | phase5_x_rehoming => "phase5_x_rehoming"
  | phase6_z_lift_to_eject => "phase6_z_lift_to_eject"
  | phase7_x_eject => "phase7_x_eject"
  | phase8_x_rehoming_final => "phase8_x_rehoming_final"
  | phase9_z_next_can => "phase9_z_next_can"
  | initial_z_homing => "initial_z_homing"
  | initial_z_offsetting => "initial_z_offsetting"
  | loading_first => "loading_first"
  | canLoad_step_1 => "canLoad_step_1"
  | canLoad_step_2 => "canLoad_step_2"
  end.

Definition stringToMachineState (s : string) : state :=
  if (s =? "idle")%string then idle
  else if (s =? "phase1_x_homing")%string then phase1_x_homing
  else if (s =? "phase2_x_to_start")%string then phase2_x_to_start
  else if (s =? "phase3_tab_lifting")%string then phase3_tab_lifting
  else if (s =? "phase4_lid_peeling")%string then phase4_lid_peeling
  else if (s =? "phase5_x_rehoming")%string then phase5_x_rehoming
  else if (s =? "phase6_z_lift_to_eject")%string then phase6_z_lift_to_eject
  else if (s =? "phase7_x_eject")%string then phase7_x_eject
  else if (s =? "phase8_x_rehoming_final")%string then phase8_x_rehoming_final
  else if (s =? "phase9_z_next_can")%string then phase9_z_next_can
  else if (s =? "initial_z_homing")%string then initial_z_homing
  else if (s =? "initial_z_offsetting")%string then initial_z_offsetting
  else if (s =? "loading_first")%string then loading_first
  else if (s =? "canLoad_step_1")%string then canLoad_step_1
  else if (s =? "canLoad_step_2")%string then canLoad_step_2
  else idle.

(** The Z-move states have no case in the source and print as "unknown". *)
Definition marlinStateToString (s : MarlinController.state) : string :=
  match s with
  | MarlinController.disconnected => "disconnected"
  | MarlinController.idle => "idle"
  | MarlinController.homingZ => "homingZ"
  | MarlinController.homingX => "homingX"
  | MarlinController.xHomed => "xHomed"
  | MarlinController.moveStarted => "moveStarted"
  | MarlinController.moveWaitForComplete => "moveWaitForComplete"
  | MarlinController.moveCompleted => "moveCompleted"
  | MarlinController.getPosition => "getPosition"
  | MarlinController.zMoveStarted
  | MarlinController.zMoveWaitForComplete1
  | MarlinController.zMoveWaitForComplete2
  | MarlinController.zMoveCompleted => "unknown"
  end.

Definition stringToMarlinState (s : string) : MarlinController.state :=
  if (s =? "disconnected")%string then MarlinController.disconnected
  else if (s =? "idle")%string then MarlinController.idle
  else if (s =? "homingZ")%string then MarlinController.homingZ
  else if (s =? "homingX")%string then MarlinController.homingX
  else if (s =? "xHomed")%string then MarlinController.xHomed
  else if (s =? "moveStarted")%string then MarlinController.moveStarted
  else if (s =? "moveWaitForComplete")%string
       then MarlinController.moveWaitForComplete
  else if (s =? "moveCompleted")%string then MarlinController.moveCompleted
  else if (s =? "getPosition")%string then MarlinController.getPosition
  else MarlinController.idle.

Scheme Equality for state.
Scheme Equality for ScheduleMode.
Scheme Equality for MenuState.

(** A broken-down local time.  [tm_day] counts the days since the epoch and
    stands for [tm_mday], [tm_mon] and [tm_year] together; the time zone is a
    fixed offset from UTC ([utc_offset], in seconds), without daylight-saving
    changes. *)
Record tm : Set := mk_tm {
  tm_sec : Z;
  tm_min : Z;
  tm_hour : Z;
  tm_day : Z
}.

Definition localtime (utc_offset t : Z) : tm :=
  let l := t + utc_offset in
  mk_tm (l mod 60) (l mod 3600 / 60) (l mod 86400 / 3600) (l / 86400).

(** [mktime] normalises fields that are out of range by carrying them over. *)
Definition mktime (utc_offset : Z) (b : tm) : Z :=
  ((tm_day b * 24 + tm_hour b) * 60 + tm_min b) * 60 + tm_sec b - utc_offset.

Section Main.
Context {D : DoubleOps}.

(** The [static bool started] of the nine phase functions, in phase order. *)
Record latches : Set := mk_latches {
  started1 : bool;
  started2 : bool;
  started3 : bool;
  started4 : bool;
  started5 : bool;
  started6 : bool;
  started7 : bool;
  started8 : bool;
  started9 : bool
}.

(** The content of machine_state.json, key by key; the "timestamp" key, which
    is written and never read back, is left out. *)
Record snapshot : Type := mk_snapshot {
  machine_state : string;
  marlin_state : string;
  x_position : double;
  z_position : double;
  cans_loaded : Z;
  eject_last : double;
  feed_gap : double;
  feed_time : Z;
  schedule_mode : string;
  daily_feed_hour : Z;
  daily_feed_minute : Z
}.

(** The global variables of main.cpp.  [g_marlin] is the controller the global
    pointer refers to: [main] sets the pointer before anything below runs and
    clears it only after the control loop has ended, so it is never null here
    and the tests [if (g_marlin)] succeed.  [machine_state_json] is the file
    written by [saveStateToJSON], newest content first. *)
Record globals : Type := mk_globals {
  machineState : state;
  g_marlin : MarlinController.t;
  cansLoaded : Z;
  operationRunning : bool;
  canLoadSequence : bool;
  feedGap : double;
  feedTime : Z;
  fanStopTime : Z;
  scheduleMode : ScheduleMode;
  dailyFeedHour : Z;
  dailyFeedMinute : Z;
  startupSequenceComplete : bool;
  ejectLast : double;
  openLast : double;
  currentMenu : MenuState;
  menuSelection : Z;
  statics : latches;
  machine_state_json : list snapshot
}.

Definition set_started1 (b : bool) (s : latches) : latches :=
  mk_latches b (started2 s) (started3 s) (started4 s) (started5 s) (started6 s) (started7 s) (started8 s) (started9 s).
Definition set_started2 (b : bool) (s : latches) : latches :=
  mk_latches (started1 s) b (started3 s) (started4 s) (started5 s) (started6 s) (started7 s) (started8 s) (started9 s).
Definition set_started3 (b : bool) (s : latches) : latches :=
  mk_latches (started1 s) (started2 s) b (started4 s) (started5 s) (started6 s) (started7 s) (started8 s) (started9 s).
Definition set_started4 (b : bool) (s : latches) : latches :=
  mk_latches (started1 s) (started2 s) (started3 s) b (started5 s) (started6 s) (started7 s) (started8 s) (started9 s).
Definition set_started5 (b : bool) (s : latches) : latches :=
  mk_latches (started1 s) (started2 s) (started3 s) (started4 s) b (started6 s) (started7 s) (started8 s) (started9 s).
Definition set_started6 (b : bool) (s : latches) : latches :=
  mk_latches (started1 s) (started2 s) (started3 s) (started4 s) (started5 s) b (started7 s) (started8 s) (started9 s).
Definition set_started7 (b : bool) (s : latches) : latches :=
  mk_latches (started1 s) (started2 s) (started3 s) (started4 s) (started5 s) (started6 s) b (started8 s) (started9 s).
Definition set_started8 (b : bool) (s : latches) : latches :=
  mk_latches (started1 s) (started2 s) (started3 s) (started4 s) (started5 s) (started6 s) (started7 s) b (started9 s).
Definition set_started9 (b : bool) (s : latches) : latches :=
  mk_latches (started1 s) (started2 s) (started3 s) (started4 s) (started5 s) (started6 s) (started7 s) (started8 s) b.

Definition set_machineState (v : state) (g : globals) : globals :=
  mk_globals v (g_marlin g) (cansLoaded g) (operationRunning g)
    (canLoadSequence g) (feedGap g) (feedTime g) (fanStopTime g)
    (scheduleMode g) (dailyFeedHour g) (dailyFeedMinute g)
    (startupSequenceComplete g) (ejectLast g) (openLast g) (currentMenu g)
    (menuSelection g) (statics g) (machine_state_json g).
Definition set_g_marlin (v : MarlinController.t) (g : globals) : globals :=
  mk_globals (machineState g) v (cansLoaded g) (operationRunning g)
    (canLoadSequence g) (feedGap g) (feedTime g) (fanStopTime g)
    (scheduleMode g) (dailyFeedHour g) (dailyFeedMinute g)
    (startupSequenceComplete g) (ejectLast g) (openLast g) (currentMenu g)
    (menuSelection g) (statics g) (machine_state_json g).
Definition set_cansLoaded (v : Z) (g : globals) : globals :=
  mk_globals (machineState g) (g_marlin g) v (operationRunning g)
    (canLoadSequence g) (feedGap g) (feedTime g) (fanStopTime g)
    (scheduleMode g) (dailyFeedHour g) (dailyFeedMinute g)
    (startupSequenceComplete g) (ejectLast g) (openLast g) (currentMenu g)
    (menuSelection g) (statics g) (machine_state_json g).
Definition set_operationRunning (v : bool) (g : globals) : globals :=
  mk_globals (machineState g) (g_marlin g) (cansLoaded g) v (canLoadSequence
    g) (feedGap g) (feedTime g) (fanStopTime g) (scheduleMode g)
    (dailyFeedHour g) (dailyFeedMinute g) (startupSequenceComplete g)
    (ejectLast g) (openLast g) (currentMenu g) (menuSelection g) (statics g)
    (machine_state_json g).
Definition set_canLoadSequence (v : bool) (g : globals) : globals :=
  mk_globals (machineState g) (g_marlin g) (cansLoaded g) (operationRunning
    g) v (feedGap g) (feedTime g) (fanStopTime g) (scheduleMode g)
    (dailyFeedHour g) (dailyFeedMinute g) (startupSequenceComplete g)
    (ejectLast g) (openLast g) (currentMenu g) (menuSelection g) (statics g)
    (machine_state_json g).
Definition set_feedGap (v : double) (g : globals) : globals :=
  mk_globals (machineState g) (g_marlin g) (cansLoaded g) (operationRunning
    g) (canLoadSequence g) v (feedTime g) (fanStopTime g) (scheduleMode g)
    (dailyFeedHour g) (dailyFeedMinute g) (startupSequenceComplete g)
    (ejectLast g) (openLast g) (currentMenu g) (menuSelection g) (statics g)
    (machine_state_json g).
Definition set_feedTime (v : Z) (g : globals) : globals :=
  mk_globals (machineState g) (g_marlin g) (cansLoaded g) (operationRunning
    g) (canLoadSequence g) (feedGap g) v (fanStopTime g) (scheduleMode g)
    (dailyFeedHour g) (dailyFeedMinute g) (startupSequenceComplete g)
    (ejectLast g) (openLast g) (currentMenu g) (menuSelection g) (statics g)
    (machine_state_json g).
Definition set_fanStopTime (v : Z) (g : globals) : globals :=
  mk_globals (machineState g) (g_marlin g) (cansLoaded g) (operationRunning
    g) (canLoadSequence g) (feedGap g) (feedTime g) v (scheduleMode g)
    (dailyFeedHour g) (dailyFeedMinute g) (startupSequenceComplete g)
    (ejectLast g) (openLast g) (currentMenu g) (menuSelection g) (statics g)
    (machine_state_json g).
Definition set_scheduleMode (v : ScheduleMode) (g : globals) : globals :=
  mk_globals (machineState g) (g_marlin g) (cansLoaded g) (operationRunning
    g) (canLoadSequence g) (feedGap g) (feedTime g) (fanStopTime g) v
    (dailyFeedHour g) (dailyFeedMinute g) (startupSequenceComplete g)
    (ejectLast g) (openLast g) (currentMenu g) (menuSelection g) (statics g)
    (machine_state_json g).
Definition set_dailyFeedHour (v : Z) (g : globals) : globals :=
  mk_globals (machineState g) (g_marlin g) (cansLoaded g) (operationRunning
    g) (canLoadSequence g) (feedGap g) (feedTime g) (fanStopTime g)
    (scheduleMode g) v (dailyFeedMinute g) (startupSequenceComplete g)
    (ejectLast g) (openLast g) (currentMenu g) (menuSelection g) (statics g)
    (machine_state_json g).
Definition set_dailyFeedMinute (v : Z) (g : globals) : globals :=
  mk_globals (machineState g) (g_marlin g) (cansLoaded g) (operationRunning
    g) (canLoadSequence g) (feedGap g) (feedTime g) (fanStopTime g)
    (scheduleMode g) (dailyFeedHour g) v (startupSequenceComplete g)
    (ejectLast g) (openLast g) (currentMenu g) (menuSelection g) (statics g)
    (machine_state_json g).
Definition set_startupSequenceComplete (v : bool) (g : globals) : globals :=
  mk_globals (machineState g) (g_marlin g) (cansLoaded g) (operationRunning
    g) (canLoadSequence g) (feedGap g) (feedTime g) (fanStopTime g)
    (scheduleMode g) (dailyFeedHour g) (dailyFeedMinute g) v (ejectLast g)
    (openLast g) (currentMenu g) (menuSelection g) (statics g)
    (machine_state_json g).
Definition set_ejectLast (v : double) (g : globals) : globals :=
  mk_globals (machineState g) (g_marlin g) (cansLoaded g) (operationRunning
    g) (canLoadSequence g) (feedGap g) (feedTime g) (fanStopTime g)
    (scheduleMode g) (dailyFeedHour g) (dailyFeedMinute g)
    (startupSequenceComplete g) v (openLast g) (currentMenu g)
    (menuSelection g) (statics g) (machine_state_json g).
Definition set_openLast (v : double) (g : globals) : globals :=
  mk_globals (machineState g) (g_marlin g) (cansLoaded g) (operationRunning
    g) (canLoadSequence g) (feedGap g) (feedTime g) (fanStopTime g)
    (scheduleMode g) (dailyFeedHour g) (dailyFeedMinute g)
    (startupSequenceComplete g) (ejectLast g) v (currentMenu g)
    (menuSelection g) (statics g) (machine_state_json g).
Definition set_currentMenu (v : MenuState) (g : globals) : globals :=
  mk_globals (machineState g) (g_marlin g) (cansLoaded g) (operationRunning
    g) (canLoadSequence g) (feedGap g) (feedTime g) (fanStopTime g)
    (scheduleMode g) (dailyFeedHour g) (dailyFeedMinute g)
    (startupSequenceComplete g) (ejectLast g) (openLast g) v (menuSelection
    g) (statics g) (machine_state_json g).
Definition set_menuSelection (v : Z) (g : globals) : globals :=
  mk_globals (machineState g) (g_marlin g) (cansLoaded g) (operationRunning
    g) (canLoadSequence g) (feedGap g) (feedTime g) (fanStopTime g)
    (scheduleMode g) (dailyFeedHour g) (dailyFeedMinute g)
    (startupSequenceComplete g) (ejectLast g) (openLast g) (currentMenu g) v
    (statics g) (machine_state_json g).
Definition set_statics (v : latches) (g : globals) : globals :=
  mk_globals (machineState g) (g_marlin g) (cansLoaded g) (operationRunning
    g) (canLoadSequence g) (feedGap g) (feedTime g) (fanStopTime g)
    (scheduleMode g) (dailyFeedHour g) (dailyFeedMinute g)
    (startupSequenceComplete g) (ejectLast g) (openLast g) (currentMenu g)
    (menuSelection g) v (machine_state_json g).
Definition set_machine_state_json (v : list snapshot) (g : globals) : globals :=
  mk_globals (machineState g) (g_marlin g) (cansLoaded g) (operationRunning
    g) (canLoadSequence g) (feedGap g) (feedTime g) (fanStopTime g)
    (scheduleMode g) (dailyFeedHour g) (dailyFeedMinute g)
    (startupSequenceComplete g) (ejectLast g) (openLast g) (currentMenu g)
    (menuSelection g) (statics g) v.

(** [g |> f |> h] runs the statement [f], then [h], on the globals [g]. *)
Notation "g |> f" := (f g) (at level 45, left associativity, only parsing).

(** [setZPosOffsetStart] is called by [setCanOpenOffset] but neither declared
    in MarlinController.h nor defined in MarlinController.cpp: it is a
    parameter of the model. *)
Variable setZPosOffsetStart : double -> MarlinController.t -> MarlinController.t.

(** The fixed offset of local time from UTC, in seconds. *)
Variable utc_offset : Z.

Definition canToEject : double := d_of_Z 21.
Definition nextCan : double := d_of_Z 37.
Definition cartridgeHeight : double := d_of_Z 58.

(** A call of a method through [g_marlin]. *)
Definition on_marlin (f : MarlinController.t -> MarlinController.t)
    (g : globals) : globals :=
  set_g_marlin (f (g_marlin g)) g.

Definition marlin_is (s : MarlinController.state) (g : globals) : bool :=
  MarlinController.state_eqb (MarlinController.getState (g_marlin g)) s.

Definition on_statics (f : latches -> latches) (g : globals) : globals :=
  set_statics (f (statics g)) g.

Definition current_snapshot (g : globals) : snapshot :=
  mk_snapshot
    (machineStateToString (machineState g))
    (marlinStateToString (MarlinController.getState (g_marlin g)))
    (MarlinController.xPos (g_marlin g))
    (MarlinController.zPos (g_marlin g))
    (cansLoaded g)
    (ejectLast g)
    (feedGap g)
    (feedTime g)
    (match scheduleMode g with
     | INTERVAL_MODE => "INTERVAL"
     | DAILY_MODE => "DAILY"
     end)
    (dailyFeedHour g)
    (dailyFeedMinute g).

(** The file is rewritten with the current values; the copy for the web API
    that follows in the source sits behind an unconditional [return]. *)
Definition saveStateToJSON (g : globals) : globals :=
  set_machine_state_json (current_snapshot g :: machine_state_json g) g.

(** [parsed] holds the values the line-by-line reader took from the file, the
    defaults where a key is absent; [None] when the file cannot be opened or a
    number in it does not parse, in which case nothing is restored. *)
Definition loadStateFromJSON (parsed : option snapshot) (g : globals)
    : globals :=
  match parsed with
  | None => g
  | Some p =>
      g |> set_machineState (stringToMachineState (machine_state p))
        |> on_marlin (MarlinController.setState
                        (stringToMarlinState (marlin_state p)))
        |> on_marlin (MarlinController.set_xPos (x_position p))
        |> on_marlin (MarlinController.set_zPos (z_position p))
        |> set_cansLoaded (cans_loaded p)
        |> set_ejectLast (eject_last p)
        |> set_feedGap (feed_gap p)
        |> set_feedTime (feed_time p)
        |> set_scheduleMode (if (schedule_mode p =? "DAILY")%string
                             then DAILY_MODE else INTERVAL_MODE)
        |> set_dailyFeedHour (daily_feed_hour p)
        |> set_dailyFeedMinute (daily_feed_minute p)
        |> (fun g => set_openLast (dsub (ejectLast g) (d_of_Z 21)) g)
  end.

Definition setCanOpenOffset (sendToMarlin : bool) (g : globals)
    : double * globals :=
  let g := set_openLast (dsub (ejectLast g) (d_of_Z 21)) g in
  let offset := dsub (dadd (openLast g) cartridgeHeight)
                     (dmul (d_of_Z (cansLoaded g)) cartridgeHeight) in
  (offset, if sendToMarlin then on_marlin (setZPosOffsetStart offset) g else g).

Definition phase1_x_homing_state (reset : bool) (g : globals) : globals :=
  if reset then on_statics (set_started1 false) g
  else if negb (started1 (statics g)) then
    g |> on_statics (set_started1 true)
      |> on_marlin MarlinController.homeX
      |> set_machineState phase1_x_homing
      |> saveStateToJSON
  else if marlin_is MarlinController.xHomed g then
    g |> set_machineState phase2_x_to_start
      |> on_statics (set_started1 false)
      |> saveStateToJSON
  else g.

Definition phase2_x_to_start_state (reset : bool) (g : globals) : globals :=
  if reset then on_statics (set_started2 false) g
  else if negb (started2 (statics g)) then
    g |> on_statics (set_started2 true)
      |> on_marlin (MarlinController.setState MarlinController.moveStarted)
      |> on_marlin (MarlinController.moveXTo (d_of_Z 165) (d_of_Z 600))
      |> saveStateToJSON
  else if marlin_is MarlinController.moveCompleted g then
    g |> set_machineState phase3_tab_lifting
      |> on_statics (set_started2 false)
      |> saveStateToJSON
  else g.

Definition phase3_tab_lifting_state (reset : bool) (g : globals) : globals :=
  if reset then on_statics (set_started3 false) g
  else if negb (started3 (statics g)) then
    g |> on_statics (set_started3 true)
      |> on_marlin (MarlinController.setState MarlinController.moveStarted)
      |> on_marlin (MarlinController.moveXTo (d_of_Z 248) (d_of_Z 150))
      |> saveStateToJSON
  else if marlin_is MarlinController.moveCompleted g then
    g |> set_machineState phase4_lid_peeling
      |> on_statics (set_started3 false)
      |> saveStateToJSON
  else g.

Definition phase4_lid_peeling_state (reset : bool) (g : globals) : globals :=
  if reset then on_statics (set_started4 false) g
  else if negb (started4 (statics g)) then
    g |> on_statics (set_started4 true)
      |> on_marlin (MarlinController.setState MarlinController.moveStarted)
      |> on_marlin (MarlinController.moveXTo (d_of_Z 25) (d_of_Z 150))
      |> saveStateToJSON
  else if marlin_is MarlinController.moveCompleted g then
    g |> set_machineState phase5_x_rehoming
      |> on_statics (set_started4 false)
      |> saveStateToJSON
  else g.

Definition phase5_x_rehoming_state (reset : bool) (g : globals) : globals :=
  if reset then on_statics (set_started5 false) g
  else if negb (started5 (statics g)) then
    g |> on_statics (set_started5 true)
      |> on_marlin MarlinController.homeX
      |> saveStateToJSON
  else if marlin_is MarlinController.xHomed g then
    g |> set_machineState phase6_z_lift_to_eject
      |> on_statics (set_started5 false)
      |> saveStateToJSON
  else g.

Definition phase6_z_lift_to_eject_state (reset : bool) (g : globals)
    : globals :=
  if reset then on_statics (set_started6 false) g
  else if negb (started6 (statics g)) then
    g |> on_statics (set_started6 true)
      |> on_marlin (fun m =>
           let currentZ := MarlinController.zPos m in
           let currentZ := dadd currentZ canToEject in
           MarlinController.moveZTo currentZ m)
      |> saveStateToJSON
  else if marlin_is MarlinController.idle g then
    g |> set_machineState phase7_x_eject
      |> on_statics (set_started6 false)
      |> saveStateToJSON
  else g.

Definition phase7_x_eject_state (reset : bool) (g : globals) : globals :=
  if reset then on_statics (set_started7 false) g
  else if negb (started7 (statics g)) then
    g |> on_statics (set_started7 true)
      |> on_marlin (MarlinController.moveXTo (d_of_Z 248) (d_of_Z 600))
      |> saveStateToJSON
  else if marlin_is MarlinController.moveCompleted g then
    g |> set_machineState phase8_x_rehoming_final
      |> on_statics (set_started7 false)
      |> saveStateToJSON
  else g.

Definition phase8_x_rehoming_final_state (reset : bool) (g : globals)
    : globals :=
  if reset then on_statics (set_started8 false) g
  else if negb (started8 (statics g)) then
    g |> on_statics (set_started8 true)
      |> on_marlin (MarlinController.setState MarlinController.moveStarted)
      |> on_marlin MarlinController.homeX
      |> saveStateToJSON
  else if marlin_is MarlinController.xHomed g then
    g |> set_machineState phase9_z_next_can
      |> on_statics (set_started8 false)
      |> saveStateToJSON
  else g.

Definition phase9_z_next_can_state (reset : bool) (g : globals) : globals :=
  if reset then on_statics (set_started9 false) g
  else if negb (started9 (statics g)) then
    g |> on_statics (set_started9 true)
      |> on_marlin (fun m =>
           let currentZ := MarlinController.zPos m in
           let currentZ := dadd currentZ nextCan in
           MarlinController.moveZTo currentZ m)
      |> saveStateToJSON
  else if marlin_is MarlinController.idle g then
    g |> set_machineState idle
      |> on_statics (set_started9 false)
      |> (fun g => set_cansLoaded (wrap_int (cansLoaded g - 1)) g)
      |> saveStateToJSON
  else g.

Definition resetAllPhases (g : globals) : globals :=
  g |> phase1_x_homing_state true
    |> phase2_x_to_start_state true
    |> phase3_tab_lifting_state true
    |> phase4_lid_peeling_state true
    |> phase5_x_rehoming_state true
    |> phase6_z_lift_to_eject_state true
    |> phase7_x_eject_state true
    |> phase8_x_rehoming_final_state true
    |> phase9_z_next_can_state true.

Definition dispenseStateMachine (g : globals) : globals :=
  match machineState g with
  | phase1_x_homing => phase1_x_homing_state false g
  | phase2_x_to_start => phase2_x_to_start_state false g
  | phase3_tab_lifting => phase3_tab_lifting_state false g
  | phase4_lid_peeling => phase4_lid_peeling_state false g
  | phase5_x_rehoming => phase5_x_rehoming_state false g
  | phase6_z_lift_to_eject => phase6_z_lift_to_eject_state false g
  | phase7_x_eject => phase7_x_eject_state false g
  | phase8_x_rehoming_final => phase8_x_rehoming_final_state false g
  | phase9_z_next_can => phase9_z_next_can_state false g
  | idle => g
  | initial_z_homing | initial_z_offsetting | loading_first
  | canLoad_step_1 | canLoad_step_2 => g
  end.

Definition dispenseFoodStart (g : globals) : globals :=
  if cansLoaded g <? 1 then g
  else
    g |> set_operationRunning true
      |> on_marlin (MarlinController.setFanSpeed 0 100)
      |> on_marlin (MarlinController.setFanSpeed 1 100)
      |> resetAllPhases
      |> set_machineState idle
      |> saveStateToJSON
      |> phase1_x_homing_state false.

Definition ejectOnlyStart (g : globals) : globals :=
  if cansLoaded g <? 1 then g
  else
    g |> set_operationRunning true
      |> on_marlin (MarlinController.setFanSpeed 0 100)
      |> on_marlin (MarlinController.setFanSpeed 1 100)
      |> resetAllPhases
      |> set_machineState phase6_z_lift_to_eject
      |> saveStateToJSON.

Definition canLoadSequenceStart (g : globals) : globals :=
  on_marlin (fun m =>
    let currentZ := MarlinController.zPos m in
    let currentZ := dsub currentZ nextCan in
    MarlinController.moveZTo currentZ m) g.

Definition abortOperation (g : globals) : globals :=
  if operationRunning g then
    g |> on_marlin (MarlinController.sendGCode "M112")
      |> on_marlin (MarlinController.setFanSpeed 0 0)
      |> on_marlin (MarlinController.setFanSpeed 1 0)
      |> set_operationRunning false
      |> resetAllPhases
      |> set_machineState idle
      |> on_marlin (MarlinController.setState MarlinController.idle)
      |> saveStateToJSON
      |> set_currentMenu CLOCK_SCREEN
  else g.

(** [buttonLeftPressed]; [now] is the value [std::time(nullptr)] returns. *)
Definition buttonLeftPressed (now : Z) (g : globals) : globals :=
  match currentMenu g with
  | CLOCK_SCREEN => g
  | MAIN_MENU => set_currentMenu CLOCK_SCREEN g
  | COMMANDS_MENU | SETTINGS_MENU =>
      (if MenuState_beq (currentMenu g) SETTINGS_MENU
          && ScheduleMode_beq (scheduleMode g) DAILY_MODE
       then
         let timeInfo := localtime utc_offset now in
         let timeInfo :=
           mk_tm 0 (dailyFeedMinute g) (dailyFeedHour g) (tm_day timeInfo) in
         let todayFeedTime := mktime utc_offset timeInfo in
         let todayFeedTime :=
           if todayFeedTime <? now
           then wrap_time (todayFeedTime + 24 * 3600)
           else todayFeedTime in
         set_feedTime todayFeedTime g
       else g)
        |> set_currentMenu MAIN_MENU
        |> set_menuSelection 0
        |> saveStateToJSON
  | LOAD_CAN_MENU =>
      g |> set_currentMenu MAIN_MENU |> set_menuSelection 0
  | LOAD_CAN_INSERT_MENU =>
      g |> set_currentMenu LOAD_CAN_MENU |> set_menuSelection 0
  | ADJUST_Z_MENU =>
      g |> set_currentMenu SETTINGS_MENU
        |> set_menuSelection 0
        |> saveStateToJSON
        |> (fun g => snd (setCanOpenOffset true g))
  | SCHEDULE_MODE_MENU =>
      g |> set_currentMenu SETTINGS_MENU |> set_menuSelection 2
  | SCHEDULE_TIME_MENU =>
      g |> set_currentMenu SETTINGS_MENU
        |> set_menuSelection 3
        |> saveStateToJSON
  | RUNNING_OPERATION =>
      g |> set_currentMenu MAIN_MENU |> set_menuSelection 0
  end.

(** [buttonOkPressed]; [now] is the value [std::time(nullptr)] returns. *)
Definition buttonOkPressed (now : Z) (g : globals) : globals :=
  match currentMenu g with
  | CLOCK_SCREEN =>
      if operationRunning g then abortOperation g
      else g |> set_currentMenu MAIN_MENU |> set_menuSelection 0
  | MAIN_MENU =>
      if menuSelection g =? 0 then
        g |> set_currentMenu COMMANDS_MENU |> set_menuSelection 0
      else if menuSelection g =? 1 then
        g |> set_currentMenu SETTINGS_MENU |> set_menuSelection 0
      else if menuSelection g =? 2 then
        if cansLoaded g <? 6 then
          g |> set_canLoadSequence true
            |> set_machineState canLoad_step_1
            |> set_currentMenu LOAD_CAN_MENU
            |> set_menuSelection 0
        else g
      else g
  | COMMANDS_MENU =>
      if menuSelection g =? 0 then
        g |> set_scheduleMode INTERVAL_MODE
          |> (fun g => set_feedTime
                (d_to_time (dadd (d_of_Z now)
                                 (dmul (feedGap g) (d_of_Z 3600)))) g)
          |> saveStateToJSON
          |> set_currentMenu CLOCK_SCREEN
      else if menuSelection g =? 1 then
        on_marlin MarlinController.homeX g
      else if menuSelection g =? 2 then
        g |> (fun g => snd (setCanOpenOffset true g))
          |> on_marlin MarlinController.homeZ
      else if menuSelection g =? 3 then
        if cansLoaded g >? 0 then
          g |> set_currentMenu RUNNING_OPERATION |> dispenseFoodStart
        else g
      else if menuSelection g =? 4 then
        if cansLoaded g >? 0 then
          g |> set_currentMenu RUNNING_OPERATION |> ejectOnlyStart
        else g
      else g
  | SETTINGS_MENU =>
      if menuSelection g =? 0 then
        set_cansLoaded (if cansLoaded g <? 6
                        then wrap_int (cansLoaded g + 1) else 0) g
      else if menuSelection g =? 1 then
        set_currentMenu ADJUST_Z_MENU g
      else if menuSelection g =? 2 then
        g |> set_currentMenu SCHEDULE_MODE_MENU
          |> set_menuSelection
               (match scheduleMode g with INTERVAL_MODE => 0 | DAILY_MODE => 1 end)
      else if menuSelection g =? 3 then
        g |> set_currentMenu SCHEDULE_TIME_MENU |> set_menuSelection 0
      else g
  | ADJUST_Z_MENU => g
  | SCHEDULE_MODE_MENU =>
      g |> set_scheduleMode
             (if menuSelection g =? 0 then INTERVAL_MODE else DAILY_MODE)
        |> set_currentMenu SETTINGS_MENU
        |> set_menuSelection 2
        |> saveStateToJSON
  | SCHEDULE_TIME_MENU =>
      match scheduleMode g with
      | INTERVAL_MODE =>
          g |> set_currentMenu SETTINGS_MENU
            |> set_menuSelection 3
            |> saveStateToJSON
      | DAILY_MODE =>
          set_menuSelection (if menuSelection g =? 0 then 1 else 0) g
      end
  | LOAD_CAN_MENU =>
      if (cansLoaded g <? 6) && marlin_is MarlinController.idle g then
        g |> canLoadSequenceStart
          |> set_currentMenu LOAD_CAN_INSERT_MENU
          |> set_menuSelection 0
      else g
  | LOAD_CAN_INSERT_MENU =>
      if marlin_is MarlinController.idle g then
        g |> (fun g => set_cansLoaded (wrap_int (cansLoaded g + 1)) g)
          |> (fun g => let (offset, g) := setCanOpenOffset false g in
                       on_marlin (MarlinController.moveZTo offset) g)
          |> set_currentMenu MAIN_MENU
          |> set_menuSelection 2
      else g
  | RUNNING_OPERATION => g
  end.

Definition buttonUpPressed (g : globals) : globals :=
  match currentMenu g with
  | CLOCK_SCREEN => g
  | MAIN_MENU =>
      set_menuSelection
        (if menuSelection g >? 0 then wrap_int (menuSelection g - 1) else 2) g
  | COMMANDS_MENU =>
      set_menuSelection
        (if menuSelection g >? 0 then wrap_int (menuSelection g - 1) else 4) g
  | SETTINGS_MENU =>
      set_menuSelection
        (if menuSelection g >? 0 then wrap_int (menuSelection g - 1) else 3) g
  | LOAD_CAN_MENU => g
  | LOAD_CAN_INSERT_MENU => g
  | ADJUST_Z_MENU =>
      g |> (fun g => set_ejectLast (dadd (ejectLast g) d_quarter) g)
        |> (fun g => let (offset, g) := setCanOpenOffset false g in
                     on_marlin (MarlinController.moveZTo offset) g)
  | SCHEDULE_MODE_MENU =>
      set_menuSelection
        (if menuSelection g >? 0 then wrap_int (menuSelection g - 1) else 1) g
  | SCHEDULE_TIME_MENU =>
      match scheduleMode g with
      | INTERVAL_MODE =>
          g |> (fun g => set_feedGap (dadd (feedGap g) (d_of_Z 1)) g)
            |> (fun g => if dltb (d_of_Z 48) (feedGap g)
                         then set_feedGap (d_of_Z 48) g else g)
      | DAILY_MODE =>
          if menuSelection g =? 0 then
            set_dailyFeedHour
              (Z.rem (wrap_int (dailyFeedHour g + 1)) 24) g
          else
            g |> (fun g => set_dailyFeedMinute
                             (wrap_int (dailyFeedMinute g + 1)) g)
              |> (fun g => if dailyFeedMinute g >=? 60
                           then set_dailyFeedMinute 0 g else g)
      end
  | RUNNING_OPERATION => g
  end.

Definition buttonDownPressed (g : globals) : globals :=
  match currentMenu g with
  | CLOCK_SCREEN => g
  | MAIN_MENU =>
      set_menuSelection
        (if menuSelection g <? 2 then wrap_int (menuSelection g + 1) else 0) g
  | COMMANDS_MENU =>
      set_menuSelection
        (if menuSelection g <? 4 then wrap_int (menuSelection g + 1) else 0) g
  | SETTINGS_MENU =>
      set_menuSelection
        (if menuSelection g <? 3 then wrap_int (menuSelection g + 1) else 0) g
  | LOAD_CAN_MENU => g
  | LOAD_CAN_INSERT_MENU => g
  | ADJUST_Z_MENU =>
      g |> (fun g => set_ejectLast (dsub (ejectLast g) d_quarter) g)
        |> (fun g => let (offset, g) := setCanOpenOffset false g in
                     on_marlin (MarlinController.moveZTo offset) g)
  | SCHEDULE_MODE_MENU =>
      set_menuSelection
        (if menuSelection g <? 1 then wrap_int (menuSelection g + 1) else 0) g
  | SCHEDULE_TIME_MENU =>
      match scheduleMode g with
      | INTERVAL_MODE =>
          g |> (fun g => set_feedGap (dsub (feedGap g) (d_of_Z 1)) g)
            |> (fun g => if dltb (feedGap g) (d_of_Z 1)
                         then set_feedGap (d_of_Z 1) g else g)
      | DAILY_MODE =>
          if menuSelection g =? 0 then
            set_dailyFeedHour
              (Z.rem (wrap_int (wrap_int (dailyFeedHour g - 1) + 24)) 24) g
          else
            g |> (fun g => set_dailyFeedMinute
                             (wrap_int (dailyFeedMinute g - 1)) g)
              |> (fun g => if dailyFeedMinute g <? 0
                           then set_dailyFeedMinute 59 g else g)
      end
  | RUNNING_OPERATION => g
  end.

(** [buttonRightPressed] only prints a message. *)
Definition buttonRightPressed (g : globals) : globals := g.

(** The "manual_feed" action of [checkWebCommands]. *)
Definition webManualFeed (g : globals) : globals :=
  if negb (operationRunning g) && state_beq (machineState g) idle
     && startupSequenceComplete g
  then dispenseFoodStart g
  else g.

(** *** [main]: before the control loop *)

(** "Safety check: If loaded feed time is in the past, reschedule". *)
Definition rescheduleLoadedFeedTime (now : Z) (g : globals) : globals :=
  if feedTime g >? 0 then
    if feedTime g <? now then
      (match scheduleMode g with
       | DAILY_MODE =>
           let timeInfo := localtime utc_offset now in
           let timeInfo :=
             mk_tm 0 (dailyFeedMinute g) (dailyFeedHour g)
                   (tm_day timeInfo + 1) in
           set_feedTime (mktime utc_offset timeInfo) g
       | INTERVAL_MODE =>
           set_feedTime
             (d_to_time (dadd (d_of_Z now) (dmul (feedGap g) (d_of_Z 3600)))) g
       end) |> saveStateToJSON
    else g
  else g.

(** "If we loaded daily mode and no feed time is set, automatically activate
    daily scheduling". *)
Definition dailyModeAutoActivation (now : Z) (g : globals) : globals :=
  if ScheduleMode_beq (scheduleMode g) DAILY_MODE && (feedTime g =? 0) then
    let timeInfo := localtime utc_offset now in
    let timeInfo :=
      mk_tm 0 (dailyFeedMinute g) (dailyFeedHour g) (tm_day timeInfo) in
    let todayFeedTime := mktime utc_offset timeInfo in
    let todayFeedTime :=
      if todayFeedTime <? now
      then wrap_time (todayFeedTime + 24 * 3600)
      else todayFeedTime in
    g |> set_feedTime todayFeedTime |> saveStateToJSON
  else g.

(** The globals as their initialisers leave them, with the controller [main]
    has just constructed on the open port [fd]. *)
Definition initial_globals (fd : Z) : globals :=
  mk_globals idle (MarlinController.construct fd) 0 false false (d_of_Z 8) 0 0
    INTERVAL_MODE 6 30 false (d_of_Z 318) (dsub (d_of_Z 318) (d_of_Z 21))
    CLOCK_SCREEN 0
    (mk_latches false false false false false false false false false) [].

Definition main_startup (now : Z) (parsed : option snapshot) (g : globals)
    : globals :=
  g |> loadStateFromJSON parsed
    |> rescheduleLoadedFeedTime now
    |> dailyModeAutoActivation now
    |> (fun g => snd (setCanOpenOffset true g))
    |> set_machineState initial_z_homing
    |> on_marlin MarlinController.homeZ.

(** *** [main]: one pass of the control loop

    [now] is the system clock in seconds.  [checkButtons] and
    [checkWebCommands] deliver the button callbacks and [webManualFeed]; they
    are events of their own in [event] below. *)

Definition startupHomingCheck (g : globals) : globals :=
  if state_beq (machineState g) initial_z_homing
     && marlin_is MarlinController.idle g
  then g |> set_machineState idle |> saveStateToJSON
  else g.

Definition startupCompleteCheck (g : globals) : globals :=
  if negb (startupSequenceComplete g) && marlin_is MarlinController.idle g
     && state_beq (machineState g) idle
  then set_startupSequenceComplete true g
  else g.

(** "Check if it's time to start a scheduled feed". *)
Definition scheduledFeedCheck (now : Z) (g : globals) : globals :=
  if negb (operationRunning g) && state_beq (machineState g) idle
     && (feedTime g >? 0) && startupSequenceComplete g
  then
    let currentTime := now in
    if currentTime >=? feedTime g then
      (match scheduleMode g with
       | DAILY_MODE => set_feedTime (wrap_time (feedTime g + 24 * 3600)) g
       | INTERVAL_MODE =>
           set_feedTime
             (d_to_time (dadd (d_of_Z currentTime)
                              (dmul (feedGap g) (d_of_Z 3600)))) g
       end)
        |> saveStateToJSON
        |> dispenseFoodStart
    else g
  else g.

(** "Update operation if running". *)
Definition operationUpdate (now : Z) (g : globals) : globals :=
  if operationRunning g then
    let g := dispenseStateMachine g in
    if marlin_is MarlinController.idle g && state_beq (machineState g) idle
    then
      g |> set_operationRunning false
        |> set_fanStopTime (wrap_time (now + 5 * 60))
        |> saveStateToJSON
        |> (fun g => if MenuState_beq (currentMenu g) RUNNING_OPERATION
                     then g |> set_currentMenu MAIN_MENU |> set_menuSelection 0
                     else g)
    else g
  else g.

(** "Check if fan should be turned off". *)
Definition fanStopCheck (now : Z) (g : globals) : globals :=
  if fanStopTime g >? 0 then
    if now >=? fanStopTime g then
      g |> on_marlin (MarlinController.setFanSpeed 0 0)
        |> on_marlin (MarlinController.setFanSpeed 1 0)
        |> set_fanStopTime 0
    else g
  else g.

Definition controlLoopPass (now : Z) (g : globals) : globals :=
  g |> startupHomingCheck
    |> startupCompleteCheck
    |> scheduledFeedCheck now
    |> operationUpdate now
    |> fanStopCheck now.

(** *** The program as a transition system *)

(** What can happen between two states of the running program: the reader
    thread hands a line to [handleResponse], the control loop makes a pass,
    [checkButtons] runs the callback of a pressed button, or
    [checkWebCommands] finds a "manual_feed" action. *)
Inductive event : Type :=
| Line (response : string)
| Pass (now : Z)
| ButtonUp
| ButtonDown
| ButtonLeft (now : Z)
| ButtonRight
| ButtonOk (now : Z)
| WebManualFeed.

Definition step (e : event) (g : globals) : globals :=
  match e with
  | Line response => on_marlin (MarlinController.handleResponse response) g
  | Pass now => controlLoopPass now g
  | ButtonUp => buttonUpPressed g
  | ButtonDown => buttonDownPressed g
  | ButtonLeft now => buttonLeftPressed now g
  | ButtonRight => buttonRightPressed g
  | ButtonOk now => buttonOkPressed now g
  | WebManualFeed => webManualFeed g
  end.

Definition run (es : list event) (g : globals) : globals :=
  fold_left (fun g e => step e g) es g.

End Main.

Arguments globals {D}.
Arguments snapshot {D}.

(** ** An implementation of [DoubleOps] by exact rationals

    It reads and prints decimal numerals ("12.50", "-3", "1e3") and computes
    without rounding; infinities, NaN and hexadecimal numerals are outside it.
    It serves to run the model on concrete lines and states. *)

Module QDouble.

Definition is_space (c : ascii) : bool :=
  let n := Z.of_nat (nat_of_ascii c) in
  (n =? 32) || ((9 <=? n) && (n <=? 13)).

Fixpoint skip_spaces (s : string) : string :=
  match s with
  | String c s' => if is_space c then skip_spaces s' else s
  | EmptyString => s
  end.

Definition digit_of (c : ascii) : option Z :=
  let n := Z.of_nat (nat_of_ascii c) in
  if (48 <=? n) && (n <=? 57) then Some (n - 48) else None.

(** Reads the longest run of digits at the head of [s]: the number read after
    [acc], how many digits there were, and the rest of the string. *)
Fixpoint read_digits (s : string) (acc : Z) (count : nat)
    : Z * nat * string :=
  match s with
  | String c s' =>
      match digit_of c with
      | Some d => read_digits s' (acc * 10 + d) (S count)
      | None => (acc, count, s)
      end
  | EmptyString => (acc, count, s)
  end.

Definition read_sign (s : string) : bool * string :=
  match s with
  | String "-" s' => (true, s')
  | String "+" s' => (false, s')
  | _ => (false, s)
  end.

(** The exponent part, if one follows: a power of ten to multiply by. *)
Definition read_exponent (s : string) : Q :=
  match s with
  | String c s' =>
      if (Ascii.eqb c "e" || Ascii.eqb c "E")%bool then
        let '(neg, s'') := read_sign s' in
        let '(e, count, _) := read_digits s'' 0 0 in
        match count with
        | O => 1
        | S _ => if neg then 1 # Z.to_pos (10 ^ e) else inject_Z (10 ^ e)
        end
      else 1
  | EmptyString => 1
  end.

(** The decimal numerals [std::stod] reads: white space, a sign, digits with
    an optional point, an optional exponent; what follows the numeral is
    ignored; [None] where no digit is found, as [std::stod] throws
    [std::invalid_argument] there.  It differs from [std::stod] in what it
    leaves out: "inf", "nan" and hexadecimal numerals are not read as such,
    a value beyond the range of a double is returned where [std::stod] throws
    [std::out_of_range], and no value is rounded. *)
Definition parse (s : string) : option Q :=
  let '(neg, s1) := read_sign (skip_spaces s) in
  let '(ip, icount, s2) := read_digits s1 0 0 in
  let '(m, fcount, s3) :=
    match s2 with
    | String "." s2' => read_digits s2' ip 0
    | _ => (ip, O, s2)
    end in
  match (icount + fcount)%nat with
  | O => None
  | S _ =>
      let q := Qmult (m # Z.to_pos (10 ^ Z.of_nat fcount)) (read_exponent s3) in
      Some (if neg then Qopp q else q)
  end.

(** [count] decimal digits of [n], most significant first. *)
Fixpoint digits (count : nat) (n : Z) : string :=
  match count with
  | O => EmptyString
  | S count' => digits count' (n / 10) ++ to_string (n mod 10)
  end.

(** The "%f" conversion: six digits after the point, round half to even. *)
Definition print (q : Q) : string :=
  let n := Z.abs (Qnum q) * 10 ^ 6 in
  let d := Zpos (Qden q) in
  let quo := n / d in
  let rem := n mod d in
  let quo := if (d <? 2 * rem) || ((d =? 2 * rem) && Z.odd quo)
             then quo + 1 else quo in
  (if Qnum q <? 0 then "-" else "")
    ++ to_string (quo / 10 ^ 6) ++ "." ++ digits 6 (quo mod 10 ^ 6).

Definition truncate (q : Q) : Z := Z.quot (Qnum q) (Zpos (Qden q)).

Definition ltb (a b : Q) : bool := negb (Qle_bool b a).

#[export] Instance ops : DoubleOps := {|
  double := Q;
  d_of_Z := inject_Z;
  dadd := Qplus;
  dsub := Qminus;
  dmul := Qmult;
  dltb := ltb;
  d_quarter := 1 # 4;
  d_to_time := truncate;
  stod := parse;
  to_string_d := print
|}.

End QDouble.

(** ** The specification's tables *)

Module Spec.
Section Tables.
Context {D : DoubleOps}.

Import MarlinController.

(** §4.2 [onLine], the transition on the acknowledgment token, state by
    state as the specification lists them. *)
Definition ack_transition (m : MarlinController.t) : MarlinController.t :=
  match marlinState m with
  | homingX => setState xHomed m
  | homingZ => setState idle m
  | zMoveStarted => setState zMoveWaitForComplete1 (sendGCode "M400" m)
  | zMoveWaitForComplete1 =>
      if burnExtraOK m
      then setState zMoveWaitForComplete2 (set_burnExtraOK false m)
      else setState idle m
  | zMoveWaitForComplete2 => setState idle m
  | moveStarted => setState moveWaitForComplete (sendGCode "M400" m)
  | moveWaitForComplete => setState moveCompleted m
  | getPosition => setState idle m
  | disconnected | idle | zMoveCompleted | xHomed | moveCompleted => m
  end.

(** §4.2 [onLine]: a position report only updates the position; otherwise the
    acknowledgment token drives [ack_transition]; anything else is ignored. *)
Definition onLine (line : string) (m : MarlinController.t)
    : MarlinController.t :=
  if String.prefix "X:" line then extractPosition line m
  else if (line =? "ok")%string then ack_transition m
  else m.

(** Modelled from the spec: [MarlinController::setZPosOffsetStart], the
    method [setCanOpenOffset] of main.cpp hands the Z offset it has computed
    to, and which src/ neither declares (MarlinController.h) nor defines
    (MarlinController.cpp).  The specification gives the motion protocol state
    machine its data in §3 (the protocol state, the position, the flag
    [extraAckPending]), its operations in §4.2 and the lines it sends in §6.
    No operation there takes a calibration offset and no line carries one;
    the protocol state changes by the listed commands and by [onLine] only,
    the position by a motion command or a position report only, and the one
    operation that writes the flag is [onLine], which clears it.  So, by the
    specification, the call leaves the controller as it is. *)
Definition setZPosOffsetStart (offset : double) (m : MarlinController.t)
    : MarlinController.t :=
  m.

(** Two controllers that differ at most in the stored position. *)
Definition same_but_position (m m' : MarlinController.t) : Prop :=
  marlinState m' = marlinState m
  /\ burnExtraOK m' = burnExtraOK m
  /\ marlinPort m' = marlinPort m
  /\ written m' = written m.

(** [n] acknowledgments in a row. *)
Fixpoint acks (n : nat) (m : MarlinController.t) : MarlinController.t :=
  match n with
  | O => m
  | S n' => acks n' (handleResponse "ok" m)
  end.

(** §8.8 with the rule the claim fixes: round to nearest. *)
Definition duty_rounded (percent : Z) : Z := (percent * 255 + 50) / 100.

(** The duty the source computes: the quotient, fraction dropped. *)
Definition duty (percent : Z) : Z := percent * 255 / 100.

Definition clamp_percent (percent : Z) : Z := Z.max 0 (Z.min percent 100).

End Tables.

(** §4.4, the phase table. *)
Inductive phase : Set :=
| Phase1 | Phase2 | Phase3 | Phase4 | Phase5
| Phase6 | Phase7 | Phase8 | Phase9.

Definition phase_state (p : phase) : state :=
  match p with
  | Phase1 => phase1_x_homing
  | Phase2 => phase2_x_to_start
  | Phase3 => phase3_tab_lifting
  | Phase4 => phase4_lid_peeling
  | Phase5 => phase5_x_rehoming
  | Phase6 => phase6_z_lift_to_eject
  | Phase7 => phase7_x_eject
  | Phase8 => phase8_x_rehoming_final
  | Phase9 => phase9_z_next_can
  end.

(** The protocol state that completes a phase. *)
Definition completion_state (p : phase) : MarlinController.state :=
  match p with
  | Phase1 | Phase5 | Phase8 => MarlinController.xHomed
  | Phase2 | Phase3 | Phase4 | Phase7 => MarlinController.moveCompleted
  | Phase6 | Phase9 => MarlinController.idle
  end.

(** The value of [dispensePhase] after a phase; the ninth returns to idle. *)
Definition next_state (p : phase) : state :=
  match p with
  | Phase1 => phase2_x_to_start
  | Phase2 => phase3_tab_lifting
  | Phase3 => phase4_lid_peeling
  | Phase4 => phase5_x_rehoming
  | Phase5 => phase6_z_lift_to_eject
  | Phase6 => phase7_x_eject
  | Phase7 => phase8_x_rehoming_final
  | Phase8 => phase9_z_next_can
  | Phase9 => idle
  end.

Definition started (p : phase) (s : latches) : bool :=
  match p with
  | Phase1 => started1 s
  | Phase2 => started2 s
  | Phase3 => started3 s
  | Phase4 => started4 s
  | Phase5 => started5 s
  | Phase6 => started6 s
  | Phase7 => started7 s
  | Phase8 => started8 s
  | Phase9 => started9 s
  end.

(** The order of the dispense phases as a successor function on
    [machineState]; [idle] and the states outside the sequence have no
    successor but themselves. *)
Definition successor (s : state) : state :=
  match s with
  | phase1_x_homing => phase2_x_to_start
  | phase2_x_to_start => phase3_tab_lifting
  | phase3_tab_lifting => phase4_lid_peeling
  | phase4_lid_peeling => phase5_x_rehoming
  | phase5_x_rehoming => phase6_z_lift_to_eject
  | phase6_z_lift_to_eject => phase7_x_eject
  | phase7_x_eject => phase8_x_rehoming_final
  | phase8_x_rehoming_final => phase9_z_next_can
  | phase9_z_next_can => idle
  | s => s
  end.

(** A list of states that follows the order from [s]: every entry repeats its
    predecessor or is the successor of it. *)
Fixpoint in_order (s : state) (visited : list state) : Prop :=
  match visited with
  | [] => True
  | s' :: rest => (s' = s \/ s' = successor s) /\ in_order s' rest
  end.

Definition all_reset : latches :=
  mk_latches false false false false false false false false false.

(** §4.5, today's time-of-day target: the local day of [now] at
    [hour]:[minute]:00. *)
Definition today_target (utc_offset now hour minute : Z) : Z :=
  (now + utc_offset) / 86400 * 86400 + hour * 3600 + minute * 60 - utc_offset.

End Spec.

(** ** Runs of the sequencer and uses of the controller *)

Section Runs.
Context {D : DoubleOps}.
Variable setZPosOffsetStart : double -> MarlinController.t -> MarlinController.t.

(** A run of the dispense sequencer: the control loop calls
    [dispenseStateMachine], the reader thread delivers lines in between. *)
Inductive sequencer_event : Set :=
| Tick
| Receive (line : string).

Definition sequencer_step (e : sequencer_event) (g : globals) : globals :=
  match e with
  | Tick => dispenseStateMachine g
  | Receive line => on_marlin (MarlinController.handleResponse line) g
  end.

(** The values of [machineState] after each event of a run. *)
Fixpoint visited (es : list sequencer_event) (g : globals) : list state :=
  match es with
  | [] => []
  | e :: es' =>
      let g' := sequencer_step e g in machineState g' :: visited es' g'
  end.

Definition sequencer_run (es : list sequencer_event) (g : globals) : globals :=
  fold_left (fun g e => sequencer_step e g) es g.




(** The snapshot file has just been rewritten with the values of [g']. *)
Definition persisted (g g' : globals) : Prop :=
  machine_state_json g' = current_snapshot g' :: machine_state_json g.

(** The entry action of a phase: same phase, latch set, snapshot written. *)
Definition entered (p : Spec.phase) (g g' : globals) : Prop :=
  machineState g' = Spec.phase_state p
  /\ Spec.started p (statics g') = true
  /\ persisted g g'.

(** The exit of a phase: next phase, latch reset, snapshot written, and one
    can less after the ninth. *)
Definition advanced (p : Spec.phase) (g g' : globals) : Prop :=
  machineState g' = Spec.next_state p
  /\ Spec.started p (statics g') = false
  /\ persisted g g'
  /\ cansLoaded g' = match p with
                     | Spec.Phase9 => wrap_int (cansLoaded g - 1)
                     | _ => cansLoaded g
                     end.


End Runs.

(** ** Concrete states *)

(** A rational as a [double] of [QDouble]. *)
Definition dbl (x : Q) : @double QDouble.ops := x.

(** A stand-in for the method the source tree lacks, leaving the controller as
    it is. *)
Definition setZPosOffsetStart_skip (offset : @double QDouble.ops)
    (m : @MarlinController.t QDouble.ops) : @MarlinController.t QDouble.ops :=
  m.

(** A controller on the open port 3, as [main] constructs it. *)
Definition marlin0 : MarlinController.t :=
  @MarlinController.construct QDouble.ops 3.

(** The program as it enters the control loop on a first start: no snapshot
    file, clock at [now = 0], local time UTC. *)
Definition startup_state : @globals QDouble.ops :=
  main_startup setZPosOffsetStart_skip 0 0 None (initial_globals 3).

(** The program at rest with two cans loaded and the start-up finished. *)
Definition ready_state : @globals QDouble.ops :=
  set_cansLoaded 2 (set_startupSequenceComplete true (initial_globals 3)).

(** A dispense just started from [ready_state]. *)
Definition dispensing_state : @globals QDouble.ops :=
  dispenseFoodStart ready_state.

(** The events of one complete dispense after its start: each phase is
    entered by a pass, acknowledged by the firmware and left by a pass. *)
Definition feed_run : list sequencer_event :=
  let ok := Receive "ok" in
  [ ok; Tick;
    Tick; ok; ok; Tick;
    Tick; ok; ok; Tick;
    Tick; ok; ok; Tick;
    Tick; ok; Tick;
    Tick; ok; ok; Tick;
    Tick; ok; ok; Tick;
    Tick; ok; Tick;
    Tick; ok; ok; Tick ].

(** [dispensing_state] once the firmware has acknowledged the homing of
    phase 1, and once it has completed the Z move of phase 9. *)
Definition phase1_done : @globals QDouble.ops :=
  sequencer_step (Receive "ok") dispensing_state.

Definition phase9_done : @globals QDouble.ops :=
  sequencer_run (removelast feed_run) dispensing_state.

(** [ready_state] on the interval schedule with a feed due at time 1000. *)
Definition feed_due_state : @globals QDouble.ops :=
  set_feedTime 1000 ready_state.

(** The daily schedule at its default 06:30, no feed time set yet. *)
Definition daily_unset_state : @globals QDouble.ops :=
  set_scheduleMode DAILY_MODE (initial_globals 3).

(** The operator is in the schedule-mode menu with "Interval" selected; the
    daily schedule is active with the next feed at time 1000. *)
Definition choosing_interval_state : @globals QDouble.ops :=
  set_currentMenu SCHEDULE_MODE_MENU
    (set_menuSelection 0 (set_feedTime 1000 daily_unset_state)).

(** The operator is in the commands menu with "Reset INT" selected. *)
Definition reset_interval_state : @globals QDouble.ops :=
  set_currentMenu COMMANDS_MENU
    (set_menuSelection 0 (set_feedTime 1000 daily_unset_state)).

(** ** Definitions for further properties *)

(** The number of entries of the menus the cursor moves in. *)
Definition entries (menu : MenuState) : Z :=
  match menu with
  | MAIN_MENU => 3
  | COMMANDS_MENU => 5
  | SETTINGS_MENU => 4
  | SCHEDULE_MODE_MENU => 2
  | _ => 0
  end.

(** [openLast] is the value derived from [ejectLast]. *)
Definition openLast_derived {D : DoubleOps} (g : globals) : Prop :=
  openLast g = dsub (ejectLast g) (d_of_Z 21).

(** The events that can precede the acknowledgment of the start-up homing
    without a button being pressed: passes of the control loop and lines
    other than "ok". *)
Definition before_homing_ack (e : event) : Prop :=
  match e with
  | Pass _ => True
  | Line response => response <> "ok"
  | _ => False
  end.

(** The machine is homing Z and automatic feeding is held back. *)
Definition homing {D : DoubleOps} (g : globals) : Prop :=
  machineState g = initial_z_homing
  /\ MarlinController.marlinState (g_marlin g) = MarlinController.homingZ
  /\ operationRunning g = false
  /\ startupSequenceComplete g = false.

(** The lines and sequencer calls of an eject-only operation, phases 6 to 9,
    acknowledged as in [feed_run]. *)
Definition eject_only : list sequencer_event :=
  let ok := Receive "ok" in
  [ Tick; ok; ok; Tick;         (* phase 6 *)
    Tick; ok; ok; Tick;         (* phase 7 *)
    Tick; ok; Tick;             (* phase 8 *)
    Tick; ok; ok; Tick ]        (* phase 9 *).

(** The distinct phases a run goes through, in the order of first visit. *)
Fixpoint phases_seen (previous : state) (visited : list state) : list state :=
  match visited with
  | [] => []
  | s :: rest =>
      if state_beq s previous then phases_seen previous rest
      else s :: phases_seen s rest
  end.


(** A line that is neither the acknowledgment nor a position report, such
    as the "echo:busy: processing" Marlin sends while it moves. *)
Definition chatter (e : event) : bool :=
  match e with
  | Line response =>
      negb (response =? "ok")%string && negb (find response "X:" 0 =? 0)
  | _ => false
  end.

(** ** The reader thread ([MarlinController::readerThreadFunction]) *)

Module Reader.

(** What a loop of the thread comes to. *)
Inductive result (A : Type) : Type :=
| Returns (a : A)
| Throws          (* an exception leaves the thread function *)
| Unfinished.     (* the iterations allowed did not suffice *)

Arguments Returns {A} a.
Arguments Throws {A}.
Arguments Unfinished {A}.

Definition NUL : ascii := ascii_of_nat 0.
Definition CR : ascii := ascii_of_nat 13.

(** The C string in [buffer], which [lineBuffer += buffer] appends: the
    bytes before the first NUL.  [read] has put [bytesRead] bytes there and
    the thread a NUL behind them. *)
Fixpoint c_str (buffer : string) : string :=
  match buffer with
  | EmptyString => EmptyString
  | String c rest =>
      if Ascii.eqb c NUL then EmptyString else String c (c_str rest)
  end.

(** [s.back()]; [None] on the empty string, where the source does not call
    it. *)
Fixpoint back (s : string) : option ascii :=
  match s with
  | EmptyString => None
  | String c EmptyString => Some c
  | String _ s' => back s'
  end.

(** [s.pop_back()]. *)
Definition pop_back (s : string) : string :=
  String.substring 0 (String.length s - 1) s.

Fixpoint drop (n : nat) (s : string) : string :=
  match n, s with
  | O, _ => s
  | S _, EmptyString => EmptyString
  | S n', String _ s' => drop n' s'
  end.

(** [s.erase(0, count)]. *)
Definition erase_front (s : string) (count : Z) : string :=
  drop (Z.to_nat count) s.

(** The first line of a buffer and what follows its terminator. *)
Fixpoint cut (s : string) : option (string * string) :=
  match s with
  | EmptyString => None
  | String c s' =>
      if Ascii.eqb c (ascii_of_nat 10) then Some (EmptyString, s')
      else match cut s' with
           | Some (l, r) => Some (String c l, r)
           | None => None
           end
  end.

(** What the loop does with the raw line [l]. *)
Definition stripped (l : string) : string :=
  if negb (l =? "")%string
     && match back l with
        | Some c => Ascii.eqb c CR
        | None => false
        end
  then pop_back l else l.

Section Thread.
Context {D : DoubleOps}.

(** "Process complete lines": the inner [while], at most [fuel] tests of its
    condition.  [pos] is not [npos] where [pos + 1] is computed, so that the
    sum does not wrap. *)
Fixpoint drain (fuel : nat) (lineBuffer : string) (m : MarlinController.t)
    : result (string * MarlinController.t) :=
  match fuel with
  | O => Unfinished
  | S fuel' =>
      let pos := find lineBuffer LF 0 in
      if pos =? npos then Returns (lineBuffer, m)
      else
        match substr lineBuffer 0 pos with
        | None => Throws
        | Some line =>
            let line :=
              if negb (line =? "")%string
                 && match back line with
                    | Some c => Ascii.eqb c CR
                    | None => false
                    end
              then pop_back line else line in
            let m :=
              if negb (line =? "")%string
              then MarlinController.handleResponse line m else m in
            drain fuel' (erase_front lineBuffer (pos + 1)) m
        end
  end.

(** One turn of the outer loop.  [buffer] holds the bytes [read] delivered,
    none when it returned no more than 0; the thread then sleeps.  The inner
    loop is given one test more than the buffer has bytes. *)
Definition readerPass (buffer : string)
    (st : string * MarlinController.t)
    : result (string * MarlinController.t) :=
  let (lineBuffer, m) := st in
  if 0 <? size buffer then
    let lineBuffer := lineBuffer ++ c_str buffer in
    drain (S (String.length lineBuffer)) lineBuffer m
  else Returns (lineBuffer, m).

(** The thread function on the successive results of [read]; [stopReading]
    is set when they end.  The state is [lineBuffer] and the controller. *)
Fixpoint readerThreadFunction (reads : list string)
    (st : string * MarlinController.t)
    : result (string * MarlinController.t) :=
  match reads with
  | [] => Returns st
  | buffer :: reads' =>
      if MarlinController.isConnected (snd st) then
        match readerPass buffer st with
        | Returns st' => readerThreadFunction reads' st'
        | Throws => Throws
        | Unfinished => Unfinished
        end
      else Returns st
  end.

(** What the thread does with one line once it is cut from the buffer and
    rid of its carriage return. *)
Definition hand_over (line : string) (m : MarlinController.t)
    : MarlinController.t :=
  if negb (line =? "")%string
  then MarlinController.handleResponse line m else m.

End Thread.

(** All the bytes appended to [lineBuffer] by a series of reads. *)
Definition appended (reads : list string) : string :=
  fold_right String.append EmptyString (map c_str reads).

End Reader.
(** * Properties *)

(** ** Machine integers and strings *)

Lemma wrap_signed_small (w z : Z) :
  0 < w -> - 2 ^ (w - 1) <= z < 2 ^ (w - 1) -> wrap_signed w z = z.
Proof.
  intros Hw Hz. unfold wrap_signed.
  assert (Hp : 2 ^ w = 2 * 2 ^ (w - 1)).
  { replace w with (Z.succ (w - 1)) at 1 by lia. apply Z.pow_succ_r. lia. }
  rewrite Z.mod_small by lia. lia.
Qed.

Lemma wrap_int_small (z : Z) : INT_MIN <= z <= INT_MAX -> wrap_int z = z.
Proof.
  unfold INT_MIN, INT_MAX, wrap_int. intros Hz.
  apply wrap_signed_small; [lia|]. change (32 - 1) with 31. lia.
Qed.

Lemma wrap_time_small (z : Z) : - 2 ^ 63 <= z <= TIME_MAX -> wrap_time z = z.
Proof.
  unfold TIME_MAX, wrap_time. intros Hz.
  apply wrap_signed_small; [lia|]. change (64 - 1) with 63. lia.
Qed.

(** [response.find("X:") == 0] is the test "begins with X:". *)
Lemma find_at_0_prefix (pat s : string) :
  (find s pat 0 =? 0) = String.prefix pat s
  \/ (pat = EmptyString /\ s = EmptyString).
Proof.
  unfold find, size.
  destruct (Z.ltb_spec (Z.of_nat (String.length s)) 0) as [Hneg|_]; [lia|].
  change (Z.to_nat 0) with 0%nat.
  destruct s as [|c s'].
  - destruct pat; [right; split; reflexivity | left; reflexivity].
  - left. cbn [String.index].
    destruct (String.prefix pat (String c s')); [reflexivity|].
    destruct (String.index 0 pat s'); [|reflexivity].
    apply Z.eqb_neq. lia.
Qed.

Lemma find_X_prefix (s : string) :
  (find s "X:" 0 =? 0) = String.prefix "X:" s.
Proof.
  destruct (find_at_0_prefix "X:" s) as [H | [H _]]; [exact H | discriminate H].
Qed.

Section ControllerProperties.
Context {D : DoubleOps}.

Import MarlinController.

(** ** The line handler *)

Lemma extractPosition_frame (response : string) (m : MarlinController.t) :
  Spec.same_but_position m (extractPosition response m).
Proof.
  unfold extractPosition, Spec.same_but_position.
  destruct (negb _ && negb _); [|auto].
  destruct (stod_field response _); [|auto].
  destruct (stod_field response _); cbn; auto.
Qed.

(** What [extractPosition] does to a line that holds both markers, by the
    outcome of the two conversions. *)
Lemma extractPosition_cases (response : string) (m : MarlinController.t) :
  find response "X:" 0 <> npos ->
  find response "Z:" 0 <> npos ->
  extractPosition response m
  = match stod_field response (find response "X:" 0),
          stod_field response (find response "Z:" 0) with
    | Some x, Some z => set_zPos z (set_xPos x m)
    | Some x, None => set_xPos x m
    | None, _ => m
    end.
Proof.
  intros Hx Hz. unfold extractPosition. cbv zeta.
  apply Z.eqb_neq in Hx. apply Z.eqb_neq in Hz. rewrite Hx, Hz.
  cbn [negb andb].
  destruct (stod_field response (find response "X:" 0)); [|reflexivity].
  destruct (stod_field response (find response "Z:" 0)); reflexivity.
Qed.

Lemma handleResponse_is_onLine (line : string) (m : MarlinController.t) :
  handleResponse line m = Spec.onLine line m.
Proof.
  unfold handleResponse, Spec.onLine. rewrite find_X_prefix.
  destruct (String.prefix "X:" line); [reflexivity|].
  unfold Spec.ack_transition, setState.
  destruct (marlinState m), (line =? "ok")%string; reflexivity.
Qed.

(** C1. [handleResponse] is the dispatch table of §4.2: a line that begins
    with "X:" changes nothing but the position, in every state; the line
    "ok" makes the transition listed for the current state; every other
    line, and "ok" in a state without an entry, changes nothing. *)
Theorem handleResponse_dispatch_table (line : string) (m : MarlinController.t) :
  handleResponse line m = Spec.onLine line m
  /\ (String.prefix "X:" line = true ->
      Spec.same_but_position m (handleResponse line m))
  /\ (String.prefix "X:" line = false -> line <> "ok" ->
      handleResponse line m = m)
  /\ (line = "ok" ->
      handleResponse line m =
      match marlinState m with
      | homingX => set_marlinState xHomed m
      | homingZ => set_marlinState idle m
      | zMoveStarted =>
          set_marlinState zMoveWaitForComplete1 (sendGCode "M400" m)
      | zMoveWaitForComplete1 =>
          if burnExtraOK m
          then set_marlinState zMoveWaitForComplete2 (set_burnExtraOK false m)
          else set_marlinState idle m
      | zMoveWaitForComplete2 => set_marlinState idle m
      | moveStarted =>
          set_marlinState moveWaitForComplete (sendGCode "M400" m)
      | moveWaitForComplete => set_marlinState moveCompleted m
      | getPosition => set_marlinState idle m
      | disconnected | idle | zMoveCompleted | xHomed | moveCompleted => m
      end).
Proof.
  split; [apply handleResponse_is_onLine|].
  rewrite handleResponse_is_onLine. unfold Spec.onLine.
  split; [|split].
  - intros ->. apply extractPosition_frame.
  - intros -> Hne. apply String.eqb_neq in Hne. now rewrite Hne.
  - intros ->. cbn. unfold Spec.ack_transition, setState.
    destruct (marlinState m); reflexivity.
Qed.

(** The sender appends exactly the line and its terminator on an open port. *)
Lemma sendGCode_connected (gcode : string) (m : MarlinController.t) :
  isConnected m = true ->
  sendGCode gcode m = set_written (written m ++ [gcode ++ LF]) m.
Proof. unfold sendGCode. now intros ->. Qed.

Lemma handleResponse_ok_idle (m : MarlinController.t) :
  marlinState m = idle -> handleResponse "ok" m = m.
Proof.
  intros Hm. rewrite handleResponse_is_onLine. cbn.
  unfold Spec.ack_transition. now rewrite Hm.
Qed.

Lemma acks_idle (n : nat) (m : MarlinController.t) :
  marlinState m = idle -> Spec.acks n m = m.
Proof.
  intros Hm. induction n as [|n IH]; [reflexivity|].
  cbn [Spec.acks]. now rewrite handleResponse_ok_idle.
Qed.

(** C4. In [zMoveWaitForComplete1] with the flag set, the first "ok" clears
    the flag and leads to [zMoveWaitForComplete2], the second leads to
    [idle], and no later "ok" is absorbed; with the flag clear one "ok"
    leads to [idle] at once. *)
Theorem extra_ack_consumed_once (m : MarlinController.t) :
  marlinState m = zMoveWaitForComplete1 ->
  (burnExtraOK m = true ->
   let m1 := handleResponse "ok" m in
   let m2 := handleResponse "ok" m1 in
   marlinState m1 = zMoveWaitForComplete2 /\ burnExtraOK m1 = false
   /\ marlinState m2 = idle /\ burnExtraOK m2 = false
   /\ forall n, Spec.acks n m2 = m2)
  /\ (burnExtraOK m = false ->
      marlinState (handleResponse "ok" m) = idle
      /\ burnExtraOK (handleResponse "ok" m) = false).
Proof.
  intros Hm.
  assert (Hack : forall m0 : MarlinController.t,
             handleResponse "ok" m0 = Spec.ack_transition m0).
  { intros m0. now rewrite handleResponse_is_onLine. }
  split; intros Hb.
  - assert (H1 : handleResponse "ok" m
                 = set_marlinState zMoveWaitForComplete2
                     (set_burnExtraOK false m)).
    { rewrite Hack. unfold Spec.ack_transition. now rewrite Hm, Hb. }
    cbn zeta. rewrite H1.
    assert (H2 : handleResponse "ok"
                   (set_marlinState zMoveWaitForComplete2
                      (set_burnExtraOK false m))
                 = set_marlinState idle
                     (set_marlinState zMoveWaitForComplete2
                        (set_burnExtraOK false m))).
    { now rewrite Hack. }
    rewrite H2. repeat split.
    intros n. now apply acks_idle.
  - rewrite Hack. unfold Spec.ack_transition. rewrite Hm, Hb.
    split; [reflexivity | exact Hb].
Qed.

(** ** The fan command *)

Lemma clamp_percent_range (p : Z) : 0 <= Spec.clamp_percent p <= 100.
Proof. unfold Spec.clamp_percent. lia. Qed.

(** C8, as the source has it.  On an open port [setFanSpeed] clamps the
    percentage into 0..100 and sends "M106 P<fan> S<duty>" where the duty is
    the quotient of percent*255 by 100 with the fraction dropped, a value in
    0..255; the protocol state stays as it is. *)
Theorem setFanSpeed_truncates (fanNumber speedPercent : Z)
    (m : MarlinController.t) :
  isConnected m = true ->
  let d := Spec.duty (Spec.clamp_percent speedPercent) in
  setFanSpeed fanNumber speedPercent m
  = set_written
      (written m
       ++ [("M106 P" ++ to_string fanNumber ++ " S" ++ to_string d) ++ LF]) m
  /\ marlinState (setFanSpeed fanNumber speedPercent m) = marlinState m
  /\ 0 <= d <= 255.
Proof.
  intros Hc d. subst d. unfold setFanSpeed.
  set (p1 := if speedPercent <? 0 then 0 else speedPercent).
  set (p2 := if p1 >? 100 then 100 else p1).
  assert (Hp : p2 = Spec.clamp_percent speedPercent).
  { unfold p2, p1, Spec.clamp_percent.
    destruct (Z.ltb_spec speedPercent 0);
      [ cbn; lia
      | destruct (Z.gtb_spec speedPercent 100); lia ]. }
  rewrite Hp. pose proof (clamp_percent_range speedPercent) as Hr.
  rewrite wrap_int_small by (unfold INT_MIN, INT_MAX; lia).
  rewrite Z.quot_div_nonneg by lia.
  fold (Spec.duty (Spec.clamp_percent speedPercent)).
  rewrite sendGCode_connected by exact Hc.
  repeat split.
  - unfold Spec.duty. apply Z.div_pos; lia.
  - unfold Spec.duty. apply Z.div_le_upper_bound; lia.
Qed.

End ControllerProperties.

Lemma setFanSpeed_truncates_witness :
  MarlinController.written (MarlinController.setFanSpeed 0 50 marlin0)
  = ["G90" ++ LF; "M106 P0 S127" ++ LF].
Proof.
  destruct (setFanSpeed_truncates 0 50 marlin0 eq_refl) as [H _].
  rewrite H. reflexivity.
Defined.

(** C8, as stated, fails: for 50 percent the duty sent is 127, not the
    rounded value 128. *)
Lemma setFanSpeed_50_is_not_rounded :
  Spec.duty_rounded 50 = 128
  /\ MarlinController.written (MarlinController.setFanSpeed 0 50 marlin0)
     = (MarlinController.written marlin0 ++ [("M106 P0 S127" ++ LF)%string])%list
  /\ MarlinController.written (MarlinController.setFanSpeed 0 50 marlin0)
     <> (MarlinController.written marlin0
         ++ [("M106 P0 S" ++ to_string (Spec.duty_rounded 50) ++ LF)%string])%list.
Proof.
  repeat split. intros H. vm_compute in H. discriminate H.
Qed.

Lemma handleResponse_dispatch_table_witness :
  MarlinController.handleResponse "ok" (MarlinController.homeX marlin0)
  = MarlinController.set_marlinState MarlinController.xHomed
      (MarlinController.homeX marlin0)
  /\ MarlinController.handleResponse "echo:busy: processing"
       (MarlinController.homeX marlin0)
     = MarlinController.homeX marlin0.
Proof.
  destruct (handleResponse_dispatch_table "ok"
              (MarlinController.homeX marlin0)) as (_ & _ & _ & Hok).
  destruct (handleResponse_dispatch_table "echo:busy: processing"
              (MarlinController.homeX marlin0)) as (_ & _ & Hother & _).
  split.
  - exact (Hok eq_refl).
  - apply Hother; [reflexivity | discriminate].
Defined.

Lemma extra_ack_consumed_once_witness :
  let m := MarlinController.set_burnExtraOK true
             (MarlinController.set_marlinState
                MarlinController.zMoveWaitForComplete1 marlin0) in
  MarlinController.marlinState (MarlinController.handleResponse "ok" m)
  = MarlinController.zMoveWaitForComplete2
  /\ MarlinController.marlinState
       (MarlinController.handleResponse "ok"
          (MarlinController.handleResponse "ok" m))
     = MarlinController.idle.
Proof.
  intros m.
  destruct (extra_ack_consumed_once m eq_refl) as [H _].
  destruct (H eq_refl) as (H1 & _ & H2 & _).
  split; [exact H1 | exact H2].
Defined.

(** C9 fails on the source: when the text after "Z:" does not parse, the X
    axis has already been overwritten and the Z axis keeps its old value. *)
Lemma extractPosition_updates_x_alone :
  let m := MarlinController.set_zPos (dbl 7)
             (MarlinController.set_xPos (dbl 3) marlin0) in
  let m' := MarlinController.handleResponse "X:5.00 Y:370.00 Z:" m in
  MarlinController.xPos m = 3 # 1
  /\ MarlinController.xPos m' = 500 # 100
  /\ MarlinController.xPos m' <> MarlinController.xPos m
  /\ MarlinController.zPos m' = MarlinController.zPos m
  /\ MarlinController.zPos m' = 7 # 1.
Proof.
  vm_compute.
  split; [reflexivity|]. split; [reflexivity|].
  split; [discriminate|]. split; reflexivity.
Qed.

(** ** The controller as main.cpp uses it *)

Section ProgramUsesCalls.
Context {D : DoubleOps}.
Variable setZPosOffsetStart : double -> MarlinController.t -> MarlinController.t.
Variable utc_offset : Z.










































End ProgramUsesCalls.

(** ** The quirk flag *)

Section QuirkFlag.
Context {D : DoubleOps}.
Variable utc_offset : Z.

Import MarlinController.











End QuirkFlag.


(** ** The dispense sequencer *)

Section Sequencer.
Context {D : DoubleOps}.

Lemma state_eqb_eq (a b : MarlinController.state) :
  MarlinController.state_eqb a b = true <-> a = b.
Proof. destruct a, b; cbn; split; (reflexivity || discriminate). Qed.

Lemma marlin_is_true (s : MarlinController.state) (g : globals) :
  marlin_is s g = true <-> MarlinController.marlinState (g_marlin g) = s.
Proof. apply state_eqb_eq. Qed.

Lemma marlin_is_false (s : MarlinController.state) (g : globals) :
  marlin_is s g = false <-> MarlinController.marlinState (g_marlin g) <> s.
Proof.
  rewrite <- marlin_is_true. destruct (marlin_is s g); split; congruence.
Qed.

Ltac phase_cases g :=
  match goal with
  | |- context [negb (?st (statics g))] =>
      destruct (st (statics g)) eqn:?; cbn [negb]
  end;
  try match goal with
      | |- context [marlin_is ?s g] =>
          let E := fresh "E" in
          destruct (marlin_is s g) eqn:E;
          [apply marlin_is_true in E | apply marlin_is_false in E]
      end.

Lemma dispense_phase_table (p : Spec.phase) (g : globals) :
  machineState g = Spec.phase_state p ->
  let g' := dispenseStateMachine g in
  (Spec.started p (statics g) = false -> entered p g g')
  /\ (Spec.started p (statics g) = true ->
      MarlinController.marlinState (g_marlin g) = Spec.completion_state p ->
      advanced p g g')
  /\ (Spec.started p (statics g) = true ->
      MarlinController.marlinState (g_marlin g) <> Spec.completion_state p ->
      g' = g).
Proof.
  intros Hp g'. subst g'. unfold dispenseStateMachine. rewrite Hp.
  destruct p; cbn [Spec.phase_state Spec.started Spec.completion_state];
    unfold phase1_x_homing_state, phase2_x_to_start_state,
      phase3_tab_lifting_state, phase4_lid_peeling_state,
      phase5_x_rehoming_state, phase6_z_lift_to_eject_state,
      phase7_x_eject_state, phase8_x_rehoming_final_state,
      phase9_z_next_can_state;
    phase_cases g;
    (split; [|split]); intros; try congruence;
    unfold entered, advanced, persisted; cbn; auto.
Qed.

Lemma dispenseStateMachine_order (g : globals) :
  machineState (dispenseStateMachine g) = machineState g
  \/ machineState (dispenseStateMachine g) = Spec.successor (machineState g).
Proof.
  unfold dispenseStateMachine.
  destruct (machineState g) eqn:Hs; try (left; exact Hs);
    unfold phase1_x_homing_state, phase2_x_to_start_state,
      phase3_tab_lifting_state, phase4_lid_peeling_state,
      phase5_x_rehoming_state, phase6_z_lift_to_eject_state,
      phase7_x_eject_state, phase8_x_rehoming_final_state,
      phase9_z_next_can_state;
    phase_cases g; cbn; auto.
Qed.

Lemma sequencer_step_order (e : sequencer_event) (g : globals) :
  machineState (sequencer_step e g) = machineState g
  \/ machineState (sequencer_step e g) = Spec.successor (machineState g).
Proof.
  destruct e; [apply dispenseStateMachine_order | left; reflexivity].
Qed.

Lemma visited_in_order (es : list sequencer_event) (g : globals) :
  Spec.in_order (machineState g) (visited es g).
Proof.
  revert g. induction es as [|e es IH]; intros g; cbn; [exact I|].
  split; [apply sequencer_step_order | apply IH].
Qed.

(** C2. In every run of the sequencer (calls of [dispenseStateMachine] with
    lines handled in between) the phases come in order, none skipped.  A
    phase whose latch is clear runs its entry action and stays; a phase whose
    latch is set advances exactly when the protocol state is the one the
    table names for it, it then resets its latch and writes the snapshot, and
    the ninth phase also takes one can off [cansLoaded] and returns to
    [idle]. *)
Theorem dispense_phases_in_order (g : globals) :
  (forall es, Spec.in_order (machineState g) (visited es g))
  /\ (forall p,
        machineState g = Spec.phase_state p ->
        let g' := dispenseStateMachine g in
        (Spec.started p (statics g) = false ->
         machineState g' = Spec.phase_state p
         /\ Spec.started p (statics g') = true
         /\ machine_state_json g' = current_snapshot g' :: machine_state_json g)
        /\ (Spec.started p (statics g) = true ->
            MarlinController.marlinState (g_marlin g)
            = Spec.completion_state p ->
            machineState g' = Spec.next_state p
            /\ Spec.started p (statics g') = false
            /\ machine_state_json g'
               = current_snapshot g' :: machine_state_json g
            /\ (p <> Spec.Phase9 -> cansLoaded g' = cansLoaded g)
            /\ (p = Spec.Phase9 -> INT_MIN < cansLoaded g <= INT_MAX ->
                cansLoaded g' = cansLoaded g - 1 /\ machineState g' = idle))
        /\ (Spec.started p (statics g) = true ->
            MarlinController.marlinState (g_marlin g)
            <> Spec.completion_state p ->
            g' = g)).
Proof.
  split; [intros es; apply visited_in_order|].
  intros p Hp g'.
  destruct (dispense_phase_table p g Hp) as (Hin & Hadv & Hstay).
  fold g' in Hin, Hadv, Hstay.
  split; [exact Hin | split; [|exact Hstay]].
  intros Hs Hm. destruct (Hadv Hs Hm) as (H1 & H2 & H3 & H4).
  repeat split; try assumption.
  - intros Hn. destruct p; try exact H4. now elim Hn.
  - subst p. rewrite H4. apply wrap_int_small. unfold INT_MIN, INT_MAX in *. lia.
  - subst p. exact H1.
Qed.

(** ** Aborting an operation *)

Lemma resetAllPhases_spec (g : globals) :
  resetAllPhases g = set_statics Spec.all_reset g.
Proof. reflexivity. Qed.

Lemma isConnected_sendGCode (gcode : string) (m : MarlinController.t) :
  MarlinController.isConnected (MarlinController.sendGCode gcode m)
  = MarlinController.isConnected m.
Proof.
  unfold MarlinController.sendGCode.
  destruct (negb (MarlinController.isConnected m)); reflexivity.
Qed.

Lemma written_sendGCode (gcode : string) (m : MarlinController.t) :
  MarlinController.isConnected m = true ->
  MarlinController.written (MarlinController.sendGCode gcode m)
  = (MarlinController.written m ++ [(gcode ++ LF)%string])%list.
Proof. intros Hc. unfold MarlinController.sendGCode. now rewrite Hc. Qed.

Lemma setFanSpeed_off (fanNumber : Z) (m : MarlinController.t) :
  MarlinController.setFanSpeed fanNumber 0 m
  = MarlinController.sendGCode ("M106 P" ++ to_string fanNumber ++ " S0") m.
Proof. reflexivity. Qed.

(** What [abortOperation] does while an operation is running, statement by
    statement with the latches reset at once. *)
Lemma abortOperation_running (g : globals) :
  operationRunning g = true ->
  abortOperation g
  = set_currentMenu CLOCK_SCREEN
      (saveStateToJSON
         (on_marlin (MarlinController.setState MarlinController.idle)
            (set_machineState idle
               (set_statics Spec.all_reset
                  (set_operationRunning false
                     (on_marlin (MarlinController.setFanSpeed 1 0)
                        (on_marlin (MarlinController.setFanSpeed 0 0)
                           (on_marlin (MarlinController.sendGCode "M112")
                              g)))))))).
Proof.
  intros Hrun. unfold abortOperation. rewrite Hrun.
  now rewrite resetAllPhases_spec.
Qed.

Lemma abortOperation_not_running (g : globals) :
  operationRunning g = false -> abortOperation g = g.
Proof. intros Hrun. unfold abortOperation. now rewrite Hrun. Qed.

(** C3, as the source has it.  While an operation is running, abort sends
    "M112" and the two fan-off commands, clears [operationRunning], resets
    every latch, puts the sequencer and the protocol state to idle and writes
    the snapshot; while none is running it changes nothing.  So a second
    abort changes nothing, and an abort during an operation leaves both
    states idle. *)
Theorem abortOperation_contract (g : globals) :
  (operationRunning g = true ->
   let g' := abortOperation g in
   statics g' = Spec.all_reset
   /\ machineState g' = idle
   /\ MarlinController.marlinState (g_marlin g') = MarlinController.idle
   /\ operationRunning g' = false
   /\ g_marlin g'
      = MarlinController.setState MarlinController.idle
          (MarlinController.setFanSpeed 1 0
             (MarlinController.setFanSpeed 0 0
                (MarlinController.sendGCode "M112" (g_marlin g))))
   /\ (MarlinController.isConnected (g_marlin g) = true ->
       MarlinController.written (g_marlin g')
       = (MarlinController.written (g_marlin g)
          ++ [("M112" ++ LF)%string; ("M106 P0 S0" ++ LF)%string;
              ("M106 P1 S0" ++ LF)%string])%list)
   /\ machine_state_json g' = current_snapshot g' :: machine_state_json g)
  /\ (operationRunning g = false -> abortOperation g = g)
  /\ abortOperation (abortOperation g) = abortOperation g.
Proof.
  split; [|split].
  - intros Hrun g'. subst g'. rewrite (abortOperation_running g Hrun).
    split; [reflexivity|]. split; [reflexivity|]. split; [reflexivity|].
    split; [reflexivity|]. split; [reflexivity|].
    split; [|vm_compute; reflexivity].
    intros Hc.
    change (MarlinController.written
              (MarlinController.setFanSpeed 1 0
                 (MarlinController.setFanSpeed 0 0
                    (MarlinController.sendGCode "M112" (g_marlin g))))
            = (MarlinController.written (g_marlin g)
               ++ [("M112" ++ LF)%string; ("M106 P0 S0" ++ LF)%string;
                   ("M106 P1 S0" ++ LF)%string])%list).
    rewrite !setFanSpeed_off.
    rewrite !written_sendGCode
      by (rewrite ?isConnected_sendGCode; exact Hc).
    rewrite <- !app_assoc. reflexivity.
  - apply abortOperation_not_running.
  - destruct (operationRunning g) eqn:Hrun.
    + rewrite (abortOperation_running g Hrun).
      now apply abortOperation_not_running.
    + rewrite (abortOperation_not_running g Hrun).
      exact (abortOperation_not_running g Hrun).
Qed.

End Sequencer.

Lemma dispense_phases_in_order_witness :
  Spec.in_order (machineState dispensing_state)
                (visited feed_run dispensing_state)
  /\ machineState (dispenseStateMachine phase1_done) = phase2_x_to_start
  /\ cansLoaded phase9_done = 2
  /\ cansLoaded (dispenseStateMachine phase9_done) = 1
  /\ machineState (dispenseStateMachine phase9_done) = idle.
Proof.
  split; [exact (proj1 (dispense_phases_in_order dispensing_state) feed_run)|].
  split.
  - destruct (proj2 (dispense_phases_in_order phase1_done) Spec.Phase1)
      as (_ & Hadv & _); [vm_compute; reflexivity|].
    apply Hadv; vm_compute; reflexivity.
  - split; [vm_compute; reflexivity|].
    destruct (proj2 (dispense_phases_in_order phase9_done) Spec.Phase9)
      as (_ & Hadv & _); [vm_compute; reflexivity|].
    destruct Hadv as (_ & _ & _ & _ & H9);
      [vm_compute; reflexivity | vm_compute; reflexivity |].
    destruct H9 as [Hc Hi]; [reflexivity | vm_compute; split; congruence |].
    split; [rewrite Hc; vm_compute; reflexivity | exact Hi].
Defined.

Lemma abortOperation_contract_witness :
  operationRunning dispensing_state = true
  /\ machineState dispensing_state = phase1_x_homing
  /\ machineState (abortOperation dispensing_state) = idle
  /\ MarlinController.marlinState (g_marlin (abortOperation dispensing_state))
     = MarlinController.idle
  /\ abortOperation (abortOperation dispensing_state)
     = abortOperation dispensing_state.
Proof.
  destruct (abortOperation_contract dispensing_state) as (Hrun & _ & Hidem).
  destruct Hrun as (_ & Hm & Hs & _); [vm_compute; reflexivity|].
  split; [vm_compute; reflexivity|].
  split; [vm_compute; reflexivity|].
  split; [exact Hm|]. split; [exact Hs | exact Hidem].
Defined.

(** The sequencer's state on entering the control loop is main.cpp's own.
    Whatever the method the source tree lacks does to the controller, and
    whatever the snapshot file holds, no operation is running then, the
    sequencer is in [initial_z_homing], and abort leaves it there. *)
Lemma abortOperation_after_startup {D : DoubleOps}
    (setZPosOffsetStart : double -> MarlinController.t -> MarlinController.t)
    (utc_offset now fd : Z) (parsed : option snapshot) :
  let g := main_startup setZPosOffsetStart utc_offset now parsed
             (initial_globals fd) in
  operationRunning g = false
  /\ abortOperation g = g
  /\ machineState (abortOperation g) = initial_z_homing.
Proof.
  intros g.
  assert (Hload : forall g0,
            operationRunning (loadStateFromJSON parsed g0)
            = operationRunning g0)
    by (intros g0; destruct parsed; reflexivity).
  assert (Hre : forall g0,
            operationRunning (rescheduleLoadedFeedTime utc_offset now g0)
            = operationRunning g0).
  { intros g0. unfold rescheduleLoadedFeedTime.
    destruct (feedTime g0 >? 0); [|reflexivity].
    destruct (feedTime g0 <? now); [|reflexivity].
    destruct (scheduleMode g0); reflexivity. }
  assert (Hauto : forall g0,
            operationRunning (dailyModeAutoActivation utc_offset now g0)
            = operationRunning g0).
  { intros g0. unfold dailyModeAutoActivation.
    destruct (_ && _); reflexivity. }
  assert (Hrun : operationRunning g = false).
  { subst g. unfold main_startup.
    change (operationRunning
              (snd (setCanOpenOffset setZPosOffsetStart true
                      (dailyModeAutoActivation utc_offset now
                         (rescheduleLoadedFeedTime utc_offset now
                            (loadStateFromJSON parsed (initial_globals fd))))))
            = false).
    unfold setCanOpenOffset. cbn [snd].
    change (operationRunning
              (dailyModeAutoActivation utc_offset now
                 (rescheduleLoadedFeedTime utc_offset now
                    (loadStateFromJSON parsed (initial_globals fd))))
            = false).
    now rewrite Hauto, Hre, Hload. }
  split; [exact Hrun|].
  assert (Habort : abortOperation g = g)
    by (unfold abortOperation; now rewrite Hrun).
  split; [exact Habort|].
  rewrite Habort. reflexivity.
Qed.

(** C3, as stated, fails: called while no operation is running, abort leaves
    the states as they are, and they need not be idle.  Here the program has
    just entered its control loop: the sequencer is in [initial_z_homing] and
    the controller is homing Z. *)
Lemma abortOperation_leaves_startup_state :
  operationRunning startup_state = false
  /\ abortOperation startup_state = startup_state
  /\ machineState (abortOperation startup_state) = initial_z_homing
  /\ MarlinController.marlinState (g_marlin (abortOperation startup_state))
     = MarlinController.homingZ
  /\ ~ (machineState (abortOperation startup_state) = idle
        /\ MarlinController.marlinState
             (g_marlin (abortOperation startup_state))
           = MarlinController.idle).
Proof.
  assert (Hrun : operationRunning startup_state = false)
    by (vm_compute; reflexivity).
  split; [exact Hrun|].
  split; [exact (abortOperation_not_running startup_state Hrun)|].
  split; [vm_compute; reflexivity|].
  split; [vm_compute; reflexivity|].
  intros [H _]. vm_compute in H. discriminate H.
Qed.

(** ** The feed scheduler *)

(** The rational implementation computes whole hours exactly. *)
Lemma QDouble_whole_hours_exact : whole_hours_exact QDouble.ops.
Proof.
  intros now h _ _. cbn. unfold QDouble.truncate, Qplus, Qmult, inject_Z.
  cbn [Qnum Qden Pos.mul]. rewrite Z.quot_1_r. lia.
Qed.

Section Scheduler.
Context {D : DoubleOps}.
Variable setZPosOffsetStart : double -> MarlinController.t -> MarlinController.t.
Variable utc_offset : Z.

(** What [dispenseFoodStart] does when a can is loaded, statement by
    statement with the latches written out. *)
Lemma dispenseFoodStart_loaded (g : globals) :
  1 <= cansLoaded g ->
  dispenseFoodStart g
  = saveStateToJSON
      (set_machineState phase1_x_homing
         (on_marlin MarlinController.homeX
            (set_statics (set_started1 true Spec.all_reset)
               (saveStateToJSON
                  (set_machineState idle
                     (set_statics Spec.all_reset
                        (on_marlin (MarlinController.setFanSpeed 1 100)
                           (on_marlin (MarlinController.setFanSpeed 0 100)
                              (set_operationRunning true g))))))))).
Proof.
  intros Hc. unfold dispenseFoodStart.
  destruct (Z.ltb_spec (cansLoaded g) 1) as [Hlt|_]; [lia|].
  rewrite resetAllPhases_spec. reflexivity.
Qed.

Lemma dispenseFoodStart_empty (g : globals) :
  cansLoaded g < 1 -> dispenseFoodStart g = g.
Proof.
  intros Hc. unfold dispenseFoodStart.
  destruct (Z.ltb_spec (cansLoaded g) 1) as [_|Hge]; [reflexivity | lia].
Qed.

Lemma dispenseFoodStart_feedTime (g : globals) :
  feedTime (dispenseFoodStart g) = feedTime g.
Proof.
  destruct (Z.lt_ge_cases (cansLoaded g) 1) as [Hc|Hc].
  - now rewrite dispenseFoodStart_empty.
  - now rewrite dispenseFoodStart_loaded.
Qed.

Lemma dispenseStateMachine_feedTime (g : globals) :
  feedTime (dispenseStateMachine g) = feedTime g.
Proof.
  unfold dispenseStateMachine.
  destruct (machineState g); try reflexivity;
    unfold phase1_x_homing_state, phase2_x_to_start_state,
      phase3_tab_lifting_state, phase4_lid_peeling_state,
      phase5_x_rehoming_state, phase6_z_lift_to_eject_state,
      phase7_x_eject_state, phase8_x_rehoming_final_state,
      phase9_z_next_can_state;
    cbv beta iota;
    repeat match goal with
           | |- context [if ?b then _ else _] => destruct b
           end;
    reflexivity.
Qed.

Lemma operationUpdate_feedTime (now : Z) (g : globals) :
  feedTime (operationUpdate now g) = feedTime g.
Proof.
  unfold operationUpdate. destruct (operationRunning g); [|reflexivity].
  cbv zeta. rewrite <- (dispenseStateMachine_feedTime g).
  generalize (dispenseStateMachine g). intros g'.
  repeat match goal with
         | |- context [if ?b then _ else _] => destruct b
         end;
    reflexivity.
Qed.

Lemma fanStopCheck_feedTime (now : Z) (g : globals) :
  feedTime (fanStopCheck now g) = feedTime g.
Proof.
  unfold fanStopCheck.
  repeat match goal with
         | |- context [if ?b then _ else _] => destruct b
         end;
    reflexivity.
Qed.

(** The test that guards the scheduled feed. *)
Lemma scheduledFeedCheck_due (now : Z) (g : globals) :
  operationRunning g = false ->
  machineState g = idle ->
  startupSequenceComplete g = true ->
  0 < feedTime g <= now ->
  scheduledFeedCheck now g
  = dispenseFoodStart
      (saveStateToJSON
         (match scheduleMode g with
          | DAILY_MODE => set_feedTime (wrap_time (feedTime g + 24 * 3600)) g
          | INTERVAL_MODE =>
              set_feedTime
                (d_to_time (dadd (d_of_Z now)
                                 (dmul (feedGap g) (d_of_Z 3600)))) g
          end)).
Proof.
  intros Hrun Hidle Hstart Hdue. unfold scheduledFeedCheck.
  rewrite Hrun, Hidle, Hstart. cbn [negb state_beq andb].
  destruct (Z.gtb_spec (feedTime g) 0) as [_|Hle]; [|lia].
  cbv zeta.
  destruct (Z.geb_spec now (feedTime g)) as [_|Hlt]; [|lia].
  reflexivity.
Qed.

Lemma scheduledFeedCheck_running (now : Z) (g : globals) :
  operationRunning g = true -> scheduledFeedCheck now g = g.
Proof. intros Hrun. unfold scheduledFeedCheck. now rewrite Hrun. Qed.

(** C5. On a pass where no operation runs, the sequencer is idle, the
    start-up is complete and the feed time is set and not in the future, the
    feed time is advanced first (daily: by 24 hours; interval: to the current
    time plus [feedGap] hours), the snapshot is written, and only then the
    dispense is started, on the state that holds the new feed time.  The
    pass ends with the new feed time, and while the dispense runs the check
    does nothing. *)
Theorem scheduled_feed_advances_first (now : Z) (g : globals) :
  operationRunning g = false ->
  machineState g = idle ->
  startupSequenceComplete g = true ->
  feedTime g <> 0 ->
  feedTime g <= now ->
  0 <= feedTime g ->
  feedTime g + 86400 <= TIME_MAX ->
  let advanced :=
    match scheduleMode g with
    | DAILY_MODE => feedTime g + 86400
    | INTERVAL_MODE =>
        d_to_time (dadd (d_of_Z now) (dmul (feedGap g) (d_of_Z 3600)))
    end in
  scheduledFeedCheck now g
  = dispenseFoodStart (saveStateToJSON (set_feedTime advanced g))
  /\ feedTime (scheduledFeedCheck now g) = advanced
  /\ feedTime (controlLoopPass now g) = advanced
  /\ (whole_hours_exact D -> scheduleMode g = INTERVAL_MODE ->
      forall h, feedGap g = d_of_Z h -> 0 <= h < 2 ^ 20 -> now < 2 ^ 52 ->
                advanced = now + h * 3600)
  /\ (1 <= cansLoaded g ->
      let g' := scheduledFeedCheck now g in
      operationRunning g' = true
      /\ machineState g' = phase1_x_homing
      /\ (forall later, scheduledFeedCheck later g' = g')).
Proof.
  intros Hrun Hidle Hstart Hset Hdue Hpos Hmax advanced.
  assert (Hcheck : scheduledFeedCheck now g
                   = dispenseFoodStart
                       (saveStateToJSON (set_feedTime advanced g))).
  { rewrite scheduledFeedCheck_due by (auto; lia).
    unfold advanced. destruct (scheduleMode g); [reflexivity|].
    change (24 * 3600) with 86400.
    rewrite wrap_time_small by (unfold TIME_MAX in *; lia). reflexivity. }
  assert (Hft : feedTime (scheduledFeedCheck now g) = advanced).
  { rewrite Hcheck, dispenseFoodStart_feedTime. reflexivity. }
  split; [exact Hcheck|]. split; [exact Hft|]. split; [|split].
  - unfold controlLoopPass.
    rewrite fanStopCheck_feedTime, operationUpdate_feedTime.
    assert (H1 : startupHomingCheck g = g).
    { unfold startupHomingCheck. now rewrite Hidle. }
    assert (H2 : startupCompleteCheck g = g).
    { unfold startupCompleteCheck. now rewrite Hstart. }
    rewrite H1, H2. exact Hft.
  - intros Hexact Hmode h Hgap Hh Hnow. unfold advanced.
    rewrite Hmode, Hgap. apply Hexact; lia.
  - intros Hcans g'. subst g'. rewrite Hcheck.
    rewrite dispenseFoodStart_loaded by exact Hcans.
    split; [reflexivity|]. split; [reflexivity|].
    intros later. now apply scheduledFeedCheck_running.
Qed.

(** ** Past-due recovery *)

Lemma mktime_today (now hour minute : Z) :
  mktime utc_offset
    (mk_tm 0 minute hour (tm_day (localtime utc_offset now)))
  = Spec.today_target utc_offset now hour minute.
Proof. unfold mktime, localtime, Spec.today_target. cbn [tm_day tm_hour tm_min tm_sec]. lia. Qed.

Lemma today_target_at (day seconds hour minute : Z) :
  0 <= seconds < 86400 ->
  Spec.today_target utc_offset (day * 86400 + seconds - utc_offset)
                    hour minute
  = day * 86400 + hour * 3600 + minute * 60 - utc_offset.
Proof.
  intros Hs. unfold Spec.today_target.
  replace (day * 86400 + seconds - utc_offset + utc_offset)
    with (seconds + day * 86400) by lia.
  rewrite Z.div_add by lia. rewrite Z.div_small by lia. lia.
Qed.

(** C6, as the source has it.  Both activations of the daily schedule (at
    start-up with no feed time set, and on leaving the settings menu) compute
    today's target at [dailyFeedHour]:[dailyFeedMinute] and move it 24 hours
    on when it is strictly before the current time; a target equal to the
    current time is kept.  With 6:30 as the time of day, at 07:00 the
    result is 06:30 of the next day and at 06:00 it is 06:30 of the same
    day. *)
Theorem daily_activation_schedule (now : Z) (g : globals) :
  let target :=
    Spec.today_target utc_offset now (dailyFeedHour g) (dailyFeedMinute g) in
  let scheduled := if target <? now then target + 86400 else target in
  - 2 ^ 63 <= target ->
  target + 86400 <= TIME_MAX ->
  scheduleMode g = DAILY_MODE ->
  (feedTime g = 0 ->
   feedTime (dailyModeAutoActivation utc_offset now g) = scheduled)
  /\ (currentMenu g = SETTINGS_MENU ->
      feedTime (buttonLeftPressed setZPosOffsetStart utc_offset now g)
      = scheduled)
  /\ (forall day,
        dailyFeedHour g = 6 -> dailyFeedMinute g = 30 ->
        (now = day * 86400 + 7 * 3600 - utc_offset ->
         scheduled = (day + 1) * 86400 + 6 * 3600 + 30 * 60 - utc_offset)
        /\ (now = day * 86400 + 6 * 3600 - utc_offset ->
            scheduled = day * 86400 + 6 * 3600 + 30 * 60 - utc_offset)).
Proof.
  intros target scheduled Hlo Hhi Hmode.
  assert (Hwrap : (if target <? now
                   then wrap_time (target + 24 * 3600) else target)
                  = scheduled).
  { unfold scheduled. destruct (target <? now); [|reflexivity].
    change (24 * 3600) with 86400. apply wrap_time_small. lia. }
  split; [|split].
  - intros Hzero. unfold dailyModeAutoActivation.
    rewrite Hmode, Hzero. cbn [ScheduleMode_beq Z.eqb andb]. cbv zeta.
    rewrite mktime_today. fold target. rewrite Hwrap. reflexivity.
  - intros Hmenu. unfold buttonLeftPressed. rewrite Hmenu, Hmode.
    cbn [MenuState_beq ScheduleMode_beq andb]. cbv zeta.
    rewrite mktime_today. fold target. rewrite Hwrap. reflexivity.
  - intros day Hh Hm. unfold scheduled, target. rewrite Hh, Hm.
    split; intros ->; rewrite today_target_at by lia.
    + destruct (Z.ltb_spec (day * 86400 + 6 * 3600 + 30 * 60 - utc_offset)
                           (day * 86400 + 7 * 3600 - utc_offset)); lia.
    + destruct (Z.ltb_spec (day * 86400 + 6 * 3600 + 30 * 60 - utc_offset)
                           (day * 86400 + 6 * 3600 - utc_offset)); lia.
Qed.

(** ** Switching to the interval schedule *)

(** C7, as the source has it.  "Reset INT" in the commands menu switches to
    the interval schedule and in the same callback sets the feed time to the
    current time plus [feedGap] hours and writes the snapshot; choosing
    "Interval" in the schedule-mode menu switches the mode and writes the
    snapshot, and leaves the feed time as it was. *)
Theorem interval_switch_recomputes_on_reset (now : Z) (g : globals) :
  menuSelection g = 0 ->
  let g' := buttonOkPressed setZPosOffsetStart now g in
  (currentMenu g = COMMANDS_MENU ->
   scheduleMode g' = INTERVAL_MODE
   /\ feedTime g'
      = d_to_time (dadd (d_of_Z now) (dmul (feedGap g) (d_of_Z 3600)))
   /\ (whole_hours_exact D ->
       forall h, feedGap g = d_of_Z h -> 0 <= h < 2 ^ 20 ->
                 0 <= now < 2 ^ 52 -> feedTime g' = now + h * 3600)
   /\ (exists s rest, machine_state_json g' = s :: rest
                      /\ feed_time s = feedTime g'
                      /\ schedule_mode s = "INTERVAL"))
  /\ (currentMenu g = SCHEDULE_MODE_MENU ->
      scheduleMode g' = INTERVAL_MODE
      /\ feedTime g' = feedTime g
      /\ (exists s rest, machine_state_json g' = s :: rest
                         /\ feed_time s = feedTime g
                         /\ schedule_mode s = "INTERVAL")).
Proof.
  intros Hsel g'. subst g'. unfold buttonOkPressed. rewrite Hsel.
  split; intros ->; cbn [Z.eqb].
  - split; [reflexivity|]. split; [reflexivity|]. split.
    + intros Hexact h Hgap Hh Hnow.
      change (d_to_time (dadd (d_of_Z now) (dmul (feedGap g) (d_of_Z 3600)))
              = now + h * 3600).
      rewrite Hgap. now apply Hexact.
    + eexists. eexists. split; [reflexivity|]. split; reflexivity.
  - split; [reflexivity|]. split; [reflexivity|].
    eexists. eexists. split; [reflexivity|]. split; reflexivity.
Qed.

End Scheduler.

Lemma scheduled_feed_advances_first_witness :
  feedTime feed_due_state = 1000
  /\ feedTime (scheduledFeedCheck 2000 feed_due_state) = 2000 + 8 * 3600
  /\ operationRunning (scheduledFeedCheck 2000 feed_due_state) = true.
Proof.
  assert (Hset : feedTime feed_due_state <> 0) by (vm_compute; discriminate).
  assert (Hdue : feedTime feed_due_state <= 2000)
    by (vm_compute; discriminate).
  assert (Hpos : 0 <= feedTime feed_due_state)
    by (vm_compute; discriminate).
  assert (Hmax : feedTime feed_due_state + 86400 <= TIME_MAX)
    by (vm_compute; discriminate).
  destruct (scheduled_feed_advances_first 2000 feed_due_state
              eq_refl eq_refl eq_refl Hset Hdue Hpos Hmax)
    as (_ & Hft & _ & Hgap & Hrun).
  split; [reflexivity|]. split.
  - rewrite Hft.
    apply (Hgap QDouble_whole_hours_exact eq_refl 8); [reflexivity | lia | lia].
  - apply Hrun. vm_compute. discriminate.
Defined.

Lemma daily_activation_schedule_witness :
  feedTime (dailyModeAutoActivation 0 (7 * 3600) daily_unset_state)
  = 86400 + 6 * 3600 + 30 * 60
  /\ feedTime (dailyModeAutoActivation 0 (6 * 3600) daily_unset_state)
     = 6 * 3600 + 30 * 60.
Proof.
  assert (Hlo : forall now,
             0 <= now < 86400 ->
             - 2 ^ 63 <= Spec.today_target 0 now
                           (dailyFeedHour daily_unset_state)
                           (dailyFeedMinute daily_unset_state)
             /\ Spec.today_target 0 now
                  (dailyFeedHour daily_unset_state)
                  (dailyFeedMinute daily_unset_state) + 86400 <= TIME_MAX).
  { intros now Hnow. unfold Spec.today_target, TIME_MAX.
    rewrite Z.add_0_r, Z.div_small by lia. cbn. lia. }
  split.
  - destruct (Hlo (7 * 3600)) as [H1 H2]; [lia|].
    destruct (daily_activation_schedule setZPosOffsetStart_skip 0 (7 * 3600)
                daily_unset_state H1 H2 eq_refl) as (H & _).
    rewrite (H eq_refl). reflexivity.
  - destruct (Hlo (6 * 3600)) as [H1 H2]; [lia|].
    destruct (daily_activation_schedule setZPosOffsetStart_skip 0 (6 * 3600)
                daily_unset_state H1 H2 eq_refl) as (H & _).
    rewrite (H eq_refl). reflexivity.
Defined.

(** C6, as stated, fails: when today's target equals the current time (here
    06:30:00 sharp) the feed is scheduled for that very instant, not 24 hours
    later. *)
Lemma daily_activation_keeps_target_equal_to_now :
  Spec.today_target 0 (6 * 3600 + 30 * 60) 6 30 = 6 * 3600 + 30 * 60
  /\ feedTime (dailyModeAutoActivation 0 (6 * 3600 + 30 * 60)
                 daily_unset_state)
     = 6 * 3600 + 30 * 60
  /\ feedTime (dailyModeAutoActivation 0 (6 * 3600 + 30 * 60)
                 daily_unset_state)
     <> 6 * 3600 + 30 * 60 + 86400
  /\ feedTime (buttonLeftPressed setZPosOffsetStart_skip 0
                 (6 * 3600 + 30 * 60)
                 (set_currentMenu SETTINGS_MENU daily_unset_state))
     = 6 * 3600 + 30 * 60.
Proof.
  split; [reflexivity|]. split; [vm_compute; reflexivity|].
  split; [vm_compute; discriminate | vm_compute; reflexivity].
Qed.

Lemma interval_switch_recomputes_on_reset_witness :
  scheduleMode (buttonOkPressed setZPosOffsetStart_skip 5000
                  reset_interval_state) = INTERVAL_MODE
  /\ feedTime (buttonOkPressed setZPosOffsetStart_skip 5000
                 reset_interval_state) = 5000 + 8 * 3600.
Proof.
  destruct (interval_switch_recomputes_on_reset setZPosOffsetStart_skip 5000
              reset_interval_state eq_refl) as [H _].
  destruct (H eq_refl) as (Hmode & _ & Hgap & _).
  split; [exact Hmode|].
  apply (Hgap QDouble_whole_hours_exact 8); [reflexivity | lia | lia].
Defined.

(** C7, as stated, fails: choosing "Interval" in the schedule-mode menu
    switches the mode and leaves the feed time of the daily schedule in
    place. *)
Lemma choosing_interval_keeps_feedTime :
  scheduleMode choosing_interval_state = DAILY_MODE
  /\ scheduleMode (buttonOkPressed setZPosOffsetStart_skip 5000
                     choosing_interval_state) = INTERVAL_MODE
  /\ feedTime (buttonOkPressed setZPosOffsetStart_skip 5000
                 choosing_interval_state) = 1000
  /\ @d_to_time QDouble.ops
       (dadd (d_of_Z 5000)
             (dmul (feedGap choosing_interval_state) (d_of_Z 3600)))
     = 5000 + 8 * 3600
  /\ feedTime (buttonOkPressed setZPosOffsetStart_skip 5000
                 choosing_interval_state) <> 5000 + 8 * 3600.
Proof.
  split; [reflexivity|]. split; [vm_compute; reflexivity|].
  split; [vm_compute; reflexivity|]. split; [vm_compute; reflexivity|].
  vm_compute. discriminate.
Qed.

(** * Further properties of the source *)

(** ** Lemmas they share *)

Section SharedLemmas.
Context {D : DoubleOps}.
Variable utc_offset : Z.

Import MarlinController.

Lemma setFanSpeed_connected (fanNumber speedPercent : Z)
    (m : MarlinController.t) :
  isConnected m = true ->
  setFanSpeed fanNumber speedPercent m
  = set_written
      (written m
       ++ [("M106 P" ++ to_string fanNumber ++ " S"
            ++ to_string (Spec.duty (Spec.clamp_percent speedPercent)))
           ++ LF]) m.
Proof.
  intros Hc. unfold setFanSpeed.
  set (p1 := if speedPercent <? 0 then 0 else speedPercent).
  set (p2 := if p1 >? 100 then 100 else p1).
  assert (Hp : p2 = Spec.clamp_percent speedPercent).
  { unfold p2, p1, Spec.clamp_percent.
    destruct (Z.ltb_spec speedPercent 0);
      [ cbn; lia
      | destruct (Z.gtb_spec speedPercent 100); lia ]. }
  rewrite Hp. pose proof (clamp_percent_range speedPercent) as Hr.
  rewrite wrap_int_small by (unfold INT_MIN, INT_MAX; lia).
  rewrite Z.quot_div_nonneg by lia.
  fold (Spec.duty (Spec.clamp_percent speedPercent)).
  now rewrite sendGCode_connected by exact Hc.
Qed.

Lemma setFanSpeed_state (fanNumber speedPercent : Z)
    (m : MarlinController.t) :
  marlinState (setFanSpeed fanNumber speedPercent m) = marlinState m.
Proof.
  unfold setFanSpeed, sendGCode. now destruct (negb (isConnected m)).
Qed.

Lemma dailyModeAutoActivation_feedTime (now : Z) (g : globals) :
  scheduleMode g = DAILY_MODE -> feedTime g = 0 ->
  let target :=
    Spec.today_target utc_offset now (dailyFeedHour g) (dailyFeedMinute g) in
  feedTime (dailyModeAutoActivation utc_offset now g)
  = if target <? now then wrap_time (target + 24 * 3600) else target.
Proof.
  intros Hd Hz. unfold dailyModeAutoActivation. rewrite Hd, Hz.
  cbn [ScheduleMode_beq Z.eqb andb]. cbv zeta. rewrite mktime_today.
  reflexivity.
Qed.

End SharedLemmas.


(** ** State names in the snapshot *)

(** Every machine state is restored from the name it is saved under; a name
    that is none of the fifteen restores [idle]. *)
Theorem machine_state_name_round_trip :
  (forall s : state, stringToMachineState (machineStateToString s) = s)
  /\ (forall name : string,
        (forall s : state, name <> machineStateToString s) ->
        stringToMachineState name = idle).
Proof.
  split.
  - intros s. now destruct s.
  - intros name Hname. unfold stringToMachineState.
    repeat match goal with
           | |- (if (name =? ?k)%string then _ else _) = _ =>
               destruct (String.eqb_spec name k) as [E|_];
               [ exfalso;
                 first [ apply (Hname idle); exact E
                       | apply (Hname phase1_x_homing); exact E
                       | apply (Hname phase2_x_to_start); exact E
                       | apply (Hname phase3_tab_lifting); exact E
                       | apply (Hname phase4_lid_peeling); exact E
                       | apply (Hname phase5_x_rehoming); exact E
                       | apply (Hname phase6_z_lift_to_eject); exact E
                       | apply (Hname phase7_x_eject); exact E
                       | apply (Hname phase8_x_rehoming_final); exact E
                       | apply (Hname phase9_z_next_can); exact E
                       | apply (Hname initial_z_homing); exact E
                       | apply (Hname initial_z_offsetting); exact E
                       | apply (Hname loading_first); exact E
                       | apply (Hname canLoad_step_1); exact E
                       | apply (Hname canLoad_step_2); exact E ]
               | ]
           end.
    reflexivity.
Qed.

Lemma machine_state_name_round_trip_witness :
  stringToMachineState "phase_7" = idle.
Proof.
  apply (proj2 machine_state_name_round_trip).
  intros s. destruct s; discriminate.
Defined.

(** The controller states with a name are restored from it; the four Z-move
    states are saved as "unknown" and restore [idle], as does any other
    unlisted name. *)
Theorem marlin_state_name_collapses_z_moves :
  (forall s : MarlinController.state,
     stringToMarlinState (marlinStateToString s)
     = match s with
       | MarlinController.zMoveStarted
       | MarlinController.zMoveWaitForComplete1
       | MarlinController.zMoveWaitForComplete2
       | MarlinController.zMoveCompleted => MarlinController.idle
       | _ => s
       end)
  /\ (forall name : string,
        stringToMarlinState name <> MarlinController.zMoveStarted
        /\ stringToMarlinState name <> MarlinController.zMoveWaitForComplete1
        /\ stringToMarlinState name <> MarlinController.zMoveWaitForComplete2
        /\ stringToMarlinState name <> MarlinController.zMoveCompleted).
Proof.
  split.
  - intros s. now destruct s.
  - intros name. unfold stringToMarlinState.
    repeat match goal with
           | |- context [if ?b then _ else _] => destruct b
           end; repeat split; discriminate.
Qed.

Section Restore.
Context {D : DoubleOps}.

(** What [loadStateFromJSON] restores from the integer and name fields of a
    state file that [saveStateToJSON] wrote: the machine state, the number of
    cans, the feed time, the schedule mode and the clock fields come back as
    they were, the controller state comes back with Z moves collapsed to
    idle, and [openLast] is derived from the restored [ejectLast]. *)
Theorem loadState_restores_saved_fields (saved : globals) (p : snapshot)
    (g : globals) :
  machine_state p = machine_state (current_snapshot saved) ->
  marlin_state p = marlin_state (current_snapshot saved) ->
  cans_loaded p = cans_loaded (current_snapshot saved) ->
  feed_time p = feed_time (current_snapshot saved) ->
  schedule_mode p = schedule_mode (current_snapshot saved) ->
  daily_feed_hour p = daily_feed_hour (current_snapshot saved) ->
  daily_feed_minute p = daily_feed_minute (current_snapshot saved) ->
  let g' := loadStateFromJSON (Some p) g in
  machineState g' = machineState saved
  /\ cansLoaded g' = cansLoaded saved
  /\ feedTime g' = feedTime saved
  /\ scheduleMode g' = scheduleMode saved
  /\ dailyFeedHour g' = dailyFeedHour saved
  /\ dailyFeedMinute g' = dailyFeedMinute saved
  /\ MarlinController.marlinState (g_marlin g')
     = stringToMarlinState
         (marlinStateToString
            (MarlinController.marlinState (g_marlin saved)))
  /\ ejectLast g' = eject_last p
  /\ openLast g' = dsub (eject_last p) (d_of_Z 21)
  /\ MarlinController.written (g_marlin g')
     = MarlinController.written (g_marlin g)
  /\ operationRunning g' = operationRunning g
  /\ statics g' = statics g.
Proof.
  intros H1 H2 H3 H4 H5 H6 H7. cbv zeta. unfold loadStateFromJSON.
  cbn [current_snapshot machine_state marlin_state cans_loaded feed_time
       schedule_mode daily_feed_hour daily_feed_minute] in *.
  unfold on_marlin.
  cbn [machineState cansLoaded feedTime scheduleMode dailyFeedHour
       dailyFeedMinute g_marlin ejectLast openLast operationRunning statics
       set_machineState set_cansLoaded set_feedTime set_scheduleMode
       set_dailyFeedHour set_dailyFeedMinute set_g_marlin set_ejectLast
       set_openLast set_feedGap
       MarlinController.marlinState MarlinController.written
       MarlinController.setState MarlinController.set_marlinState
       MarlinController.set_xPos MarlinController.set_zPos].
  rewrite H1, H2, H3, H4, H5, H6, H7.
  split; [now destruct (machineState saved)|].
  repeat split.
  now destruct (scheduleMode saved).
Qed.

End Restore.

Lemma loadState_restores_saved_fields_witness :
  machineState
    (loadStateFromJSON (Some (current_snapshot phase1_done)) startup_state)
  = phase1_x_homing.
Proof.
  exact (proj1 (loadState_restores_saved_fields phase1_done
                  (current_snapshot phase1_done) startup_state
                  eq_refl eq_refl eq_refl eq_refl eq_refl eq_refl eq_refl)).
Defined.

(** ** An empty magazine *)

Section EmptyMagazine.
Context {D : DoubleOps}.

(** With no can loaded neither start function does anything, and a feed
    that falls due is skipped: the schedule still moves on and is saved,
    but no sequence starts and no command goes to the controller. *)
Theorem no_cans_feed_is_skipped (now : Z) (g : globals) :
  cansLoaded g < 1 ->
  dispenseFoodStart g = g
  /\ ejectOnlyStart g = g
  /\ (operationRunning g = false ->
      machineState g = idle ->
      startupSequenceComplete g = true ->
      0 < feedTime g <= now ->
      let g' := scheduledFeedCheck now g in
      feedTime g'
      = match scheduleMode g with
        | DAILY_MODE => wrap_time (feedTime g + 24 * 3600)
        | INTERVAL_MODE =>
            d_to_time (dadd (d_of_Z now) (dmul (feedGap g) (d_of_Z 3600)))
        end
      /\ (exists s, machine_state_json g' = s :: machine_state_json g
                    /\ feed_time s = feedTime g')
      /\ operationRunning g' = false
      /\ machineState g' = idle
      /\ g_marlin g' = g_marlin g
      /\ cansLoaded g' = cansLoaded g).
Proof.
  intros Hc.
  assert (Hlt : (cansLoaded g <? 1) = true) by now apply Z.ltb_lt.
  split; [unfold dispenseFoodStart; now rewrite Hlt|].
  split; [unfold ejectOnlyStart; now rewrite Hlt|].
  intros Hr Hm Hs Hf. cbv zeta.
  rewrite scheduledFeedCheck_due by assumption.
  rewrite dispenseFoodStart_empty by (destruct (scheduleMode g); exact Hc).
  destruct (scheduleMode g);
    cbn [feedTime machine_state_json operationRunning machineState g_marlin
         cansLoaded saveStateToJSON set_machine_state_json set_feedTime];
    (split; [reflexivity|]; split;
     [eexists; split; [reflexivity|]; reflexivity
     | repeat split; assumption]).
Qed.

End EmptyMagazine.

Lemma no_cans_feed_is_skipped_witness :
  dispenseFoodStart startup_state = startup_state.
Proof.
  assert (Hc : cansLoaded startup_state < 1) by reflexivity.
  exact (proj1 (no_cans_feed_is_skipped 0 startup_state Hc)).
Defined.

(** ** A closed port *)

Section ClosedPort.
Context {D : DoubleOps}.

Import MarlinController.

(** On a closed port every command is refused: nothing is written and the
    state and position stay as they are.  [disconnect] closes the port and
    sets the state to disconnected; a second [disconnect] changes nothing. *)
Theorem closed_port_refuses_commands (m : MarlinController.t) :
  (isConnected m = false ->
   (forall gcode, sendGCode gcode m = m)
   /\ homeX m = m /\ homeZ m = m
   /\ (forall position speed, moveXTo position speed m = m)
   /\ (forall position, moveZTo position m = m)
   /\ (forall fanNumber speedPercent,
         setFanSpeed fanNumber speedPercent m = m))
  /\ isConnected (disconnect m) = false
  /\ (isConnected m = true -> marlinState (disconnect m) = disconnected)
  /\ written (disconnect m) = written m
  /\ disconnect (disconnect m) = disconnect m.
Proof.
  split; [|split; [|split; [|split]]].
  - intros Hc.
    unfold homeX, homeZ, moveXTo, moveZTo, setFanSpeed, sendGCode.
    rewrite Hc. repeat split.
  - unfold disconnect, isConnected.
    destruct (Z.leb_spec 0 (marlinPort m)) as [H|H]; cbn.
    + reflexivity.
    + apply Z.leb_gt. exact H.
  - unfold disconnect, isConnected. now intros ->.
  - unfold disconnect. now destruct (0 <=? marlinPort m).
  - unfold disconnect.
    destruct (Z.leb_spec 0 (marlinPort m)) as [H|H]; cbn.
    + reflexivity.
    + destruct (Z.leb_spec 0 (marlinPort m)); [lia | reflexivity].
Qed.

End ClosedPort.

Lemma closed_port_refuses_commands_witness :
  MarlinController.homeX (MarlinController.disconnect marlin0)
  = MarlinController.disconnect marlin0.
Proof.
  destruct (closed_port_refuses_commands (MarlinController.disconnect marlin0))
    as (H & _).
  exact (proj1 (proj2 (H eq_refl))).
Defined.

(** ** The fan after a dispense *)

Section FanCooldown.
Context {D : DoubleOps}.

Lemma fans_off_written (m : MarlinController.t) :
  MarlinController.isConnected m = true ->
  MarlinController.written
    (MarlinController.setFanSpeed 1 0 (MarlinController.setFanSpeed 0 0 m))
  = (MarlinController.written m
     ++ [("M106 P0 S0" ++ LF)%string; ("M106 P1 S0" ++ LF)%string])%list.
Proof.
  intros Hc.
  rewrite (setFanSpeed_connected 1 0), (setFanSpeed_connected 0 0)
    by (try rewrite setFanSpeed_connected; assumption).
  cbn. rewrite <- !app_assoc. reflexivity.
Qed.

(** The pass on which phase 9 completes ends the operation: the last can
    is counted off, the sequencer is idle, [operationRunning] is cleared and
    the fan timer is armed five minutes ahead; no command goes to the
    controller on that pass, so the fans are left running. *)
Theorem operation_end_arms_fan_timer (now : Z) (g : globals) :
  operationRunning g = true ->
  machineState g = phase9_z_next_can ->
  started9 (statics g) = true ->
  MarlinController.marlinState (g_marlin g) = MarlinController.idle ->
  let g' := operationUpdate now g in
  operationRunning g' = false
  /\ machineState g' = idle
  /\ cansLoaded g' = wrap_int (cansLoaded g - 1)
  /\ fanStopTime g' = wrap_time (now + 5 * 60)
  /\ g_marlin g' = g_marlin g.
Proof.
  intros Hr Hk Hs Hm. cbv zeta. unfold operationUpdate. rewrite Hr.
  cbv zeta.
  assert (E : dispenseStateMachine g
              = saveStateToJSON
                  (set_cansLoaded (wrap_int (cansLoaded g - 1))
                     (on_statics (set_started9 false)
                        (set_machineState idle g)))).
  { unfold dispenseStateMachine. rewrite Hk.
    unfold phase9_z_next_can_state. rewrite Hs. cbn [negb].
    now rewrite (proj2 (marlin_is_true _ _) Hm). }
  rewrite E.
  assert (Hi : marlin_is MarlinController.idle
                 (saveStateToJSON
                    (set_cansLoaded (wrap_int (cansLoaded g - 1))
                       (on_statics (set_started9 false)
                          (set_machineState idle g)))) = true).
  { apply marlin_is_true. exact Hm. }
  rewrite Hi.
  cbn [machineState saveStateToJSON set_machine_state_json set_cansLoaded
       on_statics set_statics set_machineState state_beq andb].
  destruct (MenuState_beq _ RUNNING_OPERATION); repeat split.
Qed.

(** The fan timer: before it is due (and when it is not armed) the check
    does nothing; when it is due both fans are switched off and the timer is
    cleared, whether or not a new operation runs by then.  Starting a
    dispense does not touch the timer. *)
Theorem fan_cooldown (now : Z) (g : globals) :
  (fanStopTime g <= 0 \/ now < fanStopTime g -> fanStopCheck now g = g)
  /\ (0 < fanStopTime g <= now ->
      let g' := fanStopCheck now g in
      fanStopTime g' = 0
      /\ operationRunning g' = operationRunning g
      /\ machineState g' = machineState g
      /\ (MarlinController.isConnected (g_marlin g) = true ->
          MarlinController.written (g_marlin g')
          = (MarlinController.written (g_marlin g)
             ++ [("M106 P0 S0" ++ LF)%string;
                 ("M106 P1 S0" ++ LF)%string])%list)
      /\ forall now', fanStopCheck now' g' = g')
  /\ fanStopTime (dispenseFoodStart g) = fanStopTime g
  /\ fanStopTime (ejectOnlyStart g) = fanStopTime g.
Proof.
  split; [|split; [|split]].
  - intros H. unfold fanStopCheck.
    destruct (Z.gtb_spec (fanStopTime g) 0) as [Hp|_]; [|reflexivity].
    destruct (Z.geb_spec now (fanStopTime g)) as [Hge|_]; [lia|reflexivity].
  - intros H. cbv zeta. unfold fanStopCheck.
    destruct (Z.gtb_spec (fanStopTime g) 0) as [_|Hle]; [|lia].
    destruct (Z.geb_spec now (fanStopTime g)) as [_|Hlt]; [|lia].
    unfold on_marlin.
    cbn [fanStopTime operationRunning machineState g_marlin set_fanStopTime
         set_g_marlin Z.gtb Z.compare].
    repeat split. intros Hc. now apply fans_off_written.
  - unfold dispenseFoodStart. now destruct (cansLoaded g <? 1).
  - unfold ejectOnlyStart. now destruct (cansLoaded g <? 1).
Qed.

End FanCooldown.

Lemma operation_end_arms_fan_timer_witness :
  fanStopTime (operationUpdate 1000 phase9_done) = 1300
  /\ operationRunning (operationUpdate 1000 phase9_done) = false.
Proof.
  assert (Hr : operationRunning phase9_done = true)
    by (vm_compute; reflexivity).
  assert (Hk : machineState phase9_done = phase9_z_next_can)
    by (vm_compute; reflexivity).
  assert (Hs : started9 (statics phase9_done) = true)
    by (vm_compute; reflexivity).
  assert (Hm : MarlinController.marlinState (g_marlin phase9_done)
               = MarlinController.idle) by (vm_compute; reflexivity).
  destruct (operation_end_arms_fan_timer 1000 phase9_done Hr Hk Hs Hm)
    as (H1 & _ & _ & H2 & _).
  split; [rewrite H2; vm_compute; reflexivity | exact H1].
Defined.

Lemma fan_cooldown_witness :
  fanStopTime (fanStopCheck 400 (set_fanStopTime 300 ready_state)) = 0.
Proof.
  destruct (fan_cooldown 400 (set_fanStopTime 300 ready_state)) as (_ & H & _).
  assert (Hd : 0 < fanStopTime (set_fanStopTime 300 ready_state) <= 400)
    by (vm_compute; split; [reflexivity | discriminate]).
  exact (proj1 (H Hd)).
Defined.

(** ** Menu cursor and clock fields *)

Section Menus.
Context {D : DoubleOps}.
Variable setZPosOffsetStart : double -> MarlinController.t -> MarlinController.t.

Lemma set_menuSelection_same (g : globals) :
  set_menuSelection (menuSelection g) g = g.
Proof. now destruct g. Qed.

Lemma set_menuSelection_twice (v w : Z) (g : globals) :
  set_menuSelection v (set_menuSelection w g) = set_menuSelection v g.
Proof. reflexivity. Qed.

Ltac cursor_arith :=
  repeat match goal with
         | |- context [if ?a <? ?b then _ else _] =>
             destruct (Z.ltb_spec a b)
         | |- context [if ?a >? ?b then _ else _] =>
             destruct (Z.gtb_spec a b)
         end;
  rewrite ?wrap_int_small by (unfold INT_MIN, INT_MAX; lia);
  try first [ symmetry; apply Z.mod_small; lia
            | apply Z.mod_unique with (q := 1); lia
            | apply Z.mod_unique with (q := -1); lia ].

(** In the four menus with a cursor, Down moves it one entry on and Up one
    entry back, wrapping round at the ends; the cursor stays inside the
    menu, the menu stays the same, and Up undoes Down. *)
Theorem menu_cursor_wraps (g : globals) :
  let n := entries (currentMenu g) in
  0 < n ->
  0 <= menuSelection g < n ->
  buttonDownPressed setZPosOffsetStart g
  = set_menuSelection ((menuSelection g + 1) mod n) g
  /\ buttonUpPressed setZPosOffsetStart g
     = set_menuSelection ((menuSelection g - 1) mod n) g
  /\ buttonUpPressed setZPosOffsetStart
       (buttonDownPressed setZPosOffsetStart g) = g.
Proof.
  intros n Hn Hsel.
  assert (Hdown : buttonDownPressed setZPosOffsetStart g
                  = set_menuSelection ((menuSelection g + 1) mod n) g).
  { unfold buttonDownPressed. subst n.
    destruct (currentMenu g); cbn [entries] in *; try lia;
      f_equal; cursor_arith. }
  assert (Hup : forall g0 : globals,
             currentMenu g0 = currentMenu g ->
             0 <= menuSelection g0 < n ->
             buttonUpPressed setZPosOffsetStart g0
             = set_menuSelection ((menuSelection g0 - 1) mod n) g0).
  { intros g0 Hm Hs0. unfold buttonUpPressed. subst n. rewrite Hm.
    destruct (currentMenu g); cbn [entries] in *; try lia;
      f_equal; cursor_arith. }
  split; [exact Hdown|]. split; [now apply Hup|].
  rewrite Hdown. rewrite Hup.
  - cbn [menuSelection set_menuSelection]. rewrite set_menuSelection_twice.
    replace ((((menuSelection g + 1) mod n) - 1) mod n)
      with (menuSelection g); [apply set_menuSelection_same|].
    rewrite Zminus_mod_idemp_l.
    replace (menuSelection g + 1 - 1) with (menuSelection g) by lia.
    symmetry. apply Z.mod_small. lia.
  - reflexivity.
  - cbn [menuSelection set_menuSelection]. apply Z.mod_pos_bound. lia.
Qed.

(** In the daily-time menu Up and Down step the selected field by one, the
    hour through 0..23 and the minute through 0..59, wrapping round; the
    other field and the schedule stay as they are. *)
Theorem daily_time_fields_stay_in_range (g : globals) :
  currentMenu g = SCHEDULE_TIME_MENU ->
  scheduleMode g = DAILY_MODE ->
  0 <= dailyFeedHour g < 24 ->
  0 <= dailyFeedMinute g < 60 ->
  (menuSelection g = 0 ->
   buttonUpPressed setZPosOffsetStart g
   = set_dailyFeedHour ((dailyFeedHour g + 1) mod 24) g
   /\ buttonDownPressed setZPosOffsetStart g
      = set_dailyFeedHour ((dailyFeedHour g - 1) mod 24) g)
  /\ (menuSelection g <> 0 ->
      buttonUpPressed setZPosOffsetStart g
      = set_dailyFeedMinute ((dailyFeedMinute g + 1) mod 60) g
      /\ buttonDownPressed setZPosOffsetStart g
         = set_dailyFeedMinute ((dailyFeedMinute g - 1) mod 60) g).
Proof.
  intros Hm Hd Hh Hmin.
  split; intros Hsel; unfold buttonUpPressed, buttonDownPressed;
    rewrite Hm, Hd.
  - rewrite Hsel. cbn [Z.eqb].
    rewrite (wrap_int_small (dailyFeedHour g - 1))
      by (unfold INT_MIN, INT_MAX; lia).
    rewrite !wrap_int_small by (unfold INT_MIN, INT_MAX; lia).
    rewrite !Z.rem_mod_nonneg by lia.
    split; [reflexivity|]. f_equal.
    Z.div_mod_to_equations. lia.
  - apply Z.eqb_neq in Hsel. rewrite Hsel. cbv beta.
    cbn [dailyFeedMinute set_dailyFeedMinute].
    rewrite !wrap_int_small by (unfold INT_MIN, INT_MAX; lia).
    split.
    + destruct (Z.geb_spec (dailyFeedMinute g + 1) 60).
      * change (set_dailyFeedMinute 0 g
                = set_dailyFeedMinute ((dailyFeedMinute g + 1) mod 60) g).
        f_equal. apply Z.mod_unique with (q := 1); lia.
      * f_equal. symmetry. apply Z.mod_small. lia.
    + destruct (Z.ltb_spec (dailyFeedMinute g - 1) 0).
      * change (set_dailyFeedMinute 59 g
                = set_dailyFeedMinute ((dailyFeedMinute g - 1) mod 60) g).
        f_equal. apply Z.mod_unique with (q := -1); lia.
      * f_equal. symmetry. apply Z.mod_small. lia.
Qed.

End Menus.

Lemma menu_cursor_wraps_witness :
  menuSelection
    (buttonDownPressed setZPosOffsetStart_skip
       (set_menuSelection 4 (set_currentMenu COMMANDS_MENU ready_state))) = 0.
Proof.
  assert (Hs : 0 <= menuSelection
                      (set_menuSelection 4
                         (set_currentMenu COMMANDS_MENU ready_state)) < 5)
    by (vm_compute; split; [discriminate | reflexivity]).
  destruct (menu_cursor_wraps setZPosOffsetStart_skip
              (set_menuSelection 4 (set_currentMenu COMMANDS_MENU ready_state))
              eq_refl Hs) as (H & _).
  rewrite H. reflexivity.
Defined.

Lemma daily_time_fields_stay_in_range_witness :
  dailyFeedHour
    (buttonDownPressed setZPosOffsetStart_skip
       (set_dailyFeedHour 0
          (set_currentMenu SCHEDULE_TIME_MENU daily_unset_state))) = 23.
Proof.
  assert (Hh : 0 <= dailyFeedHour
                      (set_dailyFeedHour 0
                         (set_currentMenu SCHEDULE_TIME_MENU daily_unset_state))
               < 24) by (vm_compute; split; [discriminate | reflexivity]).
  assert (Hm : 0 <= dailyFeedMinute
                      (set_dailyFeedHour 0
                         (set_currentMenu SCHEDULE_TIME_MENU daily_unset_state))
               < 60) by (vm_compute; split; [discriminate | reflexivity]).
  destruct (daily_time_fields_stay_in_range setZPosOffsetStart_skip
              (set_dailyFeedHour 0
                 (set_currentMenu SCHEDULE_TIME_MENU daily_unset_state))
              eq_refl eq_refl Hh Hm) as (H & _).
  destruct (H eq_refl) as (_ & Hdown). rewrite Hdown. reflexivity.
Defined.

(** ** The derived calibration value *)

Section OpenLast.
Context {D : DoubleOps}.
Variable setZPosOffsetStart : double -> MarlinController.t -> MarlinController.t.
Variable utc_offset : Z.

(** Statements that assign neither [ejectLast] nor [openLast]. *)
Lemma derived_set_machineState v g :
  openLast_derived g -> openLast_derived (set_machineState v g).
Proof. exact (fun H => H). Qed.

Lemma derived_set_g_marlin v g :
  openLast_derived g -> openLast_derived (set_g_marlin v g).
Proof. exact (fun H => H). Qed.

Lemma derived_set_cansLoaded v g :
  openLast_derived g -> openLast_derived (set_cansLoaded v g).
Proof. exact (fun H => H). Qed.

Lemma derived_set_operationRunning v g :
  openLast_derived g -> openLast_derived (set_operationRunning v g).
Proof. exact (fun H => H). Qed.

Lemma derived_set_canLoadSequence v g :
  openLast_derived g -> openLast_derived (set_canLoadSequence v g).
Proof. exact (fun H => H). Qed.

Lemma derived_set_feedGap v g :
  openLast_derived g -> openLast_derived (set_feedGap v g).
Proof. exact (fun H => H). Qed.

Lemma derived_set_feedTime v g :
  openLast_derived g -> openLast_derived (set_feedTime v g).
Proof. exact (fun H => H). Qed.

Lemma derived_set_fanStopTime v g :
  openLast_derived g -> openLast_derived (set_fanStopTime v g).
Proof. exact (fun H => H). Qed.

Lemma derived_set_scheduleMode v g :
  openLast_derived g -> openLast_derived (set_scheduleMode v g).
Proof. exact (fun H => H). Qed.

Lemma derived_set_dailyFeedHour v g :
  openLast_derived g -> openLast_derived (set_dailyFeedHour v g).
Proof. exact (fun H => H). Qed.

Lemma derived_set_dailyFeedMinute v g :
  openLast_derived g -> openLast_derived (set_dailyFeedMinute v g).
Proof. exact (fun H => H). Qed.

Lemma derived_set_startupSequenceComplete v g :
  openLast_derived g -> openLast_derived (set_startupSequenceComplete v g).
Proof. exact (fun H => H). Qed.

Lemma derived_set_currentMenu v g :
  openLast_derived g -> openLast_derived (set_currentMenu v g).
Proof. exact (fun H => H). Qed.

Lemma derived_set_menuSelection v g :
  openLast_derived g -> openLast_derived (set_menuSelection v g).
Proof. exact (fun H => H). Qed.

Lemma derived_set_statics v g :
  openLast_derived g -> openLast_derived (set_statics v g).
Proof. exact (fun H => H). Qed.

Lemma derived_set_machine_state_json v g :
  openLast_derived g -> openLast_derived (set_machine_state_json v g).
Proof. exact (fun H => H). Qed.

Lemma derived_on_statics v g :
  openLast_derived g -> openLast_derived (on_statics v g).
Proof. exact (fun H => H). Qed.

Lemma derived_on_marlin v g :
  openLast_derived g -> openLast_derived (on_marlin v g).
Proof. exact (fun H => H). Qed.

Lemma derived_saveStateToJSON g :
  openLast_derived g -> openLast_derived (saveStateToJSON g).
Proof. exact (fun H => H). Qed.

Lemma derived_snd {A} (a : A) g :
  openLast_derived g -> openLast_derived (snd (a, g)).
Proof. exact (fun H => H). Qed.

(** The statement that derives [openLast] anew. *)
Lemma derived_anew g :
  openLast_derived (set_openLast (dsub (ejectLast g) (d_of_Z 21)) g).
Proof. reflexivity. Qed.

Ltac derived_by known :=
  repeat first
    [ match goal with
      | H : openLast_derived ?g |- openLast_derived ?g => exact H
      end
    | progress cbv beta iota zeta
    | known
    | lazymatch goal with
      | |- openLast_derived (if ?b then _ else _) => destruct b
      | |- openLast_derived (match ?x with _ => _ end) => destruct x
      | |- openLast_derived
             (set_openLast (dsub (ejectLast ?G) (d_of_Z 21)) ?G) =>
          exact (derived_anew G)
      | |- openLast_derived (snd (?a, ?G)) => refine (derived_snd a G _)
      | |- openLast_derived (saveStateToJSON ?G) =>
          refine (derived_saveStateToJSON G _)
      | |- openLast_derived (set_machineState ?v ?G) =>
          refine (derived_set_machineState v G _)
      | |- openLast_derived (set_g_marlin ?v ?G) =>
          refine (derived_set_g_marlin v G _)
      | |- openLast_derived (set_cansLoaded ?v ?G) =>
          refine (derived_set_cansLoaded v G _)
      | |- openLast_derived (set_operationRunning ?v ?G) =>
          refine (derived_set_operationRunning v G _)
      | |- openLast_derived (set_canLoadSequence ?v ?G) =>
          refine (derived_set_canLoadSequence v G _)
      | |- openLast_derived (set_feedGap ?v ?G) =>
          refine (derived_set_feedGap v G _)
      | |- openLast_derived (set_feedTime ?v ?G) =>
          refine (derived_set_feedTime v G _)
      | |- openLast_derived (set_fanStopTime ?v ?G) =>
          refine (derived_set_fanStopTime v G _)
      | |- openLast_derived (set_scheduleMode ?v ?G) =>
          refine (derived_set_scheduleMode v G _)
      | |- openLast_derived (set_dailyFeedHour ?v ?G) =>
          refine (derived_set_dailyFeedHour v G _)
      | |- openLast_derived (set_dailyFeedMinute ?v ?G) =>
          refine (derived_set_dailyFeedMinute v G _)
      | |- openLast_derived (set_startupSequenceComplete ?v ?G) =>
          refine (derived_set_startupSequenceComplete v G _)
      | |- openLast_derived (set_currentMenu ?v ?G) =>
          refine (derived_set_currentMenu v G _)
      | |- openLast_derived (set_menuSelection ?v ?G) =>
          refine (derived_set_menuSelection v G _)
      | |- openLast_derived (set_statics ?v ?G) =>
          refine (derived_set_statics v G _)
      | |- openLast_derived (set_machine_state_json ?v ?G) =>
          refine (derived_set_machine_state_json v G _)
      | |- openLast_derived (on_statics ?v ?G) =>
          refine (derived_on_statics v G _)
      | |- openLast_derived (on_marlin ?v ?G) =>
          refine (derived_on_marlin v G _)
      end ].

Lemma phase1_derived reset g :
  openLast_derived g ->
  openLast_derived (phase1_x_homing_state reset g).
Proof. intros H. unfold phase1_x_homing_state. derived_by fail. Qed.

Lemma phase2_derived reset g :
  openLast_derived g ->
  openLast_derived (phase2_x_to_start_state reset g).
Proof. intros H. unfold phase2_x_to_start_state. derived_by fail. Qed.

Lemma phase3_derived reset g :
  openLast_derived g ->
  openLast_derived (phase3_tab_lifting_state reset g).
Proof. intros H. unfold phase3_tab_lifting_state. derived_by fail. Qed.

Lemma phase4_derived reset g :
  openLast_derived g ->
  openLast_derived (phase4_lid_peeling_state reset g).
Proof. intros H. unfold phase4_lid_peeling_state. derived_by fail. Qed.

Lemma phase5_derived reset g :
  openLast_derived g ->
  openLast_derived (phase5_x_rehoming_state reset g).
Proof. intros H. unfold phase5_x_rehoming_state. derived_by fail. Qed.

Lemma phase6_derived reset g :
  openLast_derived g ->
  openLast_derived (phase6_z_lift_to_eject_state reset g).
Proof. intros H. unfold phase6_z_lift_to_eject_state. derived_by fail. Qed.

Lemma phase7_derived reset g :
  openLast_derived g ->
  openLast_derived (phase7_x_eject_state reset g).
Proof. intros H. unfold phase7_x_eject_state. derived_by fail. Qed.

Lemma phase8_derived reset g :
  openLast_derived g ->
  openLast_derived (phase8_x_rehoming_final_state reset g).
Proof. intros H. unfold phase8_x_rehoming_final_state. derived_by fail. Qed.

Lemma phase9_derived reset g :
  openLast_derived g ->
  openLast_derived (phase9_z_next_can_state reset g).
Proof. intros H. unfold phase9_z_next_can_state. derived_by fail. Qed.

Ltac derived_phases :=
  idtac;
  lazymatch goal with
  | |- openLast_derived (phase1_x_homing_state _ _) => simple apply phase1_derived
  | |- openLast_derived (phase2_x_to_start_state _ _) => simple apply phase2_derived
  | |- openLast_derived (phase3_tab_lifting_state _ _) => simple apply phase3_derived
  | |- openLast_derived (phase4_lid_peeling_state _ _) => simple apply phase4_derived
  | |- openLast_derived (phase5_x_rehoming_state _ _) => simple apply phase5_derived
  | |- openLast_derived (phase6_z_lift_to_eject_state _ _) => simple apply phase6_derived
  | |- openLast_derived (phase7_x_eject_state _ _) => simple apply phase7_derived
  | |- openLast_derived (phase8_x_rehoming_final_state _ _) => simple apply phase8_derived
  | |- openLast_derived (phase9_z_next_can_state _ _) => simple apply phase9_derived
  end.

Lemma resetAllPhases_derived g :
  openLast_derived g ->
  openLast_derived (resetAllPhases g).
Proof. intros H. unfold resetAllPhases. derived_by derived_phases. Qed.

Lemma dispenseStateMachine_derived g :
  openLast_derived g ->
  openLast_derived (dispenseStateMachine g).
Proof. intros H. unfold dispenseStateMachine. derived_by derived_phases. Qed.

Ltac derived_sequencer :=
  idtac;
  lazymatch goal with
  | |- openLast_derived (phase1_x_homing_state _ _) => simple apply phase1_derived
  | |- openLast_derived (phase2_x_to_start_state _ _) => simple apply phase2_derived
  | |- openLast_derived (phase3_tab_lifting_state _ _) => simple apply phase3_derived
  | |- openLast_derived (phase4_lid_peeling_state _ _) => simple apply phase4_derived
  | |- openLast_derived (phase5_x_rehoming_state _ _) => simple apply phase5_derived
  | |- openLast_derived (phase6_z_lift_to_eject_state _ _) => simple apply phase6_derived
  | |- openLast_derived (phase7_x_eject_state _ _) => simple apply phase7_derived
  | |- openLast_derived (phase8_x_rehoming_final_state _ _) => simple apply phase8_derived
  | |- openLast_derived (phase9_z_next_can_state _ _) => simple apply phase9_derived
  | |- openLast_derived (resetAllPhases _) => simple apply resetAllPhases_derived
  end.

Lemma dispenseFoodStart_derived g :
  openLast_derived g ->
  openLast_derived (dispenseFoodStart g).
Proof. intros H. unfold dispenseFoodStart. derived_by derived_sequencer. Qed.

Lemma ejectOnlyStart_derived g :
  openLast_derived g ->
  openLast_derived (ejectOnlyStart g).
Proof. intros H. unfold ejectOnlyStart. derived_by derived_sequencer. Qed.

Lemma abortOperation_derived g :
  openLast_derived g ->
  openLast_derived (abortOperation g).
Proof. intros H. unfold abortOperation. derived_by derived_sequencer. Qed.

Lemma canLoadSequenceStart_derived g :
  openLast_derived g ->
  openLast_derived (canLoadSequenceStart g).
Proof. intros H. unfold canLoadSequenceStart. derived_by fail. Qed.

Ltac derived_operations :=
  idtac;
  lazymatch goal with
  | |- openLast_derived (phase1_x_homing_state _ _) => simple apply phase1_derived
  | |- openLast_derived (phase2_x_to_start_state _ _) => simple apply phase2_derived
  | |- openLast_derived (phase3_tab_lifting_state _ _) => simple apply phase3_derived
  | |- openLast_derived (phase4_lid_peeling_state _ _) => simple apply phase4_derived
  | |- openLast_derived (phase5_x_rehoming_state _ _) => simple apply phase5_derived
  | |- openLast_derived (phase6_z_lift_to_eject_state _ _) => simple apply phase6_derived
  | |- openLast_derived (phase7_x_eject_state _ _) => simple apply phase7_derived
  | |- openLast_derived (phase8_x_rehoming_final_state _ _) => simple apply phase8_derived
  | |- openLast_derived (phase9_z_next_can_state _ _) => simple apply phase9_derived
  | |- openLast_derived (resetAllPhases _) => simple apply resetAllPhases_derived
  | |- openLast_derived (dispenseStateMachine _) => simple apply dispenseStateMachine_derived
  | |- openLast_derived (dispenseFoodStart _) => simple apply dispenseFoodStart_derived
  | |- openLast_derived (ejectOnlyStart _) => simple apply ejectOnlyStart_derived
  | |- openLast_derived (abortOperation _) => simple apply abortOperation_derived
  | |- openLast_derived (canLoadSequenceStart _) => simple apply canLoadSequenceStart_derived
  end.

(** [setCanOpenOffset] derives the value whatever it was before. *)
Lemma setCanOpenOffset_derived sendToMarlin g :
  openLast_derived (snd (setCanOpenOffset setZPosOffsetStart sendToMarlin g)).
Proof. unfold setCanOpenOffset. derived_by fail. Qed.

(** So do the two buttons that change [ejectLast], and the restore. *)
Lemma buttonUpPressed_derived g :
  openLast_derived g ->
  openLast_derived (buttonUpPressed setZPosOffsetStart g).
Proof.
  intros H. unfold buttonUpPressed, setCanOpenOffset. derived_by fail.
Qed.

Lemma buttonDownPressed_derived g :
  openLast_derived g ->
  openLast_derived (buttonDownPressed setZPosOffsetStart g).
Proof.
  intros H. unfold buttonDownPressed, setCanOpenOffset. derived_by fail.
Qed.

Lemma loadStateFromJSON_derived parsed g :
  openLast_derived g -> openLast_derived (loadStateFromJSON parsed g).
Proof.
  intros H. unfold loadStateFromJSON. destruct parsed; [|exact H].
  cbv beta. reflexivity.
Qed.

Lemma buttonLeftPressed_derived now g :
  openLast_derived g ->
  openLast_derived (buttonLeftPressed setZPosOffsetStart utc_offset now g).
Proof. intros H. unfold buttonLeftPressed, setCanOpenOffset. derived_by fail. Qed.

Lemma buttonOkPressed_derived now g :
  openLast_derived g ->
  openLast_derived (buttonOkPressed setZPosOffsetStart now g).
Proof. intros H. unfold buttonOkPressed, setCanOpenOffset. derived_by derived_operations. Qed.

Lemma webManualFeed_derived g :
  openLast_derived g ->
  openLast_derived (webManualFeed g).
Proof. intros H. unfold webManualFeed. derived_by derived_operations. Qed.

Lemma startupHomingCheck_derived g :
  openLast_derived g ->
  openLast_derived (startupHomingCheck g).
Proof. intros H. unfold startupHomingCheck. derived_by fail. Qed.

Lemma startupCompleteCheck_derived g :
  openLast_derived g ->
  openLast_derived (startupCompleteCheck g).
Proof. intros H. unfold startupCompleteCheck. derived_by fail. Qed.

Lemma scheduledFeedCheck_derived now g :
  openLast_derived g ->
  openLast_derived (scheduledFeedCheck now g).
Proof. intros H. unfold scheduledFeedCheck. derived_by derived_operations. Qed.

Lemma operationUpdate_derived now g :
  openLast_derived g -> openLast_derived (operationUpdate now g).
Proof.
  intros H. unfold operationUpdate.
  destruct (operationRunning g); [|exact H].
  cbv zeta.
  assert (H' : openLast_derived (dispenseStateMachine g))
    by now apply dispenseStateMachine_derived.
  revert H'. generalize (dispenseStateMachine g). intros g' H'.
  derived_by fail.
Qed.

Lemma fanStopCheck_derived now g :
  openLast_derived g ->
  openLast_derived (fanStopCheck now g).
Proof. intros H. unfold fanStopCheck. derived_by fail. Qed.

Lemma rescheduleLoadedFeedTime_derived now g :
  openLast_derived g ->
  openLast_derived (rescheduleLoadedFeedTime utc_offset now g).
Proof. intros H. unfold rescheduleLoadedFeedTime. derived_by fail. Qed.

Lemma dailyModeAutoActivation_derived now g :
  openLast_derived g ->
  openLast_derived (dailyModeAutoActivation utc_offset now g).
Proof. intros H. unfold dailyModeAutoActivation. derived_by fail. Qed.

Lemma controlLoopPass_derived now g :
  openLast_derived g -> openLast_derived (controlLoopPass now g).
Proof.
  intros H. unfold controlLoopPass.
  apply fanStopCheck_derived, operationUpdate_derived,
    scheduledFeedCheck_derived, startupCompleteCheck_derived,
    startupHomingCheck_derived, H.
Qed.

Lemma step_derived e g :
  openLast_derived g ->
  openLast_derived (step setZPosOffsetStart utc_offset e g).
Proof.
  intros H. destruct e; cbn [step].
  - exact H.
  - now apply controlLoopPass_derived.
  - now apply buttonUpPressed_derived.
  - now apply buttonDownPressed_derived.
  - now apply buttonLeftPressed_derived.
  - exact H.
  - now apply buttonOkPressed_derived.
  - now apply webManualFeed_derived.
Qed.

Lemma main_startup_derived now parsed g :
  openLast_derived
    (main_startup setZPosOffsetStart utc_offset now parsed g).
Proof.
  unfold main_startup.
  refine (derived_on_marlin _ _ _). refine (derived_set_machineState _ _ _).
  exact (setCanOpenOffset_derived true _).
Qed.

(** [openLast] is always the value derived from [ejectLast]: from the
    moment [main] has started up, whatever is restored from the state file
    and whatever buttons, lines, web commands and passes of the control loop
    follow, [openLast = ejectLast - 21]. *)
Theorem openLast_always_derived fd now parsed es :
  let g := run setZPosOffsetStart utc_offset es
             (main_startup setZPosOffsetStart utc_offset now parsed
                (initial_globals fd)) in
  openLast g = dsub (ejectLast g) (d_of_Z 21).
Proof.
  cbv zeta. unfold run.
  change (openLast_derived
            (fold_left (fun g e => step setZPosOffsetStart utc_offset e g) es
               (main_startup setZPosOffsetStart utc_offset now parsed
                  (initial_globals fd)))).
  generalize (main_startup_derived now parsed (initial_globals fd)).
  generalize (main_startup setZPosOffsetStart utc_offset now parsed
                (initial_globals fd)).
  induction es as [|e es IH]; intros g Hg; [exact Hg|].
  cbn [fold_left]. apply IH. now apply step_derived.
Qed.

End OpenLast.

(** ** Start-up *)

Section Startup.
Context {D : DoubleOps}.
Variable setZPosOffsetStart : double -> MarlinController.t -> MarlinController.t.
Variable utc_offset : Z.

Lemma rescheduleLoadedFeedTime_frame now g :
  let g' := rescheduleLoadedFeedTime utc_offset now g in
  g_marlin g' = g_marlin g /\ operationRunning g' = operationRunning g
  /\ startupSequenceComplete g' = startupSequenceComplete g.
Proof.
  cbv zeta. unfold rescheduleLoadedFeedTime.
  destruct (feedTime g >? 0); [|auto].
  destruct (feedTime g <? now); [|auto].
  destruct (scheduleMode g); auto.
Qed.

Lemma dailyModeAutoActivation_frame now g :
  let g' := dailyModeAutoActivation utc_offset now g in
  g_marlin g' = g_marlin g /\ operationRunning g' = operationRunning g
  /\ startupSequenceComplete g' = startupSequenceComplete g.
Proof.
  cbv zeta. unfold dailyModeAutoActivation.
  destruct (_ && _); auto.
Qed.

Lemma loadStateFromJSON_frame parsed g :
  let g' := loadStateFromJSON parsed g in
  MarlinController.marlinPort (g_marlin g')
  = MarlinController.marlinPort (g_marlin g)
  /\ operationRunning g' = operationRunning g
  /\ startupSequenceComplete g' = startupSequenceComplete g.
Proof. cbv zeta. unfold loadStateFromJSON. destruct parsed; auto. Qed.

Lemma main_startup_homing fd now parsed :
  let g0 := main_startup setZPosOffsetStart utc_offset now parsed
              (initial_globals fd) in
  MarlinController.isConnected (g_marlin g0) = true ->
  homing g0.
Proof.
  intros g0 Hc. subst g0. unfold main_startup in *.
  set (g1 := loadStateFromJSON parsed (initial_globals fd)) in *.
  set (g2 := rescheduleLoadedFeedTime utc_offset now g1) in *.
  set (g3 := dailyModeAutoActivation utc_offset now g2) in *.
  destruct (loadStateFromJSON_frame parsed (initial_globals fd))
    as (P1 & R1 & S1).
  destruct (rescheduleLoadedFeedTime_frame now g1) as (M2 & R2 & S2).
  destruct (dailyModeAutoActivation_frame now g2) as (M3 & R3 & S3).
  fold g1 in P1, R1, S1. fold g2 in M2, R2, S2. fold g3 in M3, R3, S3.
  unfold homing, setCanOpenOffset in *. cbn [snd] in *. unfold on_marlin in *.
  cbn [machineState g_marlin operationRunning startupSequenceComplete
       set_machineState set_g_marlin set_openLast] in *.
  split; [reflexivity|]. split; [|split].
  - unfold MarlinController.homeZ in *.
    destruct (negb (MarlinController.isConnected _)) eqn:Hn.
    + apply negb_true_iff in Hn. congruence.
    + unfold MarlinController.sendGCode. now destruct (negb _).
  - now rewrite R3, R2, R1.
  - now rewrite S3, S2, S1.
Qed.

Lemma handleResponse_not_ack response (m : MarlinController.t) :
  response <> "ok" ->
  MarlinController.marlinState (MarlinController.handleResponse response m)
  = MarlinController.marlinState m.
Proof.
  intros Hne. rewrite handleResponse_is_onLine. unfold Spec.onLine.
  destruct (String.prefix "X:" response).
  - now destruct (extractPosition_frame response m) as (E & _).
  - apply String.eqb_neq in Hne. now rewrite Hne.
Qed.

Lemma step_homing e g :
  before_homing_ack e -> homing g ->
  homing (step setZPosOffsetStart utc_offset e g)
  /\ feedTime (step setZPosOffsetStart utc_offset e g) = feedTime g.
Proof.
  intros He (Hk & Hm & Hr & Hs).
  destruct e; cbn [before_homing_ack] in He; try contradiction; cbn [step].
  - split; [|reflexivity]. unfold homing, on_marlin.
    cbn [machineState g_marlin operationRunning startupSequenceComplete
         set_g_marlin].
    rewrite handleResponse_not_ack by exact He. auto.
  - unfold controlLoopPass.
    assert (H1 : startupHomingCheck g = g).
    { unfold startupHomingCheck.
      rewrite (proj2 (marlin_is_false MarlinController.idle g))
        by (rewrite Hm; discriminate).
      now rewrite andb_false_r. }
    rewrite H1.
    assert (H2 : startupCompleteCheck g = g).
    { unfold startupCompleteCheck.
      rewrite (proj2 (marlin_is_false MarlinController.idle g))
        by (rewrite Hm; discriminate).
      now rewrite andb_false_r. }
    rewrite H2.
    assert (H3 : scheduledFeedCheck now g = g).
    { unfold scheduledFeedCheck. now rewrite Hk, Hr. }
    rewrite H3.
    assert (H4 : operationUpdate now g = g).
    { unfold operationUpdate. now rewrite Hr. }
    rewrite H4.
    unfold fanStopCheck.
    destruct (fanStopTime g >? 0); [|now repeat split].
    destruct (now >=? fanStopTime g); [|now repeat split].
    split; [|reflexivity]. unfold homing, on_marlin.
    cbn [machineState g_marlin operationRunning startupSequenceComplete
         set_g_marlin set_fanStopTime].
    rewrite !setFanSpeed_state. auto.
Qed.

(** Until the start-up homing is acknowledged, no pass of the control loop
    starts a feed, however overdue.  [main] enters the control loop, the
    port open, with the sequencer in [initial_z_homing] and the controller
    homing Z; passes of the loop and lines other than "ok" leave it there:
    no operation runs, the start-up is not complete and the feed time is
    not consumed. *)
Theorem startup_holds_back_feeding fd now parsed es :
  let g0 := main_startup setZPosOffsetStart utc_offset now parsed
              (initial_globals fd) in
  let g := run setZPosOffsetStart utc_offset es g0 in
  MarlinController.isConnected (g_marlin g0) = true ->
  Forall before_homing_ack es ->
  machineState g = initial_z_homing
  /\ MarlinController.marlinState (g_marlin g) = MarlinController.homingZ
  /\ operationRunning g = false
  /\ startupSequenceComplete g = false
  /\ feedTime g = feedTime g0.
Proof.
  intros g0 g Hc Hes.
  assert (H0 : homing g0) by now apply main_startup_homing.
  subst g. unfold run.
  assert (H : homing (fold_left
                        (fun g e => step setZPosOffsetStart utc_offset e g)
                        es g0)
              /\ feedTime (fold_left
                             (fun g e =>
                                step setZPosOffsetStart utc_offset e g)
                             es g0) = feedTime g0).
  { clear Hc. clearbody g0. revert g0 H0.
    induction Hes as [|e es He Hes IH]; intros g0 H0; [now split|].
    cbn [fold_left].
    destruct (step_homing e g0 He H0) as (H1 & F1).
    destruct (IH _ H1) as (H2 & F2). split; [exact H2|].
    now rewrite F2. }
  destruct H as ((Hk & Hm & Hr & Hs) & Hf). auto.
Qed.

End Startup.

Lemma startup_holds_back_feeding_witness :
  machineState
    (run setZPosOffsetStart_skip 0
       [Pass 10; Line "echo:busy: processing"; Pass 20] startup_state)
  = initial_z_homing.
Proof.
  assert (Hes : Forall before_homing_ack
                  [Pass 10; Line "echo:busy: processing"; Pass 20]).
  { repeat constructor. discriminate. }
  assert (Hc : MarlinController.isConnected (g_marlin startup_state) = true)
    by reflexivity.
  exact (proj1 (startup_holds_back_feeding setZPosOffsetStart_skip 0
                  3 0 None _ Hc Hes)).
Defined.

(** ** The feed time after a restart *)

Section RestartSchedule.
Context {D : DoubleOps}.
Variable utc_offset : Z.

Lemma today_target_bounds now hour minute :
  0 <= hour -> 0 <= minute ->
  now - 86400 < Spec.today_target utc_offset now hour minute - hour * 3600
                - minute * 60 <= now.
Proof.
  intros Hh Hm. unfold Spec.today_target.
  pose proof (Z.mod_pos_bound (now + utc_offset) 86400 ltac:(lia)) as Hb.
  pose proof (Z.div_mod (now + utc_offset) 86400 ltac:(lia)) as He.
  lia.
Qed.

(** What the two start-up checks make of a restored feed time.  A feed time
    that has passed is moved: in Interval mode to [feedGap] hours from now,
    in Daily mode to the set time of day tomorrow (also when today's is
    still ahead).  In Daily mode without a feed time, today's time of day
    is taken, or tomorrow's if it has passed.  A feed time not yet passed is
    kept, and in Interval mode an unset one stays unset.  In every case the
    result is unset or not before now.  The feed gap is a whole number of
    hours and [double] computes exactly on such numbers; the clock and the
    feed time are not negative. *)
Theorem restart_reschedules_missed_feed (now : Z) (g : globals) :
  whole_hours_exact D ->
  0 <= feedTime g ->
  0 <= dailyFeedHour g -> 0 <= dailyFeedMinute g ->
  0 <= now < 2 ^ 52 ->
  Spec.today_target utc_offset now (dailyFeedHour g) (dailyFeedMinute g)
    + 24 * 3600 <= TIME_MAX ->
  (exists h, feedGap g = d_of_Z h /\ 0 <= h < 2 ^ 20) ->
  let target :=
    Spec.today_target utc_offset now (dailyFeedHour g) (dailyFeedMinute g) in
  let g' := dailyModeAutoActivation utc_offset now
              (rescheduleLoadedFeedTime utc_offset now g) in
  (now <= feedTime g -> feedTime g <> 0 -> feedTime g' = feedTime g)
  /\ (0 < feedTime g < now -> scheduleMode g = DAILY_MODE ->
      feedTime g' = target + 24 * 3600)
  /\ (0 < feedTime g < now -> scheduleMode g = INTERVAL_MODE ->
      forall h, feedGap g = d_of_Z h -> 0 <= h < 2 ^ 20 ->
      feedTime g' = now + h * 3600)
  /\ (feedTime g = 0 -> scheduleMode g = DAILY_MODE ->
      feedTime g' = if target <? now then target + 24 * 3600 else target)
  /\ (feedTime g = 0 -> scheduleMode g = INTERVAL_MODE -> feedTime g' = 0)
  /\ (feedTime g' = 0 \/ now <= feedTime g').
Proof.
  intros Hexact Hf Hh Hm Hn Hmax (h0 & Hg0 & Hh0) target g'.
  pose proof (today_target_bounds now _ _ Hh Hm) as Hb. fold target in Hb.
  assert (Hpast : forall mode, scheduleMode g = mode -> 0 < feedTime g < now ->
            feedTime (rescheduleLoadedFeedTime utc_offset now g)
            = match mode with
              | DAILY_MODE => target + 24 * 3600
              | INTERVAL_MODE =>
                  d_to_time (dadd (d_of_Z now)
                                  (dmul (feedGap g) (d_of_Z 3600)))
              end
            /\ scheduleMode (rescheduleLoadedFeedTime utc_offset now g)
               = mode).
  { intros mode Hmode Hp. unfold rescheduleLoadedFeedTime.
    destruct (Z.gtb_spec (feedTime g) 0) as [_|]; [|lia].
    destruct (Z.ltb_spec (feedTime g) now) as [_|]; [|lia].
    rewrite Hmode. destruct mode; cbn [feedTime scheduleMode saveStateToJSON
      set_machine_state_json set_feedTime]; (split; [|exact Hmode]);
      [reflexivity|].
    unfold mktime, localtime, target, Spec.today_target. cbn [tm_sec tm_min
      tm_hour tm_day]. lia. }
  assert (Hkeep : feedTime g = 0 \/ now <= feedTime g ->
            rescheduleLoadedFeedTime utc_offset now g = g).
  { intros Hk. unfold rescheduleLoadedFeedTime.
    destruct (Z.gtb_spec (feedTime g) 0) as [Hp|]; [|reflexivity].
    destruct (Z.ltb_spec (feedTime g) now) as [Hl|]; [lia|reflexivity]. }
  assert (Hauto_off : forall g1 : globals,
            feedTime g1 <> 0 \/ scheduleMode g1 = INTERVAL_MODE ->
            dailyModeAutoActivation utc_offset now g1 = g1).
  { intros g1 H1. unfold dailyModeAutoActivation.
    destruct H1 as [H1|H1].
    - apply Z.eqb_neq in H1. rewrite H1. now rewrite andb_false_r.
    - now rewrite H1. }
  assert (Hauto_on : feedTime g = 0 -> scheduleMode g = DAILY_MODE ->
            feedTime (dailyModeAutoActivation utc_offset now g)
            = if target <? now then target + 24 * 3600 else target).
  { intros Hz Hd. rewrite (dailyModeAutoActivation_feedTime utc_offset now g Hd Hz).
    cbv zeta. fold target. destruct (target <? now); [|reflexivity].
    apply wrap_time_small. lia. }
  assert (C1 : now <= feedTime g -> feedTime g <> 0 -> feedTime g' = feedTime g).
  { intros H1 H2. unfold g'. rewrite Hkeep by (right; exact H1).
    now rewrite Hauto_off by (left; exact H2). }
  assert (C2 : 0 < feedTime g < now -> scheduleMode g = DAILY_MODE ->
               feedTime g' = target + 24 * 3600).
  { intros H1 H2. unfold g'. destruct (Hpast _ H2 H1) as (E & _).
    rewrite Hauto_off by (left; rewrite E; lia). exact E. }
  assert (C3 : 0 < feedTime g < now -> scheduleMode g = INTERVAL_MODE ->
               forall h, feedGap g = d_of_Z h -> 0 <= h < 2 ^ 20 ->
               feedTime g' = now + h * 3600).
  { intros H1 H2 h Hg Hhh. unfold g'. destruct (Hpast _ H2 H1) as (E & M).
    rewrite Hauto_off by (right; exact M). rewrite E, Hg.
    now apply Hexact. }
  assert (C4 : feedTime g = 0 -> scheduleMode g = DAILY_MODE ->
               feedTime g'
               = if target <? now then target + 24 * 3600 else target).
  { intros H1 H2. unfold g'. rewrite Hkeep by (left; exact H1).
    now apply Hauto_on. }
  assert (C5 : feedTime g = 0 -> scheduleMode g = INTERVAL_MODE ->
               feedTime g' = 0).
  { intros H1 H2. unfold g'. rewrite Hkeep by (left; exact H1).
    now rewrite Hauto_off by (right; exact H2). }
  repeat (split; [assumption|]).
  destruct (Z.eq_dec (feedTime g) 0) as [Hz|Hnz].
  - destruct (scheduleMode g) eqn:Hmode.
    + left. now apply C5.
    + right. rewrite (C4 Hz eq_refl).
      destruct (Z.ltb_spec target now); lia.
  - destruct (Z.le_gt_cases now (feedTime g)) as [Hle|Hgt].
    + right. rewrite (C1 Hle Hnz). exact Hle.
    + right. destruct (scheduleMode g) eqn:Hmode.
      * rewrite (C3 ltac:(lia) eq_refl h0 Hg0 Hh0). lia.
      * rewrite (C2 ltac:(lia) eq_refl). lia.
Qed.

End RestartSchedule.

Lemma restart_reschedules_missed_feed_witness :
  feedTime
    (dailyModeAutoActivation 0 21600
       (rescheduleLoadedFeedTime 0 21600 (set_feedTime 1000 daily_unset_state)))
  = 86400 + 23400.
Proof.
  assert (H0 : 0 <= feedTime (set_feedTime 1000 daily_unset_state))
    by discriminate.
  assert (H1 : 0 <= dailyFeedHour (set_feedTime 1000 daily_unset_state))
    by discriminate.
  assert (H2 : 0 <= dailyFeedMinute (set_feedTime 1000 daily_unset_state))
    by discriminate.
  assert (H3 : 0 <= 21600 < 2 ^ 52)
    by (split; [discriminate | reflexivity]).
  assert (H4 : Spec.today_target 0 21600
                 (dailyFeedHour (set_feedTime 1000 daily_unset_state))
                 (dailyFeedMinute (set_feedTime 1000 daily_unset_state))
               + 24 * 3600 <= TIME_MAX) by discriminate.
  assert (H5 : exists h,
             feedGap (set_feedTime 1000 daily_unset_state) = d_of_Z h
             /\ 0 <= h < 2 ^ 20).
  { exists 8. split; [reflexivity|]. split; [discriminate | reflexivity]. }
  destruct (restart_reschedules_missed_feed 0 21600
              (set_feedTime 1000 daily_unset_state)
              QDouble_whole_hours_exact H0 H1 H2 H3 H4 H5)
    as (_ & H & _).
  assert (Hp : 0 < feedTime (set_feedTime 1000 daily_unset_state) < 21600)
    by (split; reflexivity).
  rewrite (H Hp eq_refl). reflexivity.
Defined.

(** ** A complete operation *)

Section CompleteOperation.
Context {D : DoubleOps}.

Lemma ejectOnlyStart_loaded (g : globals) :
  1 <= cansLoaded g ->
  ejectOnlyStart g
  = saveStateToJSON
      (set_machineState phase6_z_lift_to_eject
         (resetAllPhases
            (on_marlin (MarlinController.setFanSpeed 1 100)
               (on_marlin (MarlinController.setFanSpeed 0 100)
                  (set_operationRunning true g))))).
Proof.
  intros Hc. unfold ejectOnlyStart.
  destruct (Z.ltb_spec (cansLoaded g) 1); [lia | reflexivity].
Qed.

Lemma setFanSpeed_full (fanNumber : Z) (m : MarlinController.t) :
  MarlinController.setFanSpeed fanNumber 100 m
  = MarlinController.sendGCode
      ("M106 P" ++ to_string fanNumber ++ " S255") m.
Proof. reflexivity. Qed.

Lemma on_marlin_setFanSpeed_full (fanNumber : Z) (g : globals) :
  on_marlin (MarlinController.setFanSpeed fanNumber 100) g
  = on_marlin (MarlinController.sendGCode
                 ("M106 P" ++ to_string fanNumber ++ " S255")) g.
Proof. unfold on_marlin. now rewrite setFanSpeed_full. Qed.

Ltac run_on_open_port g Hp Hb :=
  destruct g as [ms [st x z flag port w] cans running loading gap ft fst
                 mode hour minute complete el ol menu sel lat json];
  cbn [g_marlin MarlinController.isConnected MarlinController.marlinPort
       MarlinController.burnExtraOK cansLoaded] in *;
  subst flag;
  destruct port as [|port|port]; [| |discriminate Hp].

(** On an open port with a can loaded and no acknowledgment to skip, a
    dispense whose every command is acknowledged goes through phases 1 to 9 in order and ends idle with the
    latches clear, the controller idle and one can less.  On the way it
    sends, after the two fan commands: the homing, the three X moves and
    the re-homing; the Z lift by 21 from where Z stood; the X eject and the
    final homing; the Z lift by 37 more; every move followed by "M400". *)
Theorem full_dispense_completes (g : globals) :
  MarlinController.isConnected (g_marlin g) = true ->
  MarlinController.burnExtraOK (g_marlin g) = false ->
  1 <= cansLoaded g <= INT_MAX ->
  let g0 := dispenseFoodStart g in
  let g' := sequencer_run feed_run g0 in
  let zUp := dadd (MarlinController.zPos (g_marlin g)) canToEject in
  let zNext := dadd zUp nextCan in
  let move x f :=
    (("G0 X" ++ to_string_d (d_of_Z x) ++ " F" ++ to_string_d (d_of_Z f))
       ++ LF)%string in
  let lift z := (("G0 Z" ++ to_string_d z ++ " F300") ++ LF)%string in
  phases_seen idle (machineState g0 :: visited feed_run g0)
  = [phase1_x_homing; phase2_x_to_start; phase3_tab_lifting;
     phase4_lid_peeling; phase5_x_rehoming; phase6_z_lift_to_eject;
     phase7_x_eject; phase8_x_rehoming_final; phase9_z_next_can; idle]
  /\ machineState g' = idle
  /\ statics g' = Spec.all_reset
  /\ cansLoaded g' = cansLoaded g - 1
  /\ MarlinController.marlinState (g_marlin g') = MarlinController.idle
  /\ MarlinController.zPos (g_marlin g') = zNext
  /\ MarlinController.written (g_marlin g')
     = (MarlinController.written (g_marlin g)
        ++ [ ("M106 P0 S255" ++ LF)%string; ("M106 P1 S255" ++ LF)%string;
             ("G28 X" ++ LF)%string;
             move 165 600; ("M400" ++ LF)%string;
             move 248 150; ("M400" ++ LF)%string;
             move 25 150; ("M400" ++ LF)%string;
             ("G28 X" ++ LF)%string;
             lift zUp; ("M400" ++ LF)%string;
             move 248 600; ("M400" ++ LF)%string;
             ("G28 X" ++ LF)%string;
             lift zNext; ("M400" ++ LF)%string ])%list.
Proof.
  intros Hp Hb Hc. cbv zeta.
  rewrite (dispenseFoodStart_loaded g) by lia.
  rewrite !on_marlin_setFanSpeed_full.
  assert (Hw : wrap_int (cansLoaded g - 1) = cansLoaded g - 1)
    by (apply wrap_int_small; unfold INT_MIN, INT_MAX in *; lia).
  rewrite <- Hw. clear Hw Hc.
  run_on_open_port g Hp Hb;
    (split;
     [ cbv - [wrap_int to_string_d dadd d_of_Z double app]; reflexivity
     | match goal with
       | |- context [sequencer_run ?es ?G0] =>
           remember (sequencer_run es G0) as G' eqn:E;
           cbv - [wrap_int to_string_d dadd d_of_Z double app] in E;
           subst G'
       end;
       cbn [machineState statics cansLoaded g_marlin
            MarlinController.marlinState MarlinController.zPos
            MarlinController.written];
       rewrite <- ?app_assoc; repeat split ]).
Qed.


(** On an open port with a can loaded and no acknowledgment to skip, an
    eject-only operation starts at phase 6: it goes through phases 6 to 9
    and ends like a dispense, having sent no command of the opening phases:
    after the two fan commands only the Z lift by 21, the X eject, the
    homing and the Z lift by 37 more. *)
Theorem eject_only_completes (g : globals) :
  MarlinController.isConnected (g_marlin g) = true ->
  MarlinController.burnExtraOK (g_marlin g) = false ->
  1 <= cansLoaded g <= INT_MAX ->
  let g0 := ejectOnlyStart g in
  let g' := sequencer_run eject_only g0 in
  let zUp := dadd (MarlinController.zPos (g_marlin g)) canToEject in
  let zNext := dadd zUp nextCan in
  let move x f :=
    (("G0 X" ++ to_string_d (d_of_Z x) ++ " F" ++ to_string_d (d_of_Z f))
       ++ LF)%string in
  let lift z := (("G0 Z" ++ to_string_d z ++ " F300") ++ LF)%string in
  phases_seen idle (machineState g0 :: visited eject_only g0)
  = [phase6_z_lift_to_eject; phase7_x_eject; phase8_x_rehoming_final;
     phase9_z_next_can; idle]
  /\ machineState g' = idle
  /\ statics g' = Spec.all_reset
  /\ cansLoaded g' = cansLoaded g - 1
  /\ MarlinController.marlinState (g_marlin g') = MarlinController.idle
  /\ MarlinController.zPos (g_marlin g') = zNext
  /\ MarlinController.written (g_marlin g')
     = (MarlinController.written (g_marlin g)
        ++ [ ("M106 P0 S255" ++ LF)%string; ("M106 P1 S255" ++ LF)%string;
             lift zUp; ("M400" ++ LF)%string;
             move 248 600; ("M400" ++ LF)%string;
             ("G28 X" ++ LF)%string;
             lift zNext; ("M400" ++ LF)%string ])%list.
Proof.
  intros Hp Hb Hc. cbv zeta.
  rewrite (ejectOnlyStart_loaded g) by lia.
  rewrite !on_marlin_setFanSpeed_full.
  assert (Hw : wrap_int (cansLoaded g - 1) = cansLoaded g - 1)
    by (apply wrap_int_small; unfold INT_MIN, INT_MAX in *; lia).
  rewrite <- Hw. clear Hw Hc.
  run_on_open_port g Hp Hb;
    (split;
     [ cbv - [wrap_int to_string_d dadd d_of_Z double app]; reflexivity
     | match goal with
       | |- context [sequencer_run ?es ?G0] =>
           remember (sequencer_run es G0) as G' eqn:E;
           cbv - [wrap_int to_string_d dadd d_of_Z double app] in E;
           subst G'
       end;
       cbn [machineState statics cansLoaded g_marlin
            MarlinController.marlinState MarlinController.zPos
            MarlinController.written];
       rewrite <- ?app_assoc; repeat split ]).
Qed.
End CompleteOperation.

Lemma full_dispense_completes_witness :
  cansLoaded (sequencer_run feed_run (dispenseFoodStart ready_state)) = 1.
Proof.
  assert (Hp : MarlinController.isConnected (g_marlin ready_state) = true)
    by reflexivity.
  assert (Hb : MarlinController.burnExtraOK (g_marlin ready_state) = false)
    by reflexivity.
  assert (Hc : 1 <= cansLoaded ready_state <= INT_MAX)
    by (vm_compute; split; discriminate).
  destruct (full_dispense_completes ready_state Hp Hb Hc) as (_ & _ & _ & H & _).
  exact H.
Defined.

Lemma eject_only_completes_witness :
  machineState (sequencer_run eject_only (ejectOnlyStart ready_state)) = idle.
Proof.
  assert (Hp : MarlinController.isConnected (g_marlin ready_state) = true)
    by reflexivity.
  assert (Hb : MarlinController.burnExtraOK (g_marlin ready_state) = false)
    by reflexivity.
  assert (Hc : 1 <= cansLoaded ready_state <= INT_MAX)
    by (vm_compute; split; discriminate).
  destruct (eject_only_completes ready_state Hp Hb Hc) as (_ & H & _).
  exact H.
Defined.
(** ** Lines that are neither an acknowledgment nor a report *)

Section Chatter.
Context {D : DoubleOps}.
Variable setZPosOffsetStart :
  double -> MarlinController.t -> MarlinController.t.
Variable utc_offset : Z.

Lemma handleResponse_chatter response (m : MarlinController.t) :
  chatter (Line response) = true ->
  MarlinController.handleResponse response m = m.
Proof.
  unfold chatter. intros H. apply andb_true_iff in H as (Hok & Hx).
  apply negb_true_iff in Hok, Hx.
  unfold MarlinController.handleResponse. rewrite Hx, Hok.
  now destruct (MarlinController.marlinState m).
Qed.

(** Whatever the buttons, the clock and the controller do, the program ends
    in the same state when the lines that are neither "ok" nor begin with
    "X:" are taken out of what it receives: such lines change nothing,
    wherever they arrive. *)
Theorem chatter_is_ignored (es : list event) (g : globals) :
  run setZPosOffsetStart utc_offset es g
  = run setZPosOffsetStart utc_offset
      (filter (fun e => negb (chatter e)) es) g.
Proof.
  unfold run. revert g. induction es as [|e es IH]; intros g; [reflexivity|].
  cbn [filter fold_left].
  destruct (chatter e) eqn:He; cbn [negb fold_left]; [|apply IH].
  rewrite <- IH. f_equal.
  destruct e; try discriminate He. cbn [step].
  unfold on_marlin. rewrite (handleResponse_chatter _ _ He).
  now destruct g.
Qed.

End Chatter.
(** ** The reader thread *)

Section ReaderThread.
Context {D : DoubleOps}.

Import Reader.

Lemma index_LF (s : string) :
  String.index 0 LF s
  = match cut s with
    | Some (l, _) => Some (String.length l)
    | None => None
    end.
Proof.
  induction s as [|c s IH]; [reflexivity|].
  cbn [cut]. unfold LF in *. cbn [String.index String.prefix].
  destruct (ascii_dec (ascii_of_nat 10) c) as [<-|Hne].
  - rewrite Ascii.eqb_refl. now destruct s.
  - assert (E : Ascii.eqb c (ascii_of_nat 10) = false)
      by (apply Ascii.eqb_neq; congruence).
    rewrite E, IH. now destruct (cut s) as [[l r]|].
Qed.

Lemma cut_length (s l r : string) :
  cut s = Some (l, r) ->
  String.length s = S (String.length l + String.length r).
Proof.
  revert l r. induction s as [|c s IH]; intros l r; [discriminate|].
  cbn [cut]. destruct (Ascii.eqb c (ascii_of_nat 10)).
  - intros [= <- <-]. reflexivity.
  - destruct (cut s) as [[l' r']|]; [|discriminate].
    intros [= <- <-]. cbn. now rewrite (IH l' r' eq_refl).
Qed.

Lemma cut_substring (s l r : string) :
  cut s = Some (l, r) -> String.substring 0 (String.length l) s = l.
Proof.
  revert l r. induction s as [|c s IH]; intros l r; [discriminate|].
  cbn [cut]. destruct (Ascii.eqb c (ascii_of_nat 10)).
  - intros [= <- <-]. reflexivity.
  - destruct (cut s) as [[l' r']|]; [|discriminate].
    intros [= <- <-]. cbn. now rewrite (IH l' r' eq_refl).
Qed.

Lemma cut_drop (s l r : string) :
  cut s = Some (l, r) -> drop (S (String.length l)) s = r.
Proof.
  revert l r. induction s as [|c s IH]; intros l r; [discriminate|].
  cbn [cut]. destruct (Ascii.eqb c (ascii_of_nat 10)).
  - intros [= <- <-]. reflexivity.
  - destruct (cut s) as [[l' r']|]; [|discriminate].
    intros [= <- <-]. cbn [String.length drop]. now apply IH.
Qed.

Lemma find_LF (s : string) :
  find s LF 0
  = match cut s with
    | Some (l, _) => size l
    | None => npos
    end.
Proof.
  unfold find, size.
  destruct (Z.ltb_spec (Z.of_nat (String.length s)) 0); [lia|].
  cbn [Z.to_nat]. rewrite index_LF. now destruct (cut s) as [[l r]|].
Qed.

Lemma cut_append (a b : string) :
  cut (a ++ b)
  = match cut a with
    | Some (l, r) => Some (l, r ++ b)
    | None => match cut b with
              | Some (l, r) => Some (a ++ l, r)
              | None => None
              end
    end.
Proof.
  induction a as [|c a IH]; cbn [String.append cut].
  - now destruct (cut b) as [[l r]|].
  - destruct (Ascii.eqb c (ascii_of_nat 10)); [reflexivity|].
    rewrite IH. destruct (cut a) as [[l r]|]; [reflexivity|].
    now destruct (cut b) as [[l r]|].
Qed.

Lemma append_assoc (a b c : string) : (a ++ b) ++ c = a ++ (b ++ c).
Proof. induction a as [|x a IH]; cbn; [reflexivity | now rewrite IH]. Qed.

Lemma append_empty (a : string) : a ++ "" = a.
Proof. induction a as [|x a IH]; cbn; [reflexivity | now rewrite IH]. Qed.

Lemma length_append (a b : string) :
  String.length (a ++ b) = (String.length a + String.length b)%nat.
Proof. induction a as [|x a IH]; cbn; [reflexivity | now rewrite IH]. Qed.

(** One test of the loop condition, in terms of [cut]. *)
Lemma drain_step (fuel : nat) (lineBuffer : string)
    (m : MarlinController.t) :
  size lineBuffer < 2 ^ 64 ->
  drain (S fuel) lineBuffer m
  = match cut lineBuffer with
    | None => Returns (lineBuffer, m)
    | Some (l, r) => drain fuel r (hand_over (stripped l) m)
    end.
Proof.
  intros Hs. cbn [drain]. cbv zeta. rewrite find_LF.
  destruct (cut lineBuffer) as [[l r]|] eqn:Hc; [|reflexivity].
  pose proof (cut_length _ _ _ Hc) as Hl.
  assert (Hn : (size l =? npos) = false).
  { apply Z.eqb_neq. unfold size, npos in *. lia. }
  rewrite Hn. unfold substr.
  destruct (Z.ltb_spec (size lineBuffer) 0); [unfold size in *; lia|].
  replace (Z.to_nat (Z.min (size l) (size lineBuffer - 0)))
    with (String.length l) by (unfold size; lia).
  cbn [Z.to_nat]. rewrite (cut_substring _ _ _ Hc).
  unfold erase_front.
  replace (Z.to_nat (size l + 1)) with (S (String.length l))
    by (unfold size; lia).
  rewrite (cut_drop _ _ _ Hc). reflexivity.
Qed.

Lemma drain_enough (f1 f2 : nat) (lineBuffer : string)
    (m : MarlinController.t) :
  size lineBuffer < 2 ^ 64 ->
  (String.length lineBuffer < f1)%nat ->
  (String.length lineBuffer < f2)%nat ->
  drain f1 lineBuffer m = drain f2 lineBuffer m.
Proof.
  revert f2 lineBuffer m.
  induction f1 as [|f1 IH]; intros f2 lb m Hs H1 H2; [lia|].
  destruct f2 as [|f2]; [lia|].
  rewrite !drain_step by assumption.
  destruct (cut lb) as [[l r]|] eqn:Hc; [|reflexivity].
  pose proof (cut_length _ _ _ Hc) as Hl.
  apply IH; unfold size in *; lia.
Qed.

Lemma hand_over_port (line : string) (m : MarlinController.t) :
  MarlinController.marlinPort (hand_over line m)
  = MarlinController.marlinPort m.
Proof.
  unfold hand_over. destruct (negb _); [|reflexivity].
  rewrite handleResponse_is_onLine. unfold Spec.onLine.
  destruct (String.prefix "X:" line).
  - now destruct (extractPosition_frame line m) as (_ & _ & E' & _).
  - destruct (_ =? "ok")%string; [|reflexivity].
    unfold Spec.ack_transition, MarlinController.setState,
      MarlinController.sendGCode.
    destruct (MarlinController.marlinState m); try reflexivity;
      try (destruct (negb (MarlinController.isConnected m)); reflexivity);
      now destruct (MarlinController.burnExtraOK m).
Qed.

Lemma drain_returns (fuel : nat) (lineBuffer : string)
    (m : MarlinController.t) :
  size lineBuffer < 2 ^ 64 ->
  (String.length lineBuffer < fuel)%nat ->
  exists rest m',
    drain fuel lineBuffer m = Returns (rest, m')
    /\ cut rest = None
    /\ (String.length rest <= String.length lineBuffer)%nat
    /\ MarlinController.marlinPort m' = MarlinController.marlinPort m.
Proof.
  revert lineBuffer m.
  induction fuel as [|fuel IH]; intros lb m Hs Hf; [lia|].
  rewrite drain_step by assumption.
  destruct (cut lb) as [[l r]|] eqn:Hc.
  - pose proof (cut_length _ _ _ Hc) as Hl.
    destruct (IH r (hand_over (stripped l) m))
      as (rest & m' & E & Hr & Hlen & Hport);
      [unfold size in *; lia | lia |].
    exists rest, m'. repeat split; [assumption | assumption | lia |].
    rewrite Hport. apply hand_over_port.
  - exists lb, m. repeat split; [assumption | lia].
Qed.

Lemma drain_append (fuel : nat) (a b rest : string)
    (m m' : MarlinController.t) :
  size (a ++ b) < 2 ^ 64 ->
  drain fuel a m = Returns (rest, m') ->
  drain (S (String.length (a ++ b))) (a ++ b) m
  = drain (S (String.length (rest ++ b))) (rest ++ b) m'.
Proof.
  revert a m.
  induction fuel as [|fuel IH]; intros a m Hs E; [discriminate E|].
  assert (Hsa : size a < 2 ^ 64)
    by (unfold size in *; rewrite length_append in Hs; lia).
  rewrite drain_step in E by assumption.
  destruct (cut a) as [[l r]|] eqn:Hc.
  - pose proof (cut_length _ _ _ Hc) as Hl.
    rewrite drain_step by assumption. rewrite cut_append, Hc.
    assert (Hsr : size (r ++ b) < 2 ^ 64)
      by (unfold size in *; rewrite length_append in *; lia).
    rewrite <- (IH r _ Hsr E).
    apply drain_enough; [assumption | | lia].
    rewrite !length_append. lia.
  - injection E as <- <-. reflexivity.
Qed.

Lemma cut_none_find (s : string) :
  size s < 2 ^ 64 -> find s LF 0 = npos -> cut s = None.
Proof.
  intros Hs. rewrite find_LF.
  destruct (cut s) as [[l r]|] eqn:Hc; [|reflexivity].
  pose proof (cut_length _ _ _ Hc). unfold size, npos in *. lia.
Qed.

Lemma find_cut_none (s : string) : cut s = None -> find s LF 0 = npos.
Proof. intros Hc. now rewrite find_LF, Hc. Qed.

Lemma c_str_append (a b : string) :
  c_str a = a -> c_str (a ++ b) = a ++ c_str b.
Proof.
  induction a as [|c a IH]; [reflexivity|].
  cbn [c_str String.append]. destruct (Ascii.eqb c NUL); [discriminate|].
  intros [= E]. now rewrite IH.
Qed.

Lemma back_append (a : string) (c : ascii) :
  back (a ++ String c "") = Some c.
Proof.
  induction a as [|x a IH]; [reflexivity|].
  cbn [String.append back]. rewrite IH.
  now destruct (a ++ String c "") eqn:E; [destruct a; discriminate E|].
Qed.

Lemma pop_back_append (a : string) (c : ascii) :
  pop_back (a ++ String c "") = a.
Proof.
  unfold pop_back. rewrite length_append. cbn [String.length].
  replace (String.length a + 1 - 1)%nat with (String.length a) by lia.
  induction a as [|x a IH]; [reflexivity|].
  cbn. now rewrite IH.
Qed.

Lemma stripped_CR (a : string) : stripped (a ++ String CR "") = a.
Proof.
  unfold stripped. rewrite back_append, Ascii.eqb_refl, pop_back_append.
  now destruct a.
Qed.

Lemma stripped_other (a : string) : back a <> Some CR -> stripped a = a.
Proof.
  unfold stripped. intros H. destruct (back a) as [c|].
  - destruct (Ascii.eqb_spec c CR) as [->|]; [congruence|].
    now rewrite andb_false_r.
  - now rewrite andb_false_r.
Qed.

(** The inner loop of the reader ends: on a buffer of fewer bytes than the
    tests allowed, and within what [std::string] can hold, it returns; it
    does not throw; to allow it more tests does not change what it returns;
    the buffer it leaves holds no line terminator; and the port stays as it
    was, so that the outer loop goes on. *)
Theorem line_loop_terminates (fuel : nat) (lineBuffer : string)
    (m : MarlinController.t) :
  size lineBuffer < 2 ^ 64 ->
  (String.length lineBuffer < fuel)%nat ->
  exists rest m',
    drain fuel lineBuffer m = Returns (rest, m')
    /\ drain (S (String.length lineBuffer)) lineBuffer m = Returns (rest, m')
    /\ find rest LF 0 = npos
    /\ MarlinController.isConnected m' = MarlinController.isConnected m.
Proof.
  intros Hs Hf.
  destruct (drain_returns fuel lineBuffer m Hs Hf)
    as (rest & m' & E & Hc & _ & Hp).
  exists rest, m'. split; [exact E|]. split; [|split].
  - rewrite <- E. apply drain_enough; [assumption | lia | assumption].
  - now apply find_cut_none.
  - unfold MarlinController.isConnected. now rewrite Hp.
Qed.

(** How [read] cuts the byte stream into chunks does not matter: on an open
    port, starting with a buffer that holds no complete line, the thread
    function leaves the buffer and the controller as the inner loop does
    when run once on the old buffer followed by everything the reads
    appended. *)
Theorem reader_ignores_chunking (reads : list string) (lineBuffer : string)
    (m : MarlinController.t) :
  MarlinController.isConnected m = true ->
  find lineBuffer LF 0 = npos ->
  size (lineBuffer ++ appended reads) < 2 ^ 64 ->
  readerThreadFunction reads (lineBuffer, m)
  = drain (S (String.length (lineBuffer ++ appended reads)))
      (lineBuffer ++ appended reads) m.
Proof.
  revert lineBuffer m.
  induction reads as [|buffer reads IH]; intros lb m Hp Hlb Hs.
  - unfold appended in *. cbn [map fold_right] in *.
    rewrite append_empty in *. cbn [readerThreadFunction].
    rewrite drain_step by assumption.
    now rewrite (cut_none_find lb Hs Hlb).
  - cbn [readerThreadFunction snd]. rewrite Hp.
    assert (Ha : appended (buffer :: reads) = c_str buffer ++ appended reads)
      by reflexivity.
    rewrite Ha in *. clear Ha. unfold readerPass.
    destruct (Z.ltb_spec 0 (size buffer)) as [Hb|Hb].
    + cbv zeta. rewrite <- append_assoc in *.
      set (lb1 := lb ++ c_str buffer) in *.
      assert (Hs1 : size lb1 < 2 ^ 64)
        by (unfold size in *; rewrite length_append in Hs; lia).
      destruct (drain_returns (S (String.length lb1)) lb1 m Hs1)
        as (rest & m' & E & Hc & Hlen & Hport); [lia|].
      rewrite E.
      assert (Hs2 : size (rest ++ appended reads) < 2 ^ 64)
        by (unfold size in *; rewrite length_append in *; lia).
      rewrite IH;
        [ | unfold MarlinController.isConnected in *; now rewrite Hport
          | now apply find_cut_none | assumption ].
      symmetry. exact (drain_append _ _ _ _ _ _ Hs E).
    + assert (Hbuf : buffer = "")
        by (destruct buffer; [reflexivity | unfold size in Hb; cbn in Hb; lia]).
      subst buffer. cbn [c_str String.append] in *. now apply IH.
Qed.

(** A line that arrives in two pieces is handed over whole and once: with
    the beginning [pending] in the buffer, a read that brings the rest and
    the terminator makes one call of [handleResponse] on the two joined,
    none if they are empty, and leaves the buffer empty.  A carriage return
    before the terminator is dropped. *)
Theorem reader_joins_partial_line (pending chunk : string)
    (m : MarlinController.t) :
  find pending LF 0 = npos ->
  find chunk LF 0 = npos ->
  c_str chunk = chunk ->
  size (pending ++ chunk) + 2 < 2 ^ 64 ->
  readerPass (chunk ++ String CR LF) (pending, m)
  = Returns ("", hand_over (pending ++ chunk) m)
  /\ (back (pending ++ chunk) <> Some CR ->
      readerPass (chunk ++ LF) (pending, m)
      = Returns ("", hand_over (pending ++ chunk) m)).
Proof.
  intros Hp Hk Hn Hs.
  assert (Hsz : size pending < 2 ^ 64 /\ size chunk < 2 ^ 64)
    by (unfold size in *; rewrite length_append in Hs; lia).
  destruct Hsz as (Hsp & Hsk).
  apply cut_none_find in Hp; [|assumption].
  apply cut_none_find in Hk; [|assumption].
  assert (Hfuel : forall tail l,
    cut tail = Some (l, "") ->
    (String.length tail <= 2)%nat ->
    drain (S (String.length (pending ++ chunk ++ tail)))
      (pending ++ chunk ++ tail) m
    = Returns ("", hand_over (stripped (pending ++ chunk ++ l)) m)).
  { intros tail l Ht Hl.
    assert (Hst : size (pending ++ chunk ++ tail) < 2 ^ 64)
      by (unfold size in *; rewrite !length_append in *; lia).
    rewrite drain_step by assumption.
    rewrite !cut_append, Hp, Hk, Ht.
    pose proof (cut_length _ _ _ Ht) as Hlt.
    rewrite !length_append.
    replace (String.length pending + (String.length chunk
                                      + String.length tail))%nat
      with (S (String.length pending + String.length chunk
               + String.length l))%nat by (cbn in Hlt; lia).
    rewrite drain_step by (cbn; lia). reflexivity. }
  split.
  - unfold readerPass.
    destruct (Z.ltb_spec 0 (size (chunk ++ String CR LF))) as [_|Hb];
      [|unfold size in Hb; rewrite length_append in Hb; cbn in Hb; lia].
    cbv zeta. rewrite (c_str_append _ _ Hn).
    change (c_str (String CR LF)) with (String CR LF).
    rewrite (Hfuel (String CR LF) (String CR "")); [|reflexivity|cbn; lia].
    now rewrite <- append_assoc, stripped_CR.
  - intros Hback. unfold readerPass.
    destruct (Z.ltb_spec 0 (size (chunk ++ LF))) as [_|Hb];
      [|unfold size in Hb; rewrite length_append in Hb; cbn in Hb; lia].
    cbv zeta. rewrite (c_str_append _ _ Hn).
    change (c_str LF) with LF.
    rewrite (Hfuel LF ""); [|reflexivity|cbn; lia].
    now rewrite append_empty, stripped_other.
Qed.

End ReaderThread.

Lemma line_loop_terminates_witness :
  exists rest m',
    @Reader.drain QDouble.ops 9 ("ok" ++ LF ++ "ech") marlin0
    = Reader.Returns (rest, m')
    /\ Reader.drain 7 ("ok" ++ LF ++ "ech") marlin0 = Reader.Returns (rest, m')
    /\ find rest LF 0 = npos
    /\ MarlinController.isConnected m' = MarlinController.isConnected marlin0.
Proof.
  apply (@line_loop_terminates QDouble.ops 9 ("ok" ++ LF ++ "ech") marlin0).
  - vm_compute. reflexivity.
  - vm_compute. lia.
Defined.

Lemma reader_ignores_chunking_witness :
  @Reader.readerThreadFunction QDouble.ops
    ["o"; "k" ++ LF ++ "X:1"; ""; ".5 Y:0 Z:2 " ++ LF] ("", marlin0)
  = Reader.drain 19 ("ok" ++ LF ++ "X:1.5 Y:0 Z:2 " ++ LF) marlin0.
Proof.
  apply (@reader_ignores_chunking QDouble.ops
           ["o"; "k" ++ LF ++ "X:1"; ""; ".5 Y:0 Z:2 " ++ LF] "" marlin0).
  - reflexivity.
  - reflexivity.
  - vm_compute. reflexivity.
Defined.

Lemma reader_joins_partial_line_witness :
  @Reader.readerPass QDouble.ops ("k" ++ String Reader.CR LF) ("o", marlin0)
  = Reader.Returns ("", Reader.hand_over "ok" marlin0).
Proof.
  assert (Hp : find "o" LF 0 = npos) by reflexivity.
  assert (Hk : find "k" LF 0 = npos) by reflexivity.
  assert (Hn : Reader.c_str "k" = "k") by reflexivity.
  assert (Hs : size ("o" ++ "k") + 2 < 2 ^ 64) by (vm_compute; reflexivity).
  exact (proj1 (@reader_joins_partial_line QDouble.ops "o" "k" marlin0
                  Hp Hk Hn Hs)).
Defined.
(** ** A position report as Marlin sends it *)

Lemma prefix_empty (s : string) : String.prefix "" s = true.
Proof. now destruct s. Qed.

Lemma index_char_cons (c x : ascii) (a : string) :
  String.index 0 (String c "") (String x a) = None ->
  x <> c /\ String.index 0 (String c "") a = None.
Proof.
  cbn [String.index String.prefix].
  destruct (ascii_dec c x) as [<-|Hne].
  - destruct a; discriminate.
  - destruct (String.index 0 (String c "") a); [discriminate|].
    intros _. split; congruence.
Qed.

Lemma index_skip (c : ascii) (p a s : string) :
  String.index 0 (String c "") a = None ->
  String.index 0 (String c p) (a ++ s)
  = match String.index 0 (String c p) s with
    | Some n => Some (String.length a + n)%nat
    | None => None
    end.
Proof.
  induction a as [|x a IH]; intros Ha.
  - cbn [String.append String.length]. now destruct (String.index _ _ s).
  - apply index_char_cons in Ha as (Hne & Ha).
    cbn [String.append String.index String.prefix String.length].
    destruct (ascii_dec c x) as [<-|_]; [congruence|].
    rewrite (IH Ha). now destruct (String.index 0 (String c p) s).
Qed.

Lemma index_from (pat a s : string) :
  String.index (String.length a) pat (a ++ s)
  = match String.index 0 pat s with
    | Some n => Some (String.length a + n)%nat
    | None => None
    end.
Proof.
  induction a as [|x a IH].
  - cbn [String.append String.length]. now destruct (String.index 0 pat s).
  - cbn [String.append String.length String.index]. rewrite IH.
    now destruct (String.index 0 pat s).
Qed.

Lemma substring_middle (a b c : string) :
  String.substring (String.length a) (String.length b) (a ++ b ++ c) = b.
Proof.
  induction a as [|x a IH]; [|exact IH].
  cbn [String.append String.length].
  induction b as [|y b IHb]; [now destruct c|].
  cbn. now rewrite IHb.
Qed.

Lemma index_char_bound (c : ascii) (a : string) (i : nat) :
  String.index 0 (String c "") a = Some i -> (i < String.length a)%nat.
Proof.
  revert i. induction a as [|x a IH]; intros i; [discriminate|].
  cbn [String.index String.prefix String.length].
  destruct (ascii_dec c x) as [_|_].
  - destruct a; intros [= <-]; lia.
  - destruct (String.index 0 (String c "") a) as [n|]; [|discriminate].
    intros [= <-]. specialize (IH n eq_refl). lia.
Qed.

Lemma find_char_none (c : ascii) (a : string) :
  size a < 2 ^ 64 ->
  find a (String c "") 0 = npos ->
  String.index 0 (String c "") a = None.
Proof.
  unfold find, size, npos. intros Hs.
  destruct (Z.ltb_spec (Z.of_nat (String.length a)) 0); [lia|].
  cbn [Z.to_nat].
  destruct (String.index 0 (String c "") a) as [i|] eqn:E; [|reflexivity].
  apply index_char_bound in E. lia.
Qed.

Lemma index_char_append (c : ascii) (a b : string) :
  String.index 0 (String c "") a = None ->
  String.index 0 (String c "") b = None ->
  String.index 0 (String c "") (a ++ b) = None.
Proof. intros Ha Hb. now rewrite (index_skip c "" a b Ha), Hb. Qed.

Section PositionReport.
Context {D : DoubleOps}.

Import MarlinController.

(** A report "X:x Y:y Z:z tail" sets the position to what [std::stod] reads
    in [x] and in [z], and changes nothing else, in every protocol state:
    provided [x] has no space, the letter Z occurs neither in [x] nor in
    [y], [z] has no space and is followed by one, and both fields parse. *)
Theorem position_report_is_read (x y z tail : string) (vx vz : double)
    (m : MarlinController.t) :
  let response := "X:" ++ x ++ " Y:" ++ y ++ " Z:" ++ z ++ " " ++ tail in
  size response < 2 ^ 64 ->
  find x " " 0 = npos ->
  find x "Z" 0 = npos ->
  find y "Z" 0 = npos ->
  find z " " 0 = npos ->
  stod x = Some vx ->
  stod z = Some vz ->
  handleResponse response m = set_zPos vz (set_xPos vx m).
Proof.
  intros response Hs Hxs HxZ HyZ Hzs Hvx Hvz.
  assert (Hlen : String.length response
                 = (2 + String.length x + 3 + String.length y + 3
                    + String.length z + 1 + String.length tail)%nat).
  { unfold response. rewrite !length_append. cbn [String.length]. lia. }
  assert (Hsx : size x < 2 ^ 64 /\ size y < 2 ^ 64 /\ size z < 2 ^ 64)
    by (unfold size in *; lia).
  destruct Hsx as (Hsx & Hsy & Hsz).
  apply find_char_none in Hxs, HxZ, HyZ, Hzs; try assumption.
  set (P := "X:" ++ x ++ " Y:" ++ y ++ " ").
  set (R := z ++ " " ++ tail).
  assert (HP : response = P ++ "Z:" ++ R).
  { unfold response, P, R. rewrite !append_assoc. reflexivity. }
  assert (HlP : String.length P
                = (2 + String.length x + 3 + String.length y + 1)%nat).
  { unfold P. rewrite !length_append. cbn [String.length]. lia. }
  (* the two markers *)
  assert (Hfx : find response "X:" 0 = 0).
  { apply Z.eqb_eq. rewrite find_X_prefix. unfold response.
    cbn. now destruct (x ++ _). }
  assert (Hfz : find response "Z:" 0 = Z.of_nat (String.length P)).
  { unfold find.
    destruct (Z.ltb_spec (size response) 0); [unfold size in *; lia|].
    cbn [Z.to_nat]. rewrite HP, index_skip.
    - cbn [String.append String.index String.prefix].
      destruct (ascii_dec "Z" "Z") as [_|Hn]; [|congruence].
      destruct (ascii_dec ":" ":") as [_|Hn]; [|congruence].
      rewrite ?prefix_empty.
      f_equal. lia.
    - unfold P. change ("X:" ++ x ++ " Y:" ++ y ++ " ")
        with (String "X" (String ":" (x ++ " Y:" ++ y ++ " "))).
      cbn [String.index String.prefix].
      destruct (ascii_dec "Z" "X") as [Hn|_]; [discriminate Hn|].
      destruct (ascii_dec "Z" ":") as [Hn|_]; [discriminate Hn|].
      rewrite index_char_append; [reflexivity | assumption |].
      change (" Y:" ++ y ++ " ")
        with (String " " (String "Y" (String ":" (y ++ " ")))).
      cbn [String.index String.prefix].
      destruct (ascii_dec "Z" " ") as [Hn|_]; [discriminate Hn|].
      destruct (ascii_dec "Z" "Y") as [Hn|_]; [discriminate Hn|].
      destruct (ascii_dec "Z" ":") as [Hn|_]; [discriminate Hn|].
      now rewrite index_char_append. }
  (* the X field *)
  assert (Hx : stod_field response 0 = Some vx).
  { unfold stod_field.
    assert (Hsp : find response " " 0 = 2 + size x).
    { unfold find.
      destruct (Z.ltb_spec (size response) 0); [unfold size in *; lia|].
      cbn [Z.to_nat]. unfold response.
      change ("X:" ++ x ++ " Y:" ++ y ++ " Z:" ++ z ++ " " ++ tail)
        with (String "X" (String ":"
                (x ++ " Y:" ++ y ++ " Z:" ++ z ++ " " ++ tail))).
      cbn [String.index String.prefix].
      destruct (ascii_dec " " "X") as [Hn|_]; [discriminate Hn|].
      destruct (ascii_dec " " ":") as [Hn|_]; [discriminate Hn|].
      rewrite (index_skip " " "" x _ Hxs).
      cbn [String.append String.index String.prefix].
      destruct (ascii_dec " " " ") as [_|Hn]; [|congruence].
      rewrite ?prefix_empty.
      unfold size. lia. }
    rewrite Hsp. unfold substr, size_sub.
    destruct (Z.ltb_spec (size response) (0 + 2));
      [unfold size in *; lia|].
    replace (Z.to_nat (0 + 2)) with (String.length "X:") by reflexivity.
    replace (Z.to_nat (Z.min ((2 + size x - (0 + 2)) mod 2 ^ 64)
                              (size response - (0 + 2))))
      with (String.length x).
    2:{ rewrite Z.mod_small by (unfold size in *; lia).
        unfold size in *. lia. }
    unfold response. rewrite substring_middle. exact Hvx. }
  (* the Z field *)
  assert (Hz : stod_field response (Z.of_nat (String.length P)) = Some vz).
  { unfold stod_field.
    assert (Hsp : find response " " (Z.of_nat (String.length P))
                  = Z.of_nat (String.length P) + 2 + size z).
    { unfold find.
      destruct (Z.ltb_spec (size response) (Z.of_nat (String.length P)));
        [unfold size in *; lia|].
      rewrite Nat2Z.id, HP, index_from.
      change ("Z:" ++ R) with (String "Z" (String ":" R)).
      cbn [String.index String.prefix].
      destruct (ascii_dec " " "Z") as [Hn|_]; [discriminate Hn|].
      destruct (ascii_dec " " ":") as [Hn|_]; [discriminate Hn|].
      unfold R. rewrite (index_skip " " "" z _ Hzs).
      cbn [String.append String.index String.prefix].
      destruct (ascii_dec " " " ") as [_|Hn]; [|congruence].
      rewrite ?prefix_empty.
      unfold size. lia. }
    rewrite Hsp. unfold substr, size_sub.
    destruct (Z.ltb_spec (size response) (Z.of_nat (String.length P) + 2));
      [unfold size in *; lia|].
    replace (Z.to_nat (Z.of_nat (String.length P) + 2))
      with (String.length (P ++ "Z:"))
      by (rewrite length_append; cbn [String.length]; lia).
    replace (Z.to_nat
               (Z.min ((Z.of_nat (String.length P) + 2 + size z
                        - (Z.of_nat (String.length P) + 2)) mod 2 ^ 64)
                      (size response - (Z.of_nat (String.length P) + 2))))
      with (String.length z).
    2:{ replace (Z.of_nat (String.length P) + 2 + size z
                 - (Z.of_nat (String.length P) + 2)) with (size z) by lia.
        rewrite Z.mod_small by (unfold size in *; lia).
        unfold size in *. lia. }
    replace response with ((P ++ "Z:") ++ z ++ " " ++ tail)
      by (rewrite HP; unfold R; now rewrite append_assoc).
    rewrite substring_middle. exact Hvz. }
  unfold handleResponse. rewrite Hfx. cbn [Z.eqb].
  unfold extractPosition. cbv zeta. rewrite Hfx, Hfz, Hx, Hz.
  assert (Hn0 : (0 =? npos) = false) by reflexivity.
  assert (Hn1 : (Z.of_nat (String.length P) =? npos) = false)
    by (apply Z.eqb_neq; unfold size, npos in *; lia).
  now rewrite Hn0, Hn1.
Qed.

End PositionReport.

Lemma position_report_is_read_witness :
  @MarlinController.handleResponse QDouble.ops
    "X:12.50 Y:370.00 Z:3.25 E:0.00 Count X:1000 Y:29600 Z:1300" marlin0
  = MarlinController.set_zPos (dbl 3.25)
      (MarlinController.set_xPos (dbl 12.50) marlin0).
Proof.
  apply (@position_report_is_read QDouble.ops "12.50" "370.00" "3.25"
           "E:0.00 Count X:1000 Y:29600 Z:1300" (dbl 12.50) (dbl 3.25)
           marlin0).
  - vm_compute. reflexivity.
  - reflexivity.
  - reflexivity.
  - reflexivity.
  - reflexivity.
  - reflexivity.
  - reflexivity.
Defined.
